(** * Valuation engine of valuation-mcp-server: a shallow embedding

    The scoring code of [src/tools/valuation_models.py] and
    [src/tools/package_stats.py] is embedded as Rocq functions.

    Numeric model.  Python [int] values are [Z]; Python [float] values are
    idealised as real numbers ([R]): every arithmetic operation is the exact
    one, so nothing below speaks about binary rounding error.  An [int]
    becomes a [float] where the source divides or multiplies it by a float
    ([IZR]).  Dictionaries read with [d.get(key, default)] are records whose
    fields are [option]s, [None] standing for an absent key. *)

From Stdlib Require Import Reals Lra Lia ZArith List String Bool Permutation.
Import ListNotations.

Open Scope R_scope.

(** ** Python primitives *)

Module Py.

(** [d.get(key, default)] on an optional field. *)
Definition get {A : Type} (field : option A) (default : A) : A :=
  match field with
  | Some v => v
  | None => default
  end.

(** [x ** e] on floats, for a base [x >= 0] and an exponent [e > 0]:
    [0.0 ** e] is [0.0], and a positive base gives [exp (e * ln x)].
    (A negative base with a fractional exponent leaves the floats in
    Python; every statement below is about bases that are not negative.) *)
Definition pow (x e : R) : R :=
  if Req_dec_T x 0 then 0 else Rpower x e.

(** Nearest integer, ties to the even one: the rounding rule of [round]. *)
Definition round_half_even (y : R) : Z :=
  let f := Int_part y in
  let d := y - IZR f in
  if Rlt_dec d (1 / 2) then f
  else if Rlt_dec (1 / 2) d then (f + 1)%Z
  else if Z.even f then f else (f + 1)%Z.

(** [round(x, ndigits)]. *)
Definition round (x : R) (ndigits : nat) : R :=
  IZR (round_half_even (x * 10 ^ ndigits)) / 10 ^ ndigits.

(** [a / b]: raises [ZeroDivisionError] ([None]) when [b] is zero. *)
Definition div (a b : R) : option R :=
  if Req_dec_T b 0 then None else Some (a / b).

(** [sum(...)] over a list of floats. *)
Definition sum (l : list R) : R := fold_left Rplus l 0.

(** [sum(...)] over a list of ints. *)
Definition sumZ (l : list Z) : Z := fold_left Z.add l 0%Z.

End Py.

(** ** Data model

    The records the engine consumes.  Field names are the dictionary keys of
    the source; a field that is [None] is a key that is absent. *)

Record RepoMetrics := {
  stars : option Z;
  forks : option Z;
  watchers : option Z;
  open_issues : option Z
}.

Record RepoScores := {
  health_score : option R;
  activity_score : option R;
  community_score : option R;
  overall_score : option R
}.

Record DevInfo := {
  total_commits : option Z;
  contributors : option Z;
  commit_frequency : option R
}.

Record RepoData := {
  metrics : option RepoMetrics;
  scores : option RepoScores;
  development : option DevInfo
}.

(** The dataclass [ValuationInputs]. *)
Record ValuationInputs := {
  repo_data : RepoData;
  team_size : Z;
  hourly_rate : R;
  development_months : Z;
  market_multiplier : R
}.

(** The empty dictionary [{}] at each of the three record types. *)
Definition no_metrics : RepoMetrics :=
  {| stars := None; forks := None; watchers := None; open_issues := None |}.
Definition no_scores : RepoScores :=
  {| health_score := None; activity_score := None;
     community_score := None; overall_score := None |}.
Definition no_development : DevInfo :=
  {| total_commits := None; contributors := None; commit_frequency := None |}.

(** One entry of [comparable_data]. *)
Module Comparable.
Record t := { value : option R; stars : option Z }.
End Comparable.

(** The codebase-analysis record and its sub-records. *)
Record QualityScores := { maintainability_index : option R }.

Record Architecture := {
  modularity_score : option R;
  coupling_score : option R;
  cohesion_score : option R
}.

Record Dependencies := {
  security_vulnerabilities : option Z;
  critical_vulnerabilities : option Z;
  outdated_percentage : option R
}.

Record TestCoverage := { overall_coverage : option R }.

Record Documentation := { readme_quality_score : option R }.

Record CodebaseAnalysis := {
  status : option string;
  quality_scores : option QualityScores;
  architecture : option Architecture;
  dependencies : option Dependencies;
  test_coverage : option TestCoverage;
  documentation : option Documentation
}.

Definition no_quality_scores : QualityScores := {| maintainability_index := None |}.
Definition no_architecture : Architecture :=
  {| modularity_score := None; coupling_score := None; cohesion_score := None |}.
Definition no_dependencies : Dependencies :=
  {| security_vulnerabilities := None; critical_vulnerabilities := None;
     outdated_percentage := None |}.
Definition no_test_coverage : TestCoverage := {| overall_coverage := None |}.
Definition no_documentation : Documentation := {| readme_quality_score := None |}.

(** A dictionary from names to floats, in insertion order. *)
Definition dict := list (string * R).

Fixpoint lookup (key : string) (d : dict) : option R :=
  match d with
  | [] => None
  | (k, v) :: rest => if String.eqb key k then Some v else lookup key rest
  end.

Definition keys (d : dict) : list string := map fst d.

(** ** Alternate valuation methods *)

(** [calculate_cost_based]. *)
Definition calculate_cost_based (inputs : ValuationInputs) : R :=
  let dev_hours := (team_size inputs * 160 * development_months inputs)%Z in
  IZR dev_hours * hourly_rate inputs.

(** [calculate_market_based].  [comparable_data] is [None] for the default
    argument; [None] as a result is a raised [ZeroDivisionError]. *)
Definition calculate_market_based (inputs : ValuationInputs)
    (comparable_data : option (list Comparable.t)) : option R :=
  let comparable_data := Py.get comparable_data [] in
  match comparable_data with
  | [] =>
      let stars := Py.get (stars (Py.get (metrics (repo_data inputs)) no_metrics)) 0%Z in
      Some (IZR (stars * 1000) * market_multiplier inputs)
  | _ :: _ =>
      let total_value :=
        Py.sum (map (fun comp => Py.get (Comparable.value comp) 0) comparable_data) in
      let total_stars :=
        Py.sumZ (map (fun comp => Py.get (Comparable.stars comp) 1%Z) comparable_data) in
      if (total_stars =? 0)%Z then Some 0
      else
        match Py.div total_value (IZR total_stars) with
        | None => None
        | Some stars_per_dollar =>
            let repo_stars :=
              Py.get (stars (Py.get (metrics (repo_data inputs)) no_metrics)) 0%Z in
            Some (IZR repo_stars * stars_per_dollar * market_multiplier inputs)
        end
  end.

(** The weight table of the scorecard method. *)
Definition factors : dict :=
  [ ("technology_quality", 0.25);
    ("market_opportunity", 0.20);
    ("development_team", 0.15);
    ("competitive_position", 0.15);
    ("deployment_readiness", 0.15);
    ("documentation", 0.10) ]%string.

(** [d[key]] for a key the table holds. *)
Definition item (d : dict) (key : string) : R := Py.get (lookup key d) 0.

(** The [scores] dictionary [calculate_scorecard] fills, before rounding. *)
Definition scorecard_scores (inputs : ValuationInputs) : dict :=
  let repo_metrics := Py.get (metrics (repo_data inputs)) no_metrics in
  let repo_scores := Py.get (scores (repo_data inputs)) no_scores in
  let overall_score := Py.get (overall_score repo_scores) 0.5 in
  let stars := Py.get (stars repo_metrics) 0%Z in
  let forks := Py.get (forks repo_metrics) 0%Z in
  let market_potential := Rmin (IZR (stars + forks) / 1000) 1.0 in
  let dev_info := Py.get (development (repo_data inputs)) no_development in
  let contributors := Py.get (contributors dev_info) 0%Z in
  let team_score := Rmin (IZR contributors / 50) 1.0 in
  let activity_score := Py.get (activity_score repo_scores) 0.5 in
  let health_score := Py.get (health_score repo_scores) 0.5 in
  [ ("technology_quality", Rmin overall_score 1.0 * item factors "technology_quality");
    ("market_opportunity", market_potential * item factors "market_opportunity");
    ("development_team", team_score * item factors "development_team");
    ("competitive_position", activity_score * item factors "competitive_position");
    ("deployment_readiness", 0.8 * item factors "deployment_readiness");
    ("documentation", health_score * item factors "documentation") ]%string.

Record ValuationRange := { low : R; medium : R; high : R }.

Record ScorecardResult := {
  total_score : R;
  factor_scores : dict;
  valuation_range : ValuationRange;
  method : string
}.

(** [total_score] before it is rounded for the result. *)
Definition scorecard_total (inputs : ValuationInputs) : R :=
  Py.sum (map snd (scorecard_scores inputs)).

(** [base_range]: the three tiers before they are rounded to cents. *)
Definition base_range (total_score : R) : ValuationRange :=
  {| low := Rmax (10000 * total_score) 5000;
     medium := Rmax (50000 * total_score) 25000;
     high := Rmax (250000 * total_score) 100000 |}.

(** [calculate_scorecard]. *)
Definition calculate_scorecard (inputs : ValuationInputs) : ScorecardResult :=
  let scores := scorecard_scores inputs in
  let total_score := scorecard_total inputs in
  let base_range := base_range total_score in
  {| total_score := Py.round total_score 3;
     factor_scores := map (fun kv => (fst kv, Py.round (snd kv) 3)) scores;
     valuation_range :=
       {| low := Py.round (low base_range) 2;
          medium := Py.round (medium base_range) 2;
          high := Py.round (high base_range) 2 |};
     method := "scorecard" |}.

(** ** The Unicorn Hunter method *)

(** [has_codebase_analysis]: the record is given and its status is
    ["success"]. *)
Definition has_codebase_analysis (codebase_analysis : option CodebaseAnalysis) : bool :=
  match codebase_analysis with
  | None => false
  | Some a =>
      match status a with
      | Some s => String.eqb s "success"
      | None => false
      end
  end.

(** *** The six metric sub-scores *)

Definition star_score (stars : R) : R :=
  Rmin 100 (Rmax 0 (20 * (1 + Py.pow (stars / 1000) 0.3))).
Definition fork_score (forks : R) : R :=
  Rmin 100 (Rmax 0 (15 * (1 + Py.pow (forks / 500) 0.3))).
Definition watcher_score (watchers : R) : R :=
  Rmin 100 (Rmax 0 (10 * (1 + Py.pow (watchers / 200) 0.3))).
Definition contributor_score (contributors : R) : R :=
  Rmin 100 (Rmax 0 (30 * (1 + Py.pow (contributors / 50) 0.4))).
Definition commit_score (total_commits : R) : R :=
  Rmin 100 (Rmax 0 (40 * (1 + Py.pow (total_commits / 1000) 0.3))).
Definition frequency_score (commit_frequency : R) : R :=
  Rmin 100 (Rmax 0 (30 * (1 + Py.pow (commit_frequency / 10) 0.5))).

(** *** The composite dimensions, before rounding *)

Definition community_momentum (stars forks watchers : R) : R :=
  star_score stars * 0.5 + fork_score forks * 0.3 + watcher_score watchers * 0.2.

Definition development_velocity (contributors total_commits commit_frequency : R) : R :=
  contributor_score contributors * 0.3 + commit_score total_commits * 0.4
  + frequency_score commit_frequency * 0.3.

Definition base_tech_quality (repo_scores : RepoScores) : R :=
  let overall_score := Py.get (overall_score repo_scores) 0.5 in
  let health_score := Py.get (health_score repo_scores) 0.5 in
  let activity_score := Py.get (activity_score repo_scores) 0.5 in
  (overall_score * 0.4 + health_score * 0.3 + activity_score * 0.3) * 100.

(** The branch taken when [has_codebase_analysis] holds. *)
Definition enhanced_tech_quality (base_tech_quality : R) (codebase_analysis : CodebaseAnalysis) : R :=
  let quality_scores := Py.get (quality_scores codebase_analysis) no_quality_scores in
  let architecture := Py.get (architecture codebase_analysis) no_architecture in
  let dependencies := Py.get (dependencies codebase_analysis) no_dependencies in
  let maintainability := Py.get (maintainability_index quality_scores) 50 in
  let code_quality_score := maintainability * 0.4 in
  let modularity := Py.get (modularity_score architecture) 5 * 10 in
  let coupling := Py.get (coupling_score architecture) 5 in
  let cohesion := Py.get (cohesion_score architecture) 5 * 10 in
  let arch_score :=
    (modularity * 0.4 + (10 - coupling) * 10 * 0.3 + cohesion * 0.3) * 0.3 in
  let vulns := Py.get (security_vulnerabilities dependencies) 0%Z in
  let outdated_pct := Py.get (outdated_percentage dependencies) 0 in
  let dep_score := Rmax 0 (100 - IZR (vulns * 5) - outdated_pct * 0.5) * 0.3 in
  base_tech_quality * 0.3 + code_quality_score + arch_score + dep_score.

Definition technology_quality (repo_scores : RepoScores)
    (codebase_analysis : option CodebaseAnalysis) : R :=
  let base_tech_quality := base_tech_quality repo_scores in
  match codebase_analysis with
  | Some a =>
      if has_codebase_analysis codebase_analysis
      then enhanced_tech_quality base_tech_quality a
      else base_tech_quality
  | None => base_tech_quality
  end.

Definition market_potential (stars forks contributors : R) : R :=
  Rmin 100 (Rmax 0 (25 * (1 + Py.pow (stars / 5000) 0.4)
                    + 20 * (1 + Py.pow (forks / 1000) 0.4)
                    + 15 * (1 + Py.pow (contributors / 100) 0.3))).

Definition network_effects (forks watchers : R) : R :=
  Rmin 100 (Rmax 0 (50 * (1 + Py.pow (forks / 2000) 0.3)
                    + 50 * (1 + Py.pow (watchers / 500) 0.3))).

(** The entries the analysis branch adds to [scores]. *)
Definition analysis_scores (codebase_analysis : CodebaseAnalysis) : dict :=
  let quality_scores := Py.get (quality_scores codebase_analysis) no_quality_scores in
  let test_coverage := Py.get (test_coverage codebase_analysis) no_test_coverage in
  let documentation := Py.get (documentation codebase_analysis) no_documentation in
  let maintainability := Py.get (maintainability_index quality_scores) 50 in
  let test_cov := Py.get (overall_coverage test_coverage) 0 in
  let doc_quality := Py.get (readme_quality_score documentation) 0 * 10 in
  let code_quality := maintainability * 0.4 + test_cov * 0.35 + doc_quality * 0.25 in
  let dependencies := Py.get (dependencies codebase_analysis) no_dependencies in
  let vulns := Py.get (security_vulnerabilities dependencies) 0%Z in
  let critical_vulns := Py.get (critical_vulnerabilities dependencies) 0%Z in
  let security_score := Z.max 0 (100 - critical_vulns * 20 - vulns * 5) in
  [ ("code_quality", Py.round code_quality 1);
    ("maintainability", Py.round maintainability 1);
    ("test_reliability", Py.round test_cov 1);
    ("security_posture", Py.round (IZR security_score) 1) ]%string.

(** The entries written instead when there is no trusted analysis. *)
Definition default_analysis_scores : dict :=
  [ ("code_quality", 0); ("maintainability", 0);
    ("test_reliability", 0); ("security_posture", 0) ]%string.

(** The dictionary [scores] as it stands when the weighted sum is taken. *)
Definition component_scores_of (inputs : ValuationInputs)
    (codebase_analysis : option CodebaseAnalysis) : dict :=
  let repo_metrics := Py.get (metrics (repo_data inputs)) no_metrics in
  let repo_scores := Py.get (scores (repo_data inputs)) no_scores in
  let dev_info := Py.get (development (repo_data inputs)) no_development in
  let stars := IZR (Py.get (stars repo_metrics) 0%Z) in
  let forks := IZR (Py.get (forks repo_metrics) 0%Z) in
  let watchers := IZR (Py.get (watchers repo_metrics) 0%Z) in
  let contributors := IZR (Py.get (contributors dev_info) 0%Z) in
  let total_commits := IZR (Py.get (total_commits dev_info) 0%Z) in
  let commit_frequency := Py.get (commit_frequency dev_info) 0 in
  [ ("community_momentum", Py.round (community_momentum stars forks watchers) 1);
    ("development_velocity",
       Py.round (development_velocity contributors total_commits commit_frequency) 1);
    ("technology_quality", Py.round (technology_quality repo_scores codebase_analysis) 1);
    ("market_potential", Py.round (market_potential stars forks contributors) 1);
    ("network_effects", Py.round (network_effects forks watchers) 1) ]%string
  ++ match codebase_analysis with
     | Some a =>
         if has_codebase_analysis codebase_analysis
         then analysis_scores a else default_analysis_scores
     | None => default_analysis_scores
     end.

(** The two weight tables. *)
Definition weights_with_analysis : dict :=
  [ ("community_momentum", 0.25);
    ("development_velocity", 0.15);
    ("technology_quality", 0.20);
    ("market_potential", 0.15);
    ("network_effects", 0.10);
    ("code_quality", 0.10);
    ("security_posture", 0.05) ]%string.

Definition weights_without_analysis : dict :=
  [ ("community_momentum", 0.25);
    ("development_velocity", 0.20);
    ("technology_quality", 0.20);
    ("market_potential", 0.20);
    ("network_effects", 0.15) ]%string.

Definition weights_of (has_codebase_analysis : bool) : dict :=
  if has_codebase_analysis then weights_with_analysis else weights_without_analysis.

(** [sum(scores[key] * weights[key] for key in weights.keys() if key in scores)]. *)
Definition weighted_sum (scores weights : dict) : R :=
  Py.sum
    (flat_map
       (fun key =>
          match lookup key scores with
          | Some s => [s * item weights key]
          | None => []
          end)
       (keys weights)).

(** [unicorn_score], rounded to one decimal as the result carries it. *)
Definition unicorn_score_of (inputs : ValuationInputs)
    (codebase_analysis : option CodebaseAnalysis) : R :=
  let scores := component_scores_of inputs codebase_analysis in
  let weights := weights_of (has_codebase_analysis codebase_analysis) in
  Py.round (weighted_sum scores weights) 1.

(** *** Valuation mapper *)

Definition max_valuation : R := 1000000000.

Definition conservative (unicorn_score : R) : R :=
  Rmin max_valuation (Rmax 0 (Py.pow (unicorn_score / 100) 2.2 * 5000000)).
Definition realistic (unicorn_score : R) : R :=
  Rmin max_valuation (Rmax 0 (Py.pow (unicorn_score / 100) 2.5 * 10000000)).
Definition optimistic (unicorn_score : R) : R :=
  Rmin max_valuation (Rmax 0 (Py.pow (unicorn_score / 100) 2.8 * 20000000)).

Record SpeculativeRanges := {
  conservative_usd : R;
  realistic_usd : R;
  optimistic_usd : R;
  maximum_cap : R
}.

(** The [speculative_valuation_ranges] entry of the result, rounded to cents. *)
Definition speculative_valuation_ranges (unicorn_score : R) : SpeculativeRanges :=
  {| conservative_usd := Py.round (conservative unicorn_score) 2;
     realistic_usd := Py.round (realistic unicorn_score) 2;
     optimistic_usd := Py.round (optimistic unicorn_score) 2;
     maximum_cap := max_valuation |}.

(** *** Tier classification *)

Definition tier_of (unicorn_score : R) : string :=
  if Rle_dec 90 unicorn_score then "unicorn"
  else if Rle_dec 75 unicorn_score then "soaring"
  else if Rle_dec 60 unicorn_score then "rising_star"
  else if Rle_dec 45 unicorn_score then "promising"
  else if Rle_dec 30 unicorn_score then "early_stage"
  else "seed_stage".

Definition tiers : list string :=
  [ "unicorn"; "soaring"; "rising_star"; "promising"; "early_stage"; "seed_stage" ]%string.

Record UnicornResult := {
  unicorn_score : R;
  tier : string;
  component_scores : dict;
  ranges : SpeculativeRanges
}.

(** [calculate_unicorn_hunter]: the numeric part of the result (the status
    label follows the tier; the interpretation texts are left out). *)
Definition calculate_unicorn_hunter (inputs : ValuationInputs)
    (codebase_analysis : option CodebaseAnalysis) : UnicornResult :=
  let unicorn_score := unicorn_score_of inputs codebase_analysis in
  {| unicorn_score := unicorn_score;
     tier := tier_of unicorn_score;
     component_scores := component_scores_of inputs codebase_analysis;
     ranges := speculative_valuation_ranges unicorn_score |}.

(** ** Adoption score of a package ([PackageStatsTool.calculate_adoption_score]) *)

Record PackageStatsFields := {
  weekly_downloads : option Z;
  monthly_downloads : option Z;
  total_downloads : option Z;
  recent_downloads : option Z
}.

Definition no_package_stats : PackageStatsFields :=
  {| weekly_downloads := None; monthly_downloads := None;
     total_downloads := None; recent_downloads := None |}.

Module PackageStats.
Record t := {
  status : option string;
  package_manager : option string;
  stats : option PackageStatsFields
}.
End PackageStats.

Definition npm_score (weekly_downloads : Z) : R :=
  if (weekly_downloads >=? 100000)%Z then 100.0
  else if (weekly_downloads >=? 10000)%Z then
    50.0 + (IZR weekly_downloads / 10000) * 50.0
  else if (weekly_downloads >=? 1000)%Z then
    25.0 + (IZR (weekly_downloads - 1000) / 9000) * 25.0
  else if (weekly_downloads >=? 100)%Z then
    10.0 + (IZR (weekly_downloads - 100) / 900) * 15.0
  else Rmin 10.0 (IZR weekly_downloads / 10.0).

Definition pypi_score (monthly_downloads : Z) : R :=
  if (monthly_downloads >=? 500000)%Z then 100.0
  else if (monthly_downloads >=? 50000)%Z then
    50.0 + (IZR monthly_downloads / 50000) * 50.0
  else if (monthly_downloads >=? 5000)%Z then
    25.0 + (IZR (monthly_downloads - 5000) / 45000) * 25.0
  else if (monthly_downloads >=? 500)%Z then
    10.0 + (IZR (monthly_downloads - 500) / 4500) * 15.0
  else Rmin 10.0 (IZR monthly_downloads / 50.0).

Definition cargo_score (total_downloads recent_downloads : Z) : R :=
  let base_score :=
    if (total_downloads >=? 1000000)%Z then 100.0
    else if (total_downloads >=? 100000)%Z then
      50.0 + (IZR (total_downloads - 100000) / 900000) * 50.0
    else if (total_downloads >=? 10000)%Z then
      25.0 + (IZR (total_downloads - 10000) / 90000) * 25.0
    else Rmin 25.0 (IZR total_downloads / 400.0) in
  let recent_boost := Rmin 20.0 (IZR recent_downloads / 1000.0) in
  Rmin 100.0 (base_score + recent_boost).

(** [s == literal] for an optional string field. *)
Definition is_str (field : option string) (literal : string) : bool :=
  match field with
  | Some s => String.eqb s literal
  | None => false
  end.

(** [calculate_adoption_score]; [None] is the falsy [stats] argument. *)
Definition calculate_adoption_score (stats : option PackageStats.t) : R :=
  match stats with
  | None => 0.0
  | Some st =>
      if negb (is_str (PackageStats.status st) "success") then 0.0
      else
        let package_manager := PackageStats.package_manager st in
        let package_stats := Py.get (PackageStats.stats st) no_package_stats in
        if is_str package_manager "npm" then
          npm_score (Py.get (weekly_downloads package_stats) 0%Z)
        else if is_str package_manager "pypi" then
          pypi_score (Py.get (monthly_downloads package_stats) 0%Z)
        else if is_str package_manager "cargo" then
          cargo_score (Py.get (total_downloads package_stats) 0%Z)
                      (Py.get (recent_downloads package_stats) 0%Z)
        else 0.0
  end.

(** ** Well-formed inputs

    The ranges the data model gives: counts and frequencies are not
    negative, repository scores lie in the unit interval.  An absent field
    is well formed. *)

Definition count_ok (field : option Z) : Prop :=
  match field with Some v => (0 <= v)%Z | None => True end.

Definition nonneg_ok (field : option R) : Prop :=
  match field with Some v => 0 <= v | None => True end.

Definition unit_ok (field : option R) : Prop :=
  match field with Some v => 0 <= v <= 1 | None => True end.

Definition range_ok (lo hi : R) (field : option R) : Prop :=
  match field with Some v => lo <= v <= hi | None => True end.

Definition metrics_ok (m : RepoMetrics) : Prop :=
  count_ok (stars m) /\ count_ok (forks m) /\ count_ok (watchers m)
  /\ count_ok (open_issues m).

Definition scores_ok (s : RepoScores) : Prop :=
  unit_ok (health_score s) /\ unit_ok (activity_score s)
  /\ unit_ok (community_score s) /\ unit_ok (overall_score s).

Definition development_ok (d : DevInfo) : Prop :=
  count_ok (total_commits d) /\ count_ok (contributors d)
  /\ nonneg_ok (commit_frequency d).

Definition repo_data_ok (r : RepoData) : Prop :=
  metrics_ok (Py.get (metrics r) no_metrics)
  /\ scores_ok (Py.get (scores r) no_scores)
  /\ development_ok (Py.get (development r) no_development).

(** ** Named quantities and sample inputs used by the statements *)

(** The star total of a comparable set, as the source sums it: an entry
    without a star count counts for one. *)
Definition total_stars (comparable_data : list Comparable.t) : Z :=
  Py.sumZ (map (fun comp => Py.get (Comparable.stars comp) 1%Z) comparable_data).

Definition sample_inputs : ValuationInputs :=
  {| repo_data :=
       {| metrics := Some {| stars := Some 100%Z; forks := Some 20%Z;
                             watchers := Some 10%Z; open_issues := Some 5%Z |};
          scores := Some {| health_score := Some 0.8; activity_score := Some 0.7;
                            community_score := Some 0.6; overall_score := Some 0.7 |};
          development := Some {| total_commits := Some 200%Z; contributors := Some 5%Z;
                                 commit_frequency := Some 3.5 |} |};
     team_size := 1; hourly_rate := 100.0; development_months := 6;
     market_multiplier := 10.0 |}.

Definition starless_comparables : list Comparable.t :=
  [ {| Comparable.value := Some 5000; Comparable.stars := Some 0%Z |};
    {| Comparable.value := Some 700; Comparable.stars := Some 0%Z |} ].


(** A successful lookup on each registry. *)
Definition npm_stats (weekly : Z) : option PackageStats.t :=
  Some {| PackageStats.status := Some "success"%string;
          PackageStats.package_manager := Some "npm"%string;
          PackageStats.stats :=
            Some {| weekly_downloads := Some weekly; monthly_downloads := None;
                    total_downloads := None; recent_downloads := None |} |}.

Definition pypi_stats (monthly : Z) : option PackageStats.t :=
  Some {| PackageStats.status := Some "success"%string;
          PackageStats.package_manager := Some "pypi"%string;
          PackageStats.stats :=
            Some {| weekly_downloads := None; monthly_downloads := Some monthly;
                    total_downloads := None; recent_downloads := None |} |}.

Definition cargo_stats (total recent : Z) : option PackageStats.t :=
  Some {| PackageStats.status := Some "success"%string;
          PackageStats.package_manager := Some "cargo"%string;
          PackageStats.stats :=
            Some {| weekly_downloads := None; monthly_downloads := None;
                    total_downloads := Some total; recent_downloads := Some recent |} |}.

(** The metric normalizer in the words of the specification: base weight
    [w], reference scale [s], curve exponent [e], raw count [x]. *)
Definition normalizer_spec (w s e x : R) : R :=
  Rmin 100 (Rmax 0 (w * (1 + Py.pow (x / s) e))).

(** Properties of a score as a function of a raw count, on counts that are
    not negative. *)
Definition continuous_from_0 (f : R -> R) : Prop :=
  forall x, 0 <= x ->
  forall eps, 0 < eps ->
  exists delta, 0 < delta /\
    forall y, 0 <= y -> Rabs (y - x) < delta -> Rabs (f y - f x) < eps.

Definition nondecreasing_from_0 (f : R -> R) : Prop :=
  forall x y, 0 <= x -> x <= y -> f x <= f y.

Definition strictly_increasing_from_0 (f : R -> R) : Prop :=
  forall x y, 0 <= x -> x < y -> f x < f y.

(** Strictly increasing as long as the cap of 100 is not reached. *)
Definition strictly_increasing_below_cap (f : R -> R) : Prop :=
  forall x y, 0 <= x -> x < y -> f x < 100 -> f x < f y.

Definition bounded_0_100 (f : R -> R) : Prop :=
  forall x, 0 <= x -> 0 <= f x <= 100.

(** In-range fields of a codebase-analysis record: percentages in
    [0,100], marks in [0,10], counts not negative. *)
Definition analysis_ok (a : CodebaseAnalysis) : Prop :=
  range_ok 0 100 (maintainability_index (Py.get (quality_scores a) no_quality_scores))
  /\ range_ok 0 10 (modularity_score (Py.get (architecture a) no_architecture))
  /\ range_ok 0 10 (coupling_score (Py.get (architecture a) no_architecture))
  /\ range_ok 0 10 (cohesion_score (Py.get (architecture a) no_architecture))
  /\ count_ok (security_vulnerabilities (Py.get (dependencies a) no_dependencies))
  /\ count_ok (critical_vulnerabilities (Py.get (dependencies a) no_dependencies))
  /\ range_ok 0 100 (outdated_percentage (Py.get (dependencies a) no_dependencies))
  /\ range_ok 0 100 (overall_coverage (Py.get (test_coverage a) no_test_coverage))
  /\ range_ok 0 10 (readme_quality_score (Py.get (documentation a) no_documentation)).

(** A repository with a billion of everything and perfect scores. *)
Definition pathological_inputs : ValuationInputs :=
  {| repo_data :=
       {| metrics := Some {| stars := Some 1000000000%Z; forks := Some 1000000000%Z;
                             watchers := Some 1000000000%Z; open_issues := Some 0%Z |};
          scores := Some {| health_score := Some 1; activity_score := Some 1;
                            community_score := Some 1; overall_score := Some 1 |};
          development := Some {| total_commits := Some 1000000000%Z;
                                 contributors := Some 1000000000%Z;
                                 commit_frequency := Some 1000000000 |} |};
     team_size := 1; hourly_rate := 100.0; development_months := 6;
     market_multiplier := 10.0 |}.

(** A successful analysis with every field at the best end of its range. *)
Definition perfect_analysis : CodebaseAnalysis :=
  {| status := Some "success"%string;
     quality_scores := Some {| maintainability_index := Some 100 |};
     architecture := Some {| modularity_score := Some 10; coupling_score := Some 0;
                             cohesion_score := Some 10 |};
     dependencies := Some {| security_vulnerabilities := Some 0%Z;
                             critical_vulnerabilities := Some 0%Z;
                             outdated_percentage := Some 0 |};
     test_coverage := Some {| overall_coverage := Some 100 |};
     documentation := Some {| readme_quality_score := Some 10 |} |}.

(** A successful analysis that carries nothing but its status. *)
Definition bare_analysis : CodebaseAnalysis :=
  {| status := Some "success"%string;
     quality_scores := None; architecture := None; dependencies := None;
     test_coverage := None; documentation := None |}.

(** An analysis that failed. *)
Definition failed_analysis : CodebaseAnalysis :=
  {| status := Some "failed"%string;
     quality_scores := None; architecture := None; dependencies := None;
     test_coverage := None; documentation := None |}.



(** ** Income-based valuation ([calculate_income_based]) *)

Module IncomeBased.
Record t := {
  estimated_annual_revenue : R;
  revenue_multiple : Z;
  discount_rate : R;
  valuation : R;
  method : string
}.
End IncomeBased.


(** ** Orders and bounds used by the further statements *)

(** The upper end of the range of a component score. *)
Definition component_bound (key : string) : R :=
  if String.eqb key "technology_quality" then 130 else 100.

(** The nine keys of the score dictionary, in insertion order. *)
Definition component_keys : list string :=
  [ "community_momentum"; "development_velocity"; "technology_quality";
    "market_potential"; "network_effects"; "code_quality"; "maintainability";
    "test_reliability"; "security_posture" ]%string.

(** [a] has every count of [b] or fewer, and the same scores. *)
Definition counts_le (a b : RepoData) : Prop :=
  let ma := Py.get (metrics a) no_metrics in
  let mb := Py.get (metrics b) no_metrics in
  let da := Py.get (development a) no_development in
  let db := Py.get (development b) no_development in
  (Py.get (stars ma) 0 <= Py.get (stars mb) 0)%Z
  /\ (Py.get (forks ma) 0 <= Py.get (forks mb) 0)%Z
  /\ (Py.get (watchers ma) 0 <= Py.get (watchers mb) 0)%Z
  /\ (Py.get (contributors da) 0 <= Py.get (contributors db) 0)%Z
  /\ (Py.get (total_commits da) 0 <= Py.get (total_commits db) 0)%Z
  /\ Py.get (commit_frequency da) 0 <= Py.get (commit_frequency db) 0
  /\ Py.get (scores a) no_scores = Py.get (scores b) no_scores.

(** The sample repository after it gained stars, forks and commits. *)
Definition grown_inputs : ValuationInputs :=
  {| repo_data :=
       {| metrics := Some {| stars := Some 2500%Z; forks := Some 300%Z;
                             watchers := Some 10%Z; open_issues := Some 5%Z |};
          scores := Some {| health_score := Some 0.8; activity_score := Some 0.7;
                            community_score := Some 0.6; overall_score := Some 0.7 |};
          development := Some {| total_commits := Some 900%Z; contributors := Some 5%Z;
                                 commit_frequency := Some 3.5 |} |};
     team_size := 1; hourly_rate := 100.0; development_months := 6;
     market_multiplier := 10.0 |}.

(** The six raw counts of an input, as the floats the formulas use, and
    its scores record. *)
Definition stars_of (inputs : ValuationInputs) : R :=
  IZR (Py.get (stars (Py.get (metrics (repo_data inputs)) no_metrics)) 0%Z).
Definition forks_of (inputs : ValuationInputs) : R :=
  IZR (Py.get (forks (Py.get (metrics (repo_data inputs)) no_metrics)) 0%Z).
Definition watchers_of (inputs : ValuationInputs) : R :=
  IZR (Py.get (watchers (Py.get (metrics (repo_data inputs)) no_metrics)) 0%Z).
Definition contributors_of (inputs : ValuationInputs) : R :=
  IZR (Py.get (contributors (Py.get (development (repo_data inputs)) no_development)) 0%Z).
Definition commits_of (inputs : ValuationInputs) : R :=
  IZR (Py.get (total_commits (Py.get (development (repo_data inputs)) no_development)) 0%Z).
Definition frequency_of (inputs : ValuationInputs) : R :=
  Py.get (commit_frequency (Py.get (development (repo_data inputs)) no_development)) 0.
Definition scores_of (inputs : ValuationInputs) : RepoScores :=
  Py.get (scores (repo_data inputs)) no_scores.

(** The value total of a comparable set, as the source sums it: an entry
    without a value counts for nothing. *)
Definition total_value (comparable_data : list Comparable.t) : R :=
  Py.sum (map (fun comp => Py.get (Comparable.value comp) 0) comparable_data).

(** Two comparables, one of them without a star count. *)
Definition two_comparables : list Comparable.t :=
  [ {| Comparable.value := Some 50000; Comparable.stars := Some 199%Z |};
    {| Comparable.value := Some 30000; Comparable.stars := None |} ].

(** Inputs that differ in the sizing parameters only. *)
Definition with_sizing (inputs : ValuationInputs) (team months : Z) (rate : R)
    : ValuationInputs :=
  {| repo_data := repo_data inputs; team_size := team; hourly_rate := rate;
     development_months := months; market_multiplier := market_multiplier inputs |}.

(** ** Registry lookup ([PackageStatsTool.get_package_stats]) *)

(** What one registry answered; the three [_get_*_stats] calls talk to the
    network, so their answers are inputs here ([None]: not found, or the
    call failed). *)
Module Registry.
Record t := { package_name : option string; downloads : PackageStatsFields }.
End Registry.

Module PackageLookup.
Record t := {
  repository : string;
  package_manager : option string;
  package_name : option string;
  stats : option PackageStatsFields;
  status : string
}.
End PackageLookup.

Definition get_package_stats (owner repo : string)
    (npm_stats pypi_stats cargo_stats : option Registry.t) : PackageLookup.t :=
  let repository := (owner ++ "/" ++ repo)%string in
  match npm_stats with
  | Some found =>
      {| PackageLookup.repository := repository;
         PackageLookup.package_manager := Some "npm"%string;
         PackageLookup.package_name := Registry.package_name found;
         PackageLookup.stats := Some (Registry.downloads found);
         PackageLookup.status := "success" |}
  | None =>
  match pypi_stats with
  | Some found =>
      {| PackageLookup.repository := repository;
         PackageLookup.package_manager := Some "pypi"%string;
         PackageLookup.package_name := Registry.package_name found;
         PackageLookup.stats := Some (Registry.downloads found);
         PackageLookup.status := "success" |}
  | None =>
  match cargo_stats with
  | Some found =>
      {| PackageLookup.repository := repository;
         PackageLookup.package_manager := Some "cargo"%string;
         PackageLookup.package_name := Registry.package_name found;
         PackageLookup.stats := Some (Registry.downloads found);
         PackageLookup.status := "success" |}
  | None =>
      {| PackageLookup.repository := repository;
         PackageLookup.package_manager := None;
         PackageLookup.package_name := None;
         PackageLookup.stats := Some no_package_stats;
         PackageLookup.status := "not_found" |}
  end end end.

(** The lookup result as [calculate_adoption_score] reads it. *)
Definition as_package_stats (r : PackageLookup.t) : option PackageStats.t :=
  Some {| PackageStats.status := Some (PackageLookup.status r);
          PackageStats.package_manager := PackageLookup.package_manager r;
          PackageStats.stats := PackageLookup.stats r |}.

(** The adoption score the caller gets for what the registries answered. *)
Definition adoption_of (npm_stats pypi_stats cargo_stats : option Registry.t) : R :=
  match npm_stats, pypi_stats, cargo_stats with
  | Some found, _, _ =>
      npm_score (Py.get (weekly_downloads (Registry.downloads found)) 0%Z)
  | None, Some found, _ =>
      pypi_score (Py.get (monthly_downloads (Registry.downloads found)) 0%Z)
  | None, None, Some found =>
      cargo_score (Py.get (total_downloads (Registry.downloads found)) 0%Z)
                  (Py.get (recent_downloads (Registry.downloads found)) 0%Z)
  | None, None, None => 0
  end.

(** ** Repository analysis ([GitHubAnalysisTool]) *)

(** The repository object of the GitHub API: the keys the scores read. *)
Module GitHubRepo.
Record t := {
  description : option string;
  has_wiki : option bool;
  open_issues_count : option Z;
  license : option (list (string * string));
  stargazers_count : option Z;
  forks_count : option Z;
  watchers_count : option Z
}.
End GitHubRepo.

(** One week of the commit-activity statistics. *)
Module Week.
Record t := { total : option Z; week : option Z }.
End Week.

(** The dictionary [_fetch_commit_activity] returns. *)
Module CommitActivity.
Record t := { total : option Z; weekly_avg : option R; last_commit : option Z }.
End CommitActivity.

(** Truth value of an optional string, boolean and dictionary. *)
Definition truthy_str (field : option string) : bool :=
  match field with
  | Some s => negb (String.eqb s "")
  | None => false
  end.

Definition truthy_bool (field : option bool) : bool :=
  match field with Some b => b | None => false end.

Definition truthy_dict {A : Type} (field : option (list A)) : bool :=
  match field with
  | Some (_ :: _) => true
  | _ => false
  end.

(** [data\[-n:\]]: the last [n] elements. *)
Definition last_n {A : Type} (n : nat) (data : list A) : list A :=
  skipn (List.length data - n) data.

(** The computation of [_fetch_commit_activity] on the body of the
    response; [None] is a status other than 200 or a failed call. *)
Definition commit_activity_of (response : option (list Week.t)) : CommitActivity.t :=
  match response with
  | Some ((_ :: _) as data) =>
      let total := Py.sumZ (map (fun week => Py.get (Week.total week) 0%Z)
                              (last_n 8 data)) in
      let weekly_avg := IZR total / 8 in
      let last_week := Week.week (List.last data {| Week.total := None; Week.week := None |}) in
      {| CommitActivity.total := Some total;
         CommitActivity.weekly_avg := Some weekly_avg;
         CommitActivity.last_commit := last_week |}
  | _ =>
      {| CommitActivity.total := Some 0%Z;
         CommitActivity.weekly_avg := Some 0;
         CommitActivity.last_commit := None |}
  end.

Definition _calculate_health_score (repo_data : GitHubRepo.t)
    (commit_activity : CommitActivity.t) : R :=
  let score := 0.0 in
  let score :=
    if truthy_str (GitHubRepo.description repo_data) then score + 0.2 else score in
  let score :=
    if truthy_bool (GitHubRepo.has_wiki repo_data)
       || truthy_str (GitHubRepo.description repo_data)
    then score + 0.2 else score in
  let score :=
    if Rlt_dec 0 (Py.get (CommitActivity.weekly_avg commit_activity) 0)
    then score + 0.2 else score in
  let open_issues := Py.get (GitHubRepo.open_issues_count repo_data) 0%Z in
  let score := if (open_issues <? 50)%Z then score + 0.2 else score in
  let score :=
    if truthy_dict (GitHubRepo.license repo_data) then score + 0.2 else score in
  Rmin score 1.0.

Definition _calculate_activity_score (commit_activity : CommitActivity.t) : R :=
  let weekly_avg := Py.get (CommitActivity.weekly_avg commit_activity) 0 in
  if Rle_dec 10 weekly_avg then 1.0
  else if Rle_dec 5 weekly_avg then 0.8
  else if Rle_dec 1 weekly_avg then 0.6
  else if Rlt_dec 0 weekly_avg then 0.4
  else 0.0.

Definition _calculate_community_score {A : Type} (repo_data : GitHubRepo.t)
    (contributor_stats : list A) : R :=
  let score := 0.0 in
  let stars := Py.get (GitHubRepo.stargazers_count repo_data) 0%Z in
  let score :=
    if (stars >=? 1000)%Z then score + 0.3
    else if (stars >=? 100)%Z then score + 0.2
    else if (stars >=? 10)%Z then score + 0.1
    else score in
  let forks := Py.get (GitHubRepo.forks_count repo_data) 0%Z in
  let score :=
    if (forks >=? 100)%Z then score + 0.3
    else if (forks >=? 10)%Z then score + 0.2
    else if (forks >=? 1)%Z then score + 0.1
    else score in
  let contributors := Z.of_nat (List.length contributor_stats) in
  let score :=
    if (contributors >=? 50)%Z then score + 0.4
    else if (contributors >=? 10)%Z then score + 0.3
    else if (contributors >=? 1)%Z then score + 0.2
    else score in
  Rmin score 1.0.

(** [analyze_repository] on what the three fetches returned, as the
    valuation methods read its result (the [basic_info] texts are left
    out); [None] is the error record, returned when the repository object
    is missing. *)
Definition analyze_repository {A : Type} (repo_data : option GitHubRepo.t)
    (commit_activity : CommitActivity.t) (contributor_stats : list A)
    : option RepoData :=
  match repo_data with
  | None => None
  | Some repo_data =>
      let health_score := _calculate_health_score repo_data commit_activity in
      let activity_score := _calculate_activity_score commit_activity in
      let community_score := _calculate_community_score repo_data contributor_stats in
      Some
        {| metrics :=
             Some {| stars := Some (Py.get (GitHubRepo.stargazers_count repo_data) 0%Z);
                     forks := Some (Py.get (GitHubRepo.forks_count repo_data) 0%Z);
                     watchers := Some (Py.get (GitHubRepo.watchers_count repo_data) 0%Z);
                     open_issues :=
                       Some (Py.get (GitHubRepo.open_issues_count repo_data) 0%Z) |};
           scores :=
             Some {| health_score := Some health_score;
                     activity_score := Some activity_score;
                     community_score := Some community_score;
                     overall_score :=
                       Some ((health_score + activity_score + community_score) / 3) |};
           development :=
             Some {| total_commits :=
                       Some (Py.get (CommitActivity.total commit_activity) 0%Z);
                     contributors := Some (Z.of_nat (List.length contributor_stats));
                     commit_frequency :=
                       Some (Py.get (CommitActivity.weekly_avg commit_activity) 0) |} |}
  end.

(** Counts of the API objects that are not negative. *)
Definition github_repo_ok (r : GitHubRepo.t) : Prop :=
  count_ok (GitHubRepo.stargazers_count r) /\ count_ok (GitHubRepo.forks_count r)
  /\ count_ok (GitHubRepo.watchers_count r) /\ count_ok (GitHubRepo.open_issues_count r).

Definition weeks_ok (data : list Week.t) : Prop :=
  Forall (fun week => count_ok (Week.total week)) data.

(** The default inputs the router builds around an analysis. *)
Definition inputs_of (repo_data : RepoData) : ValuationInputs :=
  {| repo_data := repo_data; team_size := 1; hourly_rate := 100.0;
     development_months := 6; market_multiplier := 10.0 |}.

(** The repository object and the weeks used by the tests' sample. *)
Definition sample_repo : GitHubRepo.t :=
  {| GitHubRepo.description := Some "Test repo"%string;
     GitHubRepo.has_wiki := Some true;
     GitHubRepo.open_issues_count := Some 10%Z;
     GitHubRepo.license := Some [("name", "MIT")]%string;
     GitHubRepo.stargazers_count := Some 500%Z;
     GitHubRepo.forks_count := Some 50%Z;
     GitHubRepo.watchers_count := Some 30%Z |}.

Definition sample_weeks : list Week.t :=
  [ {| Week.total := Some 12%Z; Week.week := Some 1700000000%Z |};
    {| Week.total := Some 28%Z; Week.week := Some 1700604800%Z |} ].

(** ** Codebase analysis ([CodebaseAnalysisTool])

    The heuristics work on the listing of the repository root.  File
    names are taken to be ASCII: [lower] maps the letters A to Z only. *)

Module Str.

Definition lower_char (c : Ascii.ascii) : Ascii.ascii :=
  let n := Ascii.nat_of_ascii c in
  if ((65 <=? n) && (n <=? 90))%nat then Ascii.ascii_of_nat (n + 32) else c.

(** [s.lower()]. *)
Fixpoint lower (s : string) : string :=
  match s with
  | EmptyString => EmptyString
  | String c rest => String (lower_char c) (lower rest)
  end.

(** [sub in s]. *)
Fixpoint contains (sub s : string) : bool :=
  String.prefix sub s
  || match s with
     | EmptyString => false
     | String _ rest => contains sub rest
     end.

(** [s.startswith(p)]. *)
Definition startswith (s p : string) : bool := String.prefix p s.

(** [s.endswith(suffix)]. *)
Definition endswith (s suffix : string) : bool :=
  let n := String.length s in
  let m := String.length suffix in
  (m <=? n)%nat && String.eqb (String.substring (n - m) m s) suffix.

(** [x in l] for a list of strings. *)
Definition mem (x : string) (l : list string) : bool := existsb (String.eqb x) l.

End Str.

(** One entry of the contents listing. *)
Module Entry.
Record t := {
  name : option string;
  path : option string;
  type : option string;
  size : option Z
}.
End Entry.

Definition is_type (kind : string) (f : Entry.t) : bool := is_str (Entry.type f) kind.

Definition entry_name (f : Entry.t) : string := Py.get (Entry.name f) ""%string.
Definition entry_path (f : Entry.t) : string := Py.get (Entry.path f) ""%string.

Definition code_extensions : list string :=
  [ ".py"; ".js"; ".jsx"; ".ts"; ".tsx"; ".java"; ".go"; ".rs";
    ".cpp"; ".c"; ".cs"; ".rb"; ".php"; ".swift"; ".kt"; ".scala" ]%string.

Definition _is_code_file (filename : string) : bool :=
  existsb (fun ext => Str.endswith (Str.lower filename) ext) code_extensions.

Definition test_indicators : list string :=
  [ "test"; "spec"; "__test__"; "__tests__" ]%string.

Definition _is_test_file (filename : string) : bool :=
  existsb (fun indicator => Str.contains indicator (Str.lower filename)) test_indicators.

(** [len(l)] as an int. *)
Definition len {A : Type} (l : list A) : Z := Z.of_nat (List.length l).

(** [int(x)]: truncation towards zero. *)
Definition int_of (x : R) : Z :=
  if Rle_dec 0 x then Int_part x else (- Int_part (- x))%Z.

(** *** Architecture *)

Module ArchitectureReport.
Record t := {
  modularity_score : R;
  coupling_score : R;
  cohesion_score : R;
  design_patterns_detected : list string;
  architecture_type : string
}.
End ArchitectureReport.

(** [patterns.append(label)] when some path matches. *)
Definition detect (found : bool) (label : string) (patterns : list string) : list string :=
  if found then patterns ++ [label] else patterns.

Definition _analyze_architecture (contents : list Entry.t) : ArchitectureReport.t :=
  let directories := filter (is_type "dir") contents in
  let files := filter (is_type "file") contents in
  let dir_count := len directories in
  let file_count := len files in
  let dir_ratio := IZR dir_count / IZR (Z.max file_count 1) in
  let modularity_score := Rmin 10 (Rmax 0 (dir_ratio * 30 + 5)) in
  let coupling_score := Rmax 1 (Rmin 10 (10 - dir_ratio * 20)) in
  let cohesion_score := Rmin 10 (Rmax 5 (modularity_score + 2)) in
  let paths := map entry_path contents in
  let any_path (test : string -> bool) := existsb (fun p => test (Str.lower p)) paths in
  let patterns := [] in
  let patterns :=
    detect (any_path (fun p => Str.contains "controller" p || Str.contains "handler" p))
      "MVC" patterns in
  let patterns := detect (any_path (Str.contains "service")) "Service Layer" patterns in
  let patterns :=
    detect (any_path (fun p => Str.contains "repository" p || Str.contains "repo" p))
      "Repository" patterns in
  let patterns := detect (any_path (Str.contains "factory")) "Factory" patterns in
  let patterns := detect (any_path (Str.contains "adapter")) "Adapter" patterns in
  let arch_type :=
    if any_path (fun p => Str.contains "microservice" p || Str.contains "service" p)
    then "microservices"%string
    else if Rlt_dec 0.2 dir_ratio then "modular_monolith"%string
    else "monolith"%string in
  {| ArchitectureReport.modularity_score := Py.round modularity_score 1;
     ArchitectureReport.coupling_score := Py.round coupling_score 1;
     ArchitectureReport.cohesion_score := Py.round cohesion_score 1;
     ArchitectureReport.design_patterns_detected :=
       match patterns with [] => ["None detected"%string] | _ :: _ => patterns end;
     ArchitectureReport.architecture_type := arch_type |}.

(** *** Test coverage *)

Module TestCoverageReport.
Record t := {
  overall_coverage : R;
  unit_test_coverage : R;
  integration_test_coverage : R;
  test_to_code_ratio : R;
  test_quality_score : R
}.
End TestCoverageReport.

Definition test_files_of (contents : list Entry.t) : list Entry.t :=
  filter (fun f => is_type "file" f && _is_test_file (entry_name f)) contents.

Definition code_files_of (contents : list Entry.t) : list Entry.t :=
  filter (fun f => is_type "file" f && _is_code_file (entry_name f)) contents.

Definition _analyze_test_coverage (contents : list Entry.t) : TestCoverageReport.t :=
  let test_files := test_files_of contents in
  let code_files := code_files_of contents in
  match code_files with
  | [] =>
      {| TestCoverageReport.overall_coverage := 0;
         TestCoverageReport.unit_test_coverage := 0;
         TestCoverageReport.integration_test_coverage := 0;
         TestCoverageReport.test_to_code_ratio := 0;
         TestCoverageReport.test_quality_score := 0 |}
  | _ :: _ =>
      let test_ratio := IZR (len test_files) / IZR (len code_files) in
      let estimated_coverage := Rmin 100 (test_ratio * 200) in
      let unit_coverage := estimated_coverage * 0.7 in
      let integration_coverage := estimated_coverage * 0.3 in
      let test_quality := Rmin 10 (Rmax 0 (test_ratio * 20 + 2)) in
      {| TestCoverageReport.overall_coverage := Py.round estimated_coverage 1;
         TestCoverageReport.unit_test_coverage := Py.round unit_coverage 1;
         TestCoverageReport.integration_test_coverage := Py.round integration_coverage 1;
         TestCoverageReport.test_to_code_ratio := Py.round test_ratio 2;
         TestCoverageReport.test_quality_score := Py.round test_quality 1 |}
  end.

(** *** Quality *)

Module QualityReport.
Record t := {
  maintainability_index : R;
  technical_debt_ratio : R;
  code_smell_density : R;
  documentation_coverage : R
}.
End QualityReport.

Definition _analyze_quality (contents : list Entry.t) : QualityReport.t :=
  let name_has (sub : string) (f : Entry.t) := Str.contains sub (Str.lower (entry_name f)) in
  let has_tests :=
    existsb (fun f => name_has "test"%string f || name_has "spec"%string f)
      (filter (is_type "file") contents) in
  let has_docs :=
    existsb (fun f => Str.mem (Str.lower (entry_name f)) ["readme.md"; "readme.rst"; "docs"]%string)
      contents in
  let has_ci :=
    existsb (fun f => Str.contains ".github" (entry_path f)
                      || Str.contains "ci" (Str.lower (entry_path f))) contents in
  let has_linting :=
    existsb (fun f => name_has "lint"%string f || name_has "eslint"%string f) contents in
  let maintainability := 50%Z in
  let maintainability := if has_tests then (maintainability + 15)%Z else maintainability in
  let maintainability := if has_docs then (maintainability + 10)%Z else maintainability in
  let maintainability := if has_ci then (maintainability + 10)%Z else maintainability in
  let maintainability := if has_linting then (maintainability + 10)%Z else maintainability in
  let tech_debt := Rmax 0 (Rmin 1 (IZR (100 - maintainability) / 100)) in
  let smell_density := Rmax 0 (IZR (100 - maintainability) / 10) in
  let doc_coverage := 30%Z in
  let doc_coverage := if has_docs then (doc_coverage + 30)%Z else doc_coverage in
  let doc_coverage := if has_tests then (doc_coverage + 20)%Z else doc_coverage in
  {| QualityReport.maintainability_index := Py.round (IZR (Z.min 100 maintainability)) 1;
     QualityReport.technical_debt_ratio := Py.round tech_debt 2;
     QualityReport.code_smell_density := Py.round smell_density 1;
     QualityReport.documentation_coverage := Py.round (IZR (Z.min 100 doc_coverage)) 1 |}.

(** *** Documentation *)

Module DocumentationReport.
Record t := {
  readme_quality_score : R;
  api_documentation_present : bool;
  api_documentation_type : option string;
  comment_coverage : R;
  documentation_freshness_days : Z
}.
End DocumentationReport.

Definition _analyze_documentation (contents : list Entry.t) : DocumentationReport.t :=
  let lname (f : Entry.t) := Str.lower (entry_name f) in
  let readme_files := filter (fun f => Str.startswith (lname f) "readme") contents in
  let has_readme := (0 <? len readme_files)%Z in
  let has_docs_dir :=
    existsb (fun f => is_type "dir" f && String.eqb (lname f) "docs") contents in
  let api_docs :=
    existsb (fun f => Str.contains "api" (lname f) || Str.contains "openapi" (lname f)
                      || Str.contains "swagger" (lname f) || Str.contains "graphql" (lname f))
      (filter (is_type "file") contents) in
  let readme_score :=
    if has_readme then (if has_docs_dir then 7 + 1.5 else 7) else 0 in
  let comment_coverage := 30%Z in
  let comment_coverage := if has_readme then (comment_coverage + 20)%Z else comment_coverage in
  let comment_coverage := if has_docs_dir then (comment_coverage + 20)%Z else comment_coverage in
  let comment_coverage := if api_docs then (comment_coverage + 15)%Z else comment_coverage in
  let freshness_days := 60%Z in
  let api_doc_type :=
    if api_docs then
      if existsb (fun f => Str.contains "openapi" (lname f)) contents then Some "OpenAPI"%string
      else if existsb (fun f => Str.contains "graphql" (lname f)) contents
           then Some "GraphQL"%string
      else Some "Custom"%string
    else None in
  {| DocumentationReport.readme_quality_score := Py.round readme_score 1;
     DocumentationReport.api_documentation_present := api_docs;
     DocumentationReport.api_documentation_type := api_doc_type;
     DocumentationReport.comment_coverage := Py.round (IZR (Z.min 100 comment_coverage)) 1;
     DocumentationReport.documentation_freshness_days := freshness_days |}.

(** *** Complexity *)

Module ComplexityReport.
Record t := {
  average_cyclomatic_complexity : R;
  max_cyclomatic_complexity : R;
  cognitive_complexity_score : R;
  duplication_percentage : R;
  average_file_size : R;
  average_function_length : R
}.
End ComplexityReport.

Definition _analyze_complexity (contents : list Entry.t) : ComplexityReport.t :=
  let code_files := code_files_of contents in
  match code_files with
  | [] =>
      {| ComplexityReport.average_cyclomatic_complexity := 0;
         ComplexityReport.max_cyclomatic_complexity := 0;
         ComplexityReport.cognitive_complexity_score := 0;
         ComplexityReport.duplication_percentage := 0;
         ComplexityReport.average_file_size := 0;
         ComplexityReport.average_function_length := 0 |}
  | _ :: _ =>
      let total_size := Py.sumZ (map (fun f => Py.get (Entry.size f) 0%Z) code_files) in
      let avg_file_size := IZR total_size / IZR (len code_files) in
      let estimated_avg_complexity := Rmin 20 (Rmax 1 (avg_file_size / 1000 * 2)) in
      let estimated_max_complexity := Rmin 50 (estimated_avg_complexity * 2.5) in
      let cognitive_score := Rmax 1 (Rmin 10 (10 - estimated_avg_complexity / 3)) in
      let duplication :=
        Rmin 30 (Rmax 0 (IZR (len code_files) / Rmax (IZR total_size / 10000) 1 * 5)) in
      {| ComplexityReport.average_cyclomatic_complexity := Py.round estimated_avg_complexity 1;
         ComplexityReport.max_cyclomatic_complexity := Py.round estimated_max_complexity 0;
         ComplexityReport.cognitive_complexity_score := Py.round cognitive_score 1;
         ComplexityReport.duplication_percentage := Py.round duplication 1;
         ComplexityReport.average_file_size := Py.round avg_file_size 0;
         ComplexityReport.average_function_length :=
           Py.round (estimated_avg_complexity * 5) 0 |}
  end.

(** *** Dependencies *)

Module DependencyReport.
Record t := {
  total_dependencies : Z;
  outdated_count : Z;
  outdated_percentage : R;
  security_vulnerabilities : Z;
  critical_vulnerabilities : Z;
  license_compliance_score : Z;
  average_dependency_age_days : Z
}.
End DependencyReport.

(** The keys of [dep_files]. *)
Definition dep_files : list (string * string) :=
  [ ("package.json", "npm"); ("requirements.txt", "pip"); ("Pipfile", "pipenv");
    ("poetry.lock", "poetry"); ("go.mod", "go"); ("Cargo.toml", "rust");
    ("pom.xml", "maven"); ("build.gradle", "gradle") ]%string.

Definition found_deps_of (contents : list Entry.t) : list string :=
  filter (fun name => Str.mem name (map fst dep_files)) (map entry_name contents).

(** The loop over the dependency files found.  Fetching a file and parsing
    it are outside the model: [counted name] is the number of dependencies
    the source counts in that file, [None] when the file could not be
    fetched or its JSON not parsed.  Only package.json, requirements.txt
    and Pipfile are counted, and a later file overwrites an earlier
    count. *)
Definition count_dependencies (counted : string -> option Z) (found_deps : list string) : Z :=
  fold_left
    (fun total_deps dep_file =>
       if Str.mem dep_file ["package.json"; "requirements.txt"; "Pipfile"]%string
       then Py.get (counted dep_file) total_deps
       else total_deps)
    found_deps 0%Z.

Definition _analyze_dependencies (counted : string -> option Z) (contents : list Entry.t)
    : DependencyReport.t :=
  let found_deps := found_deps_of contents in
  match found_deps with
  | [] =>
      {| DependencyReport.total_dependencies := 0;
         DependencyReport.outdated_count := 0;
         DependencyReport.outdated_percentage := 0;
         DependencyReport.security_vulnerabilities := 0;
         DependencyReport.critical_vulnerabilities := 0;
         DependencyReport.license_compliance_score := 100;
         DependencyReport.average_dependency_age_days := 0 |}
  | _ :: _ =>
      let total_deps := count_dependencies counted found_deps in
      let total_deps := if (total_deps =? 0)%Z then 20%Z else total_deps in
      let outdated_pct := 20%Z in
      let outdated_count := int_of (IZR total_deps * (IZR outdated_pct / 100)) in
      let vuln_pct := 3%Z in
      let vulnerabilities := Z.max 0 (int_of (IZR total_deps * (IZR vuln_pct / 100))) in
      let critical_vulns := Z.max 0 (int_of (IZR vulnerabilities * 0.2)) in
      let license_score := 95%Z in
      let avg_age := 180%Z in
      {| DependencyReport.total_dependencies := total_deps;
         DependencyReport.outdated_count := outdated_count;
         DependencyReport.outdated_percentage := Py.round (IZR outdated_pct) 1;
         DependencyReport.security_vulnerabilities := vulnerabilities;
         DependencyReport.critical_vulnerabilities := critical_vulns;
         DependencyReport.license_compliance_score := license_score;
         DependencyReport.average_dependency_age_days := avg_age |}
  end.

(** *** The whole analysis *)

Module CodebaseReport.
Record t := {
  analysis_depth : option string;
  status : string;
  code_complexity : option ComplexityReport.t;
  quality_scores : option QualityReport.t;
  test_coverage : option TestCoverageReport.t;
  dependencies : option DependencyReport.t;
  architecture : option ArchitectureReport.t;
  documentation : option DocumentationReport.t
}.
End CodebaseReport.

(** The body of the contents response: a listing, or the object of a
    single file. *)
Inductive ContentsResponse :=
  | Listing (entries : list Entry.t)
  | SingleFile (entry : Entry.t).

Definition wanted (metric : string) (include_metrics : list string) : bool :=
  Str.mem "all" include_metrics || Str.mem metric include_metrics.

(** [analyze_codebase] on what the fetches returned: [repo_found] is the
    truth value of the repository object.  The time stamp and the
    technology-stack section of the result are left out. *)
Definition analyze_codebase (repo_found : bool) (response : ContentsResponse)
    (counted : string -> option Z) (analysis_depth : string)
    (include_metrics : list string) : CodebaseReport.t :=
  if negb repo_found then
    {| CodebaseReport.analysis_depth := None;
       CodebaseReport.status := "failed";
       CodebaseReport.code_complexity := None;
       CodebaseReport.quality_scores := None;
       CodebaseReport.test_coverage := None;
       CodebaseReport.dependencies := None;
       CodebaseReport.architecture := None;
       CodebaseReport.documentation := None |}
  else
    let contents :=
      match response with
      | Listing entries => entries
      | SingleFile entry => if truthy_str (Entry.type entry) then [entry] else []
      end in
    let section {A : Type} (metric : string) (report : A) : option A :=
      if wanted metric include_metrics then Some report else None in
    {| CodebaseReport.analysis_depth := Some analysis_depth;
       CodebaseReport.status := "success";
       CodebaseReport.code_complexity :=
         section "complexity"%string (_analyze_complexity contents);
       CodebaseReport.quality_scores :=
         section "quality"%string (_analyze_quality contents);
       CodebaseReport.test_coverage :=
         section "tests"%string (_analyze_test_coverage contents);
       CodebaseReport.dependencies :=
         section "dependencies"%string (_analyze_dependencies counted contents);
       CodebaseReport.architecture :=
         section "architecture"%string (_analyze_architecture contents);
       CodebaseReport.documentation :=
         section "documentation"%string (_analyze_documentation contents) |}.

(** The report as [calculate_unicorn_hunter] reads it. *)
Definition as_codebase_analysis (report : CodebaseReport.t) : CodebaseAnalysis :=
  {| status := Some (CodebaseReport.status report);
     quality_scores :=
       option_map
         (fun q => {| maintainability_index := Some (QualityReport.maintainability_index q) |})
         (CodebaseReport.quality_scores report);
     architecture :=
       option_map
         (fun a => {| modularity_score := Some (ArchitectureReport.modularity_score a);
                      coupling_score := Some (ArchitectureReport.coupling_score a);
                      cohesion_score := Some (ArchitectureReport.cohesion_score a) |})
         (CodebaseReport.architecture report);
     dependencies :=
       option_map
         (fun d => {| security_vulnerabilities :=
                        Some (DependencyReport.security_vulnerabilities d);
                      critical_vulnerabilities :=
                        Some (DependencyReport.critical_vulnerabilities d);
                      outdated_percentage := Some (DependencyReport.outdated_percentage d) |})
         (CodebaseReport.dependencies report);
     test_coverage :=
       option_map
         (fun t => {| overall_coverage := Some (TestCoverageReport.overall_coverage t) |})
         (CodebaseReport.test_coverage report);
     documentation :=
       option_map
         (fun d => {| readme_quality_score :=
                        Some (DocumentationReport.readme_quality_score d) |})
         (CodebaseReport.documentation report) |}.

(** A small listing: two sources, one test, a README and two directories. *)
Definition sample_contents : list Entry.t :=
  [ {| Entry.name := Some "main.py"; Entry.path := Some "main.py";
       Entry.type := Some "file"; Entry.size := Some 4200%Z |};
    {| Entry.name := Some "utils.py"; Entry.path := Some "utils.py";
       Entry.type := Some "file"; Entry.size := Some 1800%Z |};
    {| Entry.name := Some "test_main.py"; Entry.path := Some "test_main.py";
       Entry.type := Some "file"; Entry.size := Some 900%Z |};
    {| Entry.name := Some "README.md"; Entry.path := Some "README.md";
       Entry.type := Some "file"; Entry.size := Some 700%Z |};
    {| Entry.name := Some "requirements.txt"; Entry.path := Some "requirements.txt";
       Entry.type := Some "file"; Entry.size := Some 120%Z |};
    {| Entry.name := Some "docs"; Entry.path := Some "docs";
       Entry.type := Some "dir"; Entry.size := Some 0%Z |};
    {| Entry.name := Some "src"; Entry.path := Some "src";
       Entry.type := Some "dir"; Entry.size := Some 0%Z |} ]%string.

(** Dependency counts that are numbers of entries: never negative. *)
Definition counted_ok (counted : string -> option Z) : Prop :=
  forall name, count_ok (counted name).

(** The number of health indicators a repository meets: a description, a
    wiki or a description, commits in the last weeks, fewer than 50 open
    issues, a license. *)
Definition indicators_met (repo_data : GitHubRepo.t)
    (commit_activity : CommitActivity.t) : Z :=
  ((if truthy_str (GitHubRepo.description repo_data) then 1 else 0)
   + (if truthy_bool (GitHubRepo.has_wiki repo_data)
         || truthy_str (GitHubRepo.description repo_data) then 1 else 0)
   + (if Rlt_dec 0%R (Py.get (CommitActivity.weekly_avg commit_activity) 0%R) then 1 else 0)
   + (if (Py.get (GitHubRepo.open_issues_count repo_data) 0 <? 50) then 1 else 0)
   + (if truthy_dict (GitHubRepo.license repo_data) then 1 else 0))%Z.


(** ** Facts about the primitives *)

Section PowFacts.

Lemma py_pow_0 (e : R) : Py.pow 0 e = 0.
Proof. unfold Py.pow. destruct (Req_dec_T 0 0) as [_ | n]; [reflexivity | now destruct n]. Qed.

Lemma py_pow_pos_eq (x e : R) : 0 < x -> Py.pow x e = Rpower x e.
Proof.
  intros Hx. unfold Py.pow.
  destruct (Req_dec_T x 0) as [E | _]; [lra | reflexivity].
Qed.

Lemma Rpower_pos (x e : R) : 0 < Rpower x e.
Proof. unfold Rpower. apply exp_pos. Qed.

Lemma py_pow_nonneg (x e : R) : 0 <= Py.pow x e.
Proof.
  unfold Py.pow. destruct (Req_dec_T x 0); [lra | left; apply Rpower_pos].
Qed.

Lemma py_pow_pos (x e : R) : 0 < x -> 0 < Py.pow x e.
Proof. intros Hx. rewrite py_pow_pos_eq by assumption. apply Rpower_pos. Qed.

Lemma py_pow_1 (e : R) : Py.pow 1 e = 1.
Proof.
  rewrite py_pow_pos_eq by lra. unfold Rpower. rewrite ln_1, Rmult_0_r. apply exp_0.
Qed.

(** Non-decreasing in the base, from zero on. *)
Lemma py_pow_le (x y e : R) : 0 < e -> 0 <= x -> x <= y -> Py.pow x e <= Py.pow y e.
Proof.
  intros He Hx Hxy.
  destruct (Req_dec_T x 0) as [-> | Hx0].
  - rewrite py_pow_0. apply py_pow_nonneg.
  - rewrite !py_pow_pos_eq by lra. apply Rle_Rpower_l; lra.
Qed.

(** Strictly increasing in the base, from zero on. *)
Lemma py_pow_lt (x y e : R) : 0 < e -> 0 <= x -> x < y -> Py.pow x e < Py.pow y e.
Proof.
  intros He Hx Hxy.
  destruct (Req_dec_T x 0) as [-> | Hx0].
  - rewrite py_pow_0. apply py_pow_pos; lra.
  - rewrite !py_pow_pos_eq by lra. apply Rlt_Rpower_l; lra.
Qed.

Lemma py_pow_plus (x a b : R) : 0 < x -> Py.pow x (a + b) = Py.pow x a * Py.pow x b.
Proof. intros Hx. rewrite !py_pow_pos_eq by assumption. apply Rpower_plus. Qed.

(** [x ** (k/10)] is the tenth root of [x ^ k]: the exponents of the source
    are all tenths. *)
Lemma py_pow_tenths_of_power (b : R) (k : nat) :
  0 < b -> Py.pow (b ^ 10) (INR k / 10) = b ^ k.
Proof.
  intros Hb.
  assert (H10 : 0 < b ^ 10) by (apply pow_lt; assumption).
  rewrite py_pow_pos_eq by assumption.
  replace (b ^ 10) with (Rpower b (INR 10)) by (apply Rpower_pow; assumption).
  rewrite Rpower_mult.
  replace (INR 10 * (INR k / 10)) with (INR k) by (simpl; field).
  apply Rpower_pow; assumption.
Qed.

End PowFacts.

(** ** Rounding *)

Section RoundFacts.

Lemma Int_part_bounds (y : R) : IZR (Int_part y) <= y < IZR (Int_part y) + 1.
Proof. destruct (base_Int_part y). lra. Qed.

(** The rounded value is within one half of the argument. *)
Lemma round_half_even_near (y : R) :
  y - 1 / 2 <= IZR (Py.round_half_even y) <= y + 1 / 2.
Proof.
  unfold Py.round_half_even.
  pose proof (Int_part_bounds y) as Hb.
  destruct (Rlt_dec _ _) as [H1 | H1].
  - lra.
  - destruct (Rlt_dec _ _) as [H2 | H2].
    + rewrite plus_IZR. lra.
    + destruct (Z.even _); [| rewrite plus_IZR]; lra.
Qed.

Lemma IZR_lt_succ (a b : Z) : (a < b)%Z -> IZR a + 1 <= IZR b.
Proof. intros H. rewrite <- (plus_IZR a 1). apply IZR_le. lia. Qed.

(** An integer rounds to itself. *)
Lemma round_half_even_IZR (z : Z) : Py.round_half_even (IZR z) = z.
Proof.
  unfold Py.round_half_even.
  assert (E : Int_part (IZR z) = z).
  { symmetry. apply Int_part_spec. lra. }
  rewrite E. destruct (Rlt_dec _ _) as [H | H]; [reflexivity | lra].
Qed.

(** Rounding never swaps two numbers. *)
Lemma round_half_even_mono (x y : R) :
  x <= y -> (Py.round_half_even x <= Py.round_half_even y)%Z.
Proof.
  intros Hxy.
  destruct (Req_dec_T x y) as [-> | Hne]; [lia |].
  destruct (Z_lt_le_dec (Py.round_half_even y) (Py.round_half_even x)) as [Hlt | Hle];
    [exfalso | assumption].
  apply IZR_lt_succ in Hlt.
  pose proof (round_half_even_near x). pose proof (round_half_even_near y). lra.
Qed.

Lemma pow10_pos (n : nat) : 0 < 10 ^ n.
Proof. apply pow_lt. lra. Qed.

Lemma round_mono (x y : R) (n : nat) : x <= y -> Py.round x n <= Py.round y n.
Proof.
  intros Hxy. unfold Py.round.
  pose proof (pow10_pos n) as Hp.
  apply Rmult_le_compat_r; [left; apply Rinv_0_lt_compat; assumption |].
  apply IZR_le, round_half_even_mono.
  apply Rmult_le_compat_r; lra.
Qed.

(** A number with at most [n] decimals is a fixed point of [round(_, n)]. *)
Lemma round_decimal (z : Z) (n : nat) : Py.round (IZR z / 10 ^ n) n = IZR z / 10 ^ n.
Proof.
  unfold Py.round. pose proof (pow10_pos n) as Hp.
  replace (IZR z / 10 ^ n * 10 ^ n) with (IZR z) by (field; lra).
  now rewrite round_half_even_IZR.
Qed.

Lemma round_IZR (z : Z) (n : nat) : Py.round (IZR z) n = IZR z.
Proof.
  pose proof (pow10_pos n) as Hp. unfold Py.round.
  replace (10 ^ n) with (IZR (10 ^ Z.of_nat n)) in Hp |- *
    by (rewrite <- pow_IZR; reflexivity).
  rewrite <- mult_IZR, round_half_even_IZR, mult_IZR.
  field. lra.
Qed.

(** Rounding keeps a value between two integer bounds. *)
Lemma round_between (a b : Z) (x : R) (n : nat) :
  IZR a <= x <= IZR b -> IZR a <= Py.round x n <= IZR b.
Proof.
  intros [Ha Hb]. split.
  - rewrite <- (round_IZR a n). now apply round_mono.
  - rewrite <- (round_IZR b n). now apply round_mono.
Qed.

End RoundFacts.

Lemma get_count_ok (field : option Z) : count_ok field -> (0 <= Py.get field 0)%Z.
Proof. destruct field; simpl; intros; lia. Qed.

Lemma get_nonneg_ok (field : option R) (d : R) :
  nonneg_ok field -> 0 <= d -> 0 <= Py.get field d.
Proof. destruct field; simpl; intros; lra. Qed.

Lemma get_range_ok (lo hi : R) (field : option R) (d : R) :
  range_ok lo hi field -> lo <= d <= hi -> lo <= Py.get field d <= hi.
Proof. destruct field; simpl; intros; lra. Qed.

Lemma get_unit_ok (field : option R) :
  unit_ok field -> 0 <= Py.get field 0.5 <= 1.
Proof. destruct field; simpl; intros; lra. Qed.

(** ** Tier classification *)

Section Tier.

(** C6: the tier is a total step function of the score.  Every real score
    (so every score in [0,100]) gets one of the six tiers, each tier is
    exactly the set of scores from its breakpoint (included) up to the next
    one (excluded), 90 is a unicorn, 89.999 is soaring, and all that is
    below 30 is seed stage. *)
Theorem tier_of_step_function (u : R) :
  In (tier_of u) tiers
  /\ (tier_of u = "unicorn"%string <-> 90 <= u)
  /\ (tier_of u = "soaring"%string <-> 75 <= u < 90)
  /\ (tier_of u = "rising_star"%string <-> 60 <= u < 75)
  /\ (tier_of u = "promising"%string <-> 45 <= u < 60)
  /\ (tier_of u = "early_stage"%string <-> 30 <= u < 45)
  /\ (tier_of u = "seed_stage"%string <-> u < 30)
  /\ tier_of 90 = "unicorn"%string
  /\ tier_of 89.999 = "soaring"%string.
Proof.
  assert (E90 : tier_of 90 = "unicorn"%string).
  { unfold tier_of. destruct (Rle_dec 90 90); [reflexivity | lra]. }
  assert (E89 : tier_of 89.999 = "soaring"%string).
  { unfold tier_of. repeat (destruct (Rle_dec _ _); try lra). reflexivity. }
  unfold tier_of, tiers.
  repeat (destruct (Rle_dec _ _));
    (split; [simpl; tauto |]);
    repeat split; intros; try discriminate; try lra; try assumption; try reflexivity.
Qed.

End Tier.

(** ** Market-based valuation *)

Section MarketBased.

(** C9: a non-empty comparable set whose stars sum to zero gives 0, no
    exception; without comparables the value is stars * 1000 * multiplier;
    and no call raises at all. *)
Theorem market_based_zero_guard (inputs : ValuationInputs)
    (comparable_data : list Comparable.t) :
  comparable_data <> [] ->
  total_stars comparable_data = 0%Z ->
  calculate_market_based inputs (Some comparable_data) = Some 0
  /\ calculate_market_based inputs None
     = Some (IZR (Py.get (stars (Py.get (metrics (repo_data inputs)) no_metrics)) 0%Z)
             * 1000 * market_multiplier inputs)
  /\ (forall cd, exists v, calculate_market_based inputs cd = Some v).
Proof.
  intros Hne Hzero. repeat split.
  - unfold calculate_market_based. cbn [Py.get].
    destruct comparable_data as [| c rest]; [contradiction |].
    fold (total_stars (c :: rest)). rewrite Hzero. reflexivity.
  - unfold calculate_market_based. cbn [Py.get]. now rewrite mult_IZR.
  - intros cd. unfold calculate_market_based.
    destruct (Py.get cd []) as [| c rest]; [eexists; reflexivity |].
    destruct (Z.eqb_spec
                (Py.sumZ (map (fun comp => Py.get (Comparable.stars comp) 1%Z) (c :: rest)))
                0) as [E | E]; [eexists; reflexivity |].
    unfold Py.div. destruct (Req_dec_T _ 0) as [E0 | E0].
    + exfalso. apply E. now apply eq_IZR.
    + eexists; reflexivity.
Qed.

Lemma market_based_zero_guard_witness :
  calculate_market_based sample_inputs (Some starless_comparables) = Some 0.
Proof.
  apply (market_based_zero_guard sample_inputs starless_comparables).
  - discriminate.
  - reflexivity.
Defined.

End MarketBased.

(** ** Scorecard valuation *)

Section Scorecard.

Lemma Rmin_nonneg (a b : R) : 0 <= a -> 0 <= b -> 0 <= Rmin a b.
Proof. intros Ha Hb. apply Rmin_glb; assumption. Qed.

Lemma IZR_div_nonneg (z : Z) (d : R) : (0 <= z)%Z -> 0 < d -> 0 <= IZR z / d.
Proof.
  intros Hz Hd. apply IZR_le in Hz.
  apply Rmult_le_pos; [assumption | left; now apply Rinv_0_lt_compat].
Qed.

(** The six weighted factors, summed. *)
Lemma scorecard_total_eq (inputs : ValuationInputs) :
  let repo_metrics := Py.get (metrics (repo_data inputs)) no_metrics in
  let repo_scores := Py.get (scores (repo_data inputs)) no_scores in
  let dev_info := Py.get (development (repo_data inputs)) no_development in
  scorecard_total inputs =
    Rmin (Py.get (overall_score repo_scores) 0.5) 1 * 0.25
    + Rmin (IZR (Py.get (stars repo_metrics) 0%Z + Py.get (forks repo_metrics) 0%Z) / 1000) 1 * 0.20
    + Rmin (IZR (Py.get (contributors dev_info) 0%Z) / 50) 1 * 0.15
    + Py.get (activity_score repo_scores) 0.5 * 0.15
    + 0.8 * 0.15
    + Py.get (health_score repo_scores) 0.5 * 0.10.
Proof.
  unfold scorecard_total, scorecard_scores, item.
  cbn [map snd Py.sum fold_left lookup factors String.eqb Ascii.eqb Bool.eqb Py.get].
  replace 1.0 with 1 by lra. lra.
Qed.

(** With well-formed inputs the total is at least the 0.12 that deployment
    readiness always contributes, and at most 1. *)
Lemma scorecard_total_bounds (inputs : ValuationInputs) :
  repo_data_ok (repo_data inputs) -> 0.12 <= scorecard_total inputs <= 1.
Proof.
  intros (Hm & Hs & Hd).
  rewrite scorecard_total_eq. cbv zeta.
  destruct Hm as (Hst & Hfk & _). destruct Hs as (Hh & Ha & _ & Ho).
  destruct Hd as (_ & Hc & _).
  apply get_unit_ok in Hh, Ha, Ho. apply get_count_ok in Hst, Hfk, Hc.
  set (o := Py.get (overall_score _) _) in *.
  set (a := Py.get (activity_score _) _) in *.
  set (h := Py.get (health_score _) _) in *.
  assert (H1 : 0 <= Rmin o 1 <= 1) by (split; [apply Rmin_nonneg; lra | apply Rmin_r]).
  assert (H2 : 0 <= Rmin (IZR (Py.get (stars (Py.get (metrics (repo_data inputs)) no_metrics)) 0%Z
                               + Py.get (forks (Py.get (metrics (repo_data inputs)) no_metrics)) 0%Z)
                          / 1000) 1 <= 1).
  { split; [apply Rmin_nonneg; [apply IZR_div_nonneg; [lia | lra] | lra] | apply Rmin_r]. }
  assert (H3 : 0 <= Rmin (IZR (Py.get (contributors
                                         (Py.get (development (repo_data inputs)) no_development)) 0%Z)
                          / 50) 1 <= 1).
  { split; [apply Rmin_nonneg; [apply IZR_div_nonneg; [lia | lra] | lra] | apply Rmin_r]. }
  lra.
Qed.

Lemma base_range_ordered (t : R) :
  0 <= t ->
  low (base_range t) <= medium (base_range t) <= high (base_range t).
Proof.
  intros Ht. unfold base_range. cbn [low medium high].
  unfold Rmax. repeat destruct (Rle_dec _ _); lra.
Qed.

(** C8: for well-formed inputs the returned range is ordered, each tier is
    [max(multiplier * total_score, floor)] with the pairs (10000, 5000),
    (50000, 25000), (250000, 100000), rounded to cents for the result, and
    each tier is at least its floor. *)
Theorem scorecard_range_ordered (inputs : ValuationInputs) :
  repo_data_ok (repo_data inputs) ->
  let total_score := scorecard_total inputs in
  let range := valuation_range (calculate_scorecard inputs) in
  (low range = Py.round (Rmax (10000 * total_score) 5000) 2
   /\ medium range = Py.round (Rmax (50000 * total_score) 25000) 2
   /\ high range = Py.round (Rmax (250000 * total_score) 100000) 2)
  /\ low (base_range total_score) <= medium (base_range total_score)
     <= high (base_range total_score)
  /\ low range <= medium range <= high range
  /\ 5000 <= low range /\ 25000 <= medium range /\ 100000 <= high range.
Proof.
  intros Hok total_score range.
  pose proof (scorecard_total_bounds inputs Hok) as [Hlo _].
  fold total_score in Hlo.
  assert (Ht : 0 <= total_score) by lra.
  pose proof (base_range_ordered total_score Ht) as [H1 H2].
  subst range. unfold calculate_scorecard. cbn [valuation_range low medium high].
  fold total_score.
  split; [repeat split; reflexivity |].
  split; [split; assumption |].
  split; [split; apply round_mono; assumption |].
  repeat split.
  - rewrite <- (round_IZR 5000 2). apply round_mono. apply Rmax_r.
  - rewrite <- (round_IZR 25000 2). apply round_mono. apply Rmax_r.
  - rewrite <- (round_IZR 100000 2). apply round_mono. apply Rmax_r.
Qed.

Lemma scorecard_range_ordered_witness :
  let range := valuation_range (calculate_scorecard sample_inputs) in
  low range <= medium range <= high range.
Proof.
  intros range.
  apply (scorecard_range_ordered sample_inputs).
  unfold repo_data_ok, metrics_ok, scores_ok, development_ok, sample_inputs.
  cbn. repeat split; try lia; lra.
Defined.

End Scorecard.

(** ** Adoption score *)

Section Adoption.

Lemma adoption_npm (w : Z) : calculate_adoption_score (npm_stats w) = npm_score w.
Proof. reflexivity. Qed.

Lemma adoption_pypi (m : Z) : calculate_adoption_score (pypi_stats m) = pypi_score m.
Proof. reflexivity. Qed.

Lemma adoption_cargo (t r : Z) :
  calculate_adoption_score (cargo_stats t r) = cargo_score t r.
Proof. reflexivity. Qed.

(** Decide every [>=?] test of the goal, turning each outcome into a bound
    on the real image of the count. *)
Ltac split_tiers :=
  repeat match goal with
  | |- context [(?a >=? ?b)%Z] =>
      rewrite (Z.geb_leb a b);
      let H := fresh "Htier" in
      destruct (Z.leb_spec b a) as [H | H];
      [apply IZR_le in H | apply IZR_lt in H]
  end.

(** The cargo path interpolates between its breakpoints: it stays in
    [0,100] and never decreases in either count. *)
Lemma cargo_score_bounds (t r : Z) :
  (0 <= t)%Z -> (0 <= r)%Z -> 0 <= cargo_score t r <= 100.
Proof.
  intros Ht Hr. apply IZR_le in Ht, Hr. unfold cargo_score.
  split_tiers; rewrite ?minus_IZR;
    unfold Rmin; repeat destruct (Rle_dec _ _); lra.
Qed.

Lemma cargo_score_mono (t t' r r' : Z) :
  (0 <= t <= t')%Z -> (0 <= r <= r')%Z -> cargo_score t r <= cargo_score t' r'.
Proof.
  intros [Ht Htt] [Hr Hrr]. apply IZR_le in Ht, Htt, Hr, Hrr. unfold cargo_score.
  split_tiers; rewrite ?minus_IZR;
    unfold Rmin; repeat destruct (Rle_dec _ _); lra.
Qed.

(** C3 (evaluation at the failing input): on the npm and pypi paths the
    segment from the third breakpoint to the fourth adds [count / breakpoint]
    halves of 100 instead of interpolating, so 20000 weekly npm downloads
    score 150, 100000 monthly pypi downloads score 150, and the npm score
    falls from 99999 to 100000 downloads. *)
Theorem adoption_score_leaves_range :
  calculate_adoption_score (npm_stats 20000) = 150
  /\ calculate_adoption_score (pypi_stats 100000) = 150
  /\ calculate_adoption_score (npm_stats 100000)
     < calculate_adoption_score (npm_stats 99999).
Proof.
  rewrite !adoption_npm, adoption_pypi. unfold npm_score, pypi_score.
  repeat split; split_tiers; lra.
Qed.

(** C4 (evaluation at the failing input): zero downloads score 0 and 100000
    score 100, the segments meet at 100 and at 1000, but the score jumps
    from below 50 at 9999 to 100 at 10000, and from above 549 at 99999 down
    to 100 at 100000. *)
Theorem npm_score_jumps :
  calculate_adoption_score (npm_stats 0) = 0
  /\ calculate_adoption_score (npm_stats 100000) = 100
  /\ calculate_adoption_score (npm_stats 99) = 9.9
  /\ calculate_adoption_score (npm_stats 100) = 10
  /\ calculate_adoption_score (npm_stats 1000) = 25
  /\ calculate_adoption_score (npm_stats 9999) < 50
  /\ calculate_adoption_score (npm_stats 10000) = 100
  /\ 549 < calculate_adoption_score (npm_stats 99999).
Proof.
  rewrite !adoption_npm. unfold npm_score.
  repeat split; split_tiers; rewrite ?minus_IZR;
    unfold Rmin; repeat destruct (Rle_dec _ _); lra.
Qed.

End Adoption.

(** ** The metric normalizer *)

Section Normalizer.

Lemma clamp_bounds (v : R) : 0 <= Rmin 100 (Rmax 0 v) <= 100.
Proof. unfold Rmin, Rmax. repeat destruct (Rle_dec _ _); lra. Qed.

Lemma clamp_high (v : R) : 100 <= v -> Rmin 100 (Rmax 0 v) = 100.
Proof. intros H. unfold Rmin, Rmax. repeat destruct (Rle_dec _ _); lra. Qed.

Lemma clamp_id (v : R) : 0 <= v <= 100 -> Rmin 100 (Rmax 0 v) = v.
Proof. intros H. unfold Rmin, Rmax. repeat destruct (Rle_dec _ _); lra. Qed.

Lemma clamp_mono (u v : R) : u <= v -> Rmin 100 (Rmax 0 u) <= Rmin 100 (Rmax 0 v).
Proof. intros H. unfold Rmin, Rmax. repeat destruct (Rle_dec _ _); lra. Qed.

(** Clamping never moves two values apart. *)
Lemma clamp_lipschitz (u v : R) :
  Rabs (Rmin 100 (Rmax 0 u) - Rmin 100 (Rmax 0 v)) <= Rabs (u - v).
Proof.
  unfold Rmin, Rmax, Rabs.
  repeat destruct (Rle_dec _ _); repeat destruct (Rcase_abs _); lra.
Qed.

(** [x ** e] is continuous on the counts, zero included. *)
Lemma py_pow_continuous (e : R) :
  0 < e -> continuous_from_0 (fun x => Py.pow x e).
Proof.
  intros He x Hx eps Heps.
  destruct (Req_dec_T x 0) as [-> | Hx0].
  - exists (Rpower eps (/ e)). split; [apply Rpower_pos |].
    intros y Hy Hd. rewrite py_pow_0, Rminus_0_r in *.
    rewrite Rabs_pos_eq in Hd by assumption.
    rewrite Rabs_pos_eq by apply py_pow_nonneg.
    destruct (Req_dec_T y 0) as [-> | Hy0]; [now rewrite py_pow_0 |].
    rewrite py_pow_pos_eq by lra.
    apply Rlt_le_trans with (Rpower (Rpower eps (/ e)) e).
    + apply Rlt_Rpower_l; lra.
    + rewrite Rpower_mult, Rinv_l by lra. right. now apply Rpower_1.
  - assert (Hpos : 0 < x) by lra.
    assert (Hc : continuity_pt (fun z => Rpower z e) x).
    { apply derivable_continuous_pt.
      exists (e * Rpower x (e - 1)). now apply derivable_pt_lim_power. }
    destruct (Hc eps Heps) as (alp & Halp & Hlim).
    exists (Rmin alp x). split; [apply Rmin_glb_lt; lra |].
    intros y Hy Hd.
    assert (Hd1 : Rabs (y - x) < alp) by (eapply Rlt_le_trans; [exact Hd | apply Rmin_l]).
    assert (Hd2 : Rabs (y - x) < x) by (eapply Rlt_le_trans; [exact Hd | apply Rmin_r]).
    assert (Hy0 : 0 < y).
    { unfold Rabs in Hd2. destruct (Rcase_abs _); lra. }
    rewrite !py_pow_pos_eq by assumption.
    destruct (Req_dec_T y x) as [-> | Hne].
    + rewrite Rminus_diag, Rabs_R0. assumption.
    + apply (Hlim y). split; [| exact Hd1].
      split; [exact I | congruence].
Qed.

Section Tuple.

Variables w s e : R.
Hypothesis Hw : 0 < w.
Hypothesis Hs : 0 < s.
Hypothesis He : 0 < e.

Lemma scaled_nonneg (x : R) : 0 <= x -> 0 <= x / s.
Proof. intros Hx. apply Rmult_le_pos; [assumption | left; now apply Rinv_0_lt_compat]. Qed.

Lemma scaled_lt (x y : R) : x < y -> x / s < y / s.
Proof. intros H. apply Rmult_lt_compat_r; [now apply Rinv_0_lt_compat | assumption]. Qed.

Lemma normalizer_bounded : bounded_0_100 (normalizer_spec w s e).
Proof. intros x _. apply clamp_bounds. Qed.

Lemma normalizer_nondecreasing : nondecreasing_from_0 (normalizer_spec w s e).
Proof.
  intros x y Hx Hxy. unfold normalizer_spec. apply clamp_mono.
  assert (Py.pow (x / s) e <= Py.pow (y / s) e).
  { apply py_pow_le; [assumption | now apply scaled_nonneg |].
    destruct Hxy as [Hlt | ->]; [left; now apply scaled_lt | right; reflexivity]. }
  nra.
Qed.

Lemma normalizer_increasing_below_cap :
  strictly_increasing_below_cap (normalizer_spec w s e).
Proof.
  intros x y Hx Hxy. unfold normalizer_spec.
  assert (Hp : Py.pow (x / s) e < Py.pow (y / s) e).
  { apply py_pow_lt; [assumption | now apply scaled_nonneg | now apply scaled_lt]. }
  pose proof (py_pow_nonneg (x / s) e).
  unfold Rmin, Rmax. repeat destruct (Rle_dec _ _); intros; nra.
Qed.

Lemma normalizer_continuous : continuous_from_0 (normalizer_spec w s e).
Proof.
  intros x Hx eps Heps.
  assert (Hew : 0 < eps / w) by (apply Rdiv_lt_0_compat; assumption).
  destruct (py_pow_continuous e He (x / s) (scaled_nonneg x Hx) (eps / w) Hew)
    as (d & Hd & Hlim).
  exists (d * s). split; [now apply Rmult_lt_0_compat |].
  intros y Hy Hdist. unfold normalizer_spec.
  eapply Rle_lt_trans; [apply clamp_lipschitz |].
  replace (w * (1 + Py.pow (y / s) e) - w * (1 + Py.pow (x / s) e))
    with (w * (Py.pow (y / s) e - Py.pow (x / s) e)) by ring.
  rewrite Rabs_mult, (Rabs_pos_eq w) by lra.
  assert (Hclose : Rabs (y / s - x / s) < d).
  { replace (y / s - x / s) with ((y - x) / s) by (field; lra).
    unfold Rdiv. rewrite Rabs_mult, (Rabs_pos_eq (/ s)) by (left; now apply Rinv_0_lt_compat).
    apply Rmult_lt_reg_r with s; [assumption |].
    rewrite Rmult_assoc, Rinv_l, Rmult_1_r by lra. assumption. }
  specialize (Hlim (y / s) (scaled_nonneg y Hy) Hclose).
  apply Rmult_lt_compat_l with (r := w) in Hlim; [| assumption].
  replace (w * (eps / w)) with eps in Hlim by (field; lra).
  assumption.
Qed.

End Tuple.

End Normalizer.

(** ** Saturation of the sub-scores *)

Section Saturation.

Lemma tenths_3 : 0.3 = INR 3 / 10.
Proof. simpl. lra. Qed.

Lemma tenths_4 : 0.4 = INR 4 / 10.
Proof. simpl. lra. Qed.

Lemma tenths_5 : 0.5 = INR 5 / 10.
Proof. simpl. lra. Qed.

(** From 1024 on, [x ** (k/10)] is at least [2 ^ k]. *)
Lemma py_pow_from_1024 (x : R) (k : nat) :
  1024 <= x -> 2 ^ k <= Py.pow x (INR k / 10).
Proof.
  intros Hx. destruct k as [| k].
  - simpl pow. rewrite py_pow_pos_eq by lra.
    replace (INR 0 / 10) with 0 by (simpl; lra).
    rewrite Rpower_O by lra. lra.
  - rewrite <- (py_pow_tenths_of_power 2 (S k)) by lra.
    apply py_pow_le.
    + apply Rdiv_lt_0_compat; [apply lt_0_INR; lia | lra].
    + apply pow_le; lra.
    + replace (2 ^ 10) with 1024 by (simpl; lra). assumption.
Qed.

Lemma star_score_saturated (x : R) : 1024000 <= x -> star_score x = 100.
Proof.
  intros Hx. unfold star_score. apply clamp_high.
  assert (H : 2 ^ 3 <= Py.pow (x / 1000) 0.3)
    by (rewrite tenths_3; apply py_pow_from_1024; lra).
  simpl in H. lra.
Qed.

Lemma fork_score_saturated (x : R) : 512000 <= x -> fork_score x = 100.
Proof.
  intros Hx. unfold fork_score. apply clamp_high.
  assert (H : 2 ^ 3 <= Py.pow (x / 500) 0.3)
    by (rewrite tenths_3; apply py_pow_from_1024; lra).
  simpl in H. lra.
Qed.

(** The watcher score needs [(x/200) ** 0.3 >= 9]: a ratio of [4 ^ 10] is
    enough, its 0.3-th power being [4 ^ 3]. *)
Lemma watcher_score_saturated (x : R) : 209715200 <= x -> watcher_score x = 100.
Proof.
  intros Hx. unfold watcher_score. apply clamp_high.
  assert (H9 : 9 <= Py.pow (x / 200) 0.3).
  { apply Rle_trans with (Py.pow (4 ^ 10) 0.3).
    - rewrite tenths_3, py_pow_tenths_of_power by lra. simpl. lra.
    - apply py_pow_le; [lra | simpl; lra | simpl; lra]. }
  lra.
Qed.

Lemma contributor_score_saturated (x : R) : 51200 <= x -> contributor_score x = 100.
Proof.
  intros Hx. unfold contributor_score. apply clamp_high.
  assert (H : 2 ^ 4 <= Py.pow (x / 50) 0.4)
    by (rewrite tenths_4; apply py_pow_from_1024; lra).
  simpl in H. lra.
Qed.

Lemma commit_score_saturated (x : R) : 1024000 <= x -> commit_score x = 100.
Proof.
  intros Hx. unfold commit_score. apply clamp_high.
  assert (H : 2 ^ 3 <= Py.pow (x / 1000) 0.3)
    by (rewrite tenths_3; apply py_pow_from_1024; lra).
  simpl in H. lra.
Qed.

Lemma frequency_score_saturated (x : R) : 10240 <= x -> frequency_score x = 100.
Proof.
  intros Hx. unfold frequency_score. apply clamp_high.
  assert (H : 2 ^ 5 <= Py.pow (x / 10) 0.5)
    by (rewrite tenths_5; apply py_pow_from_1024; lra).
  simpl in H. lra.
Qed.

(** The sum inside [network_effects] starts at 100, so the dimension is
    100 whatever the counts. *)
Lemma network_effects_always_100 (forks watchers : R) : network_effects forks watchers = 100.
Proof.
  unfold network_effects. apply clamp_high.
  pose proof (py_pow_nonneg (forks / 2000) 0.3).
  pose proof (py_pow_nonneg (watchers / 500) 0.3). lra.
Qed.

Lemma market_potential_saturated (stars forks contributors : R) :
  5120000 <= stars -> 0 <= forks -> 0 <= contributors ->
  market_potential stars forks contributors = 100.
Proof.
  intros Hs Hf Hc. unfold market_potential. apply clamp_high.
  assert (H : 2 ^ 4 <= Py.pow (stars / 5000) 0.4)
    by (rewrite tenths_4; apply py_pow_from_1024; lra).
  simpl in H.
  pose proof (py_pow_nonneg (forks / 1000) 0.4).
  pose proof (py_pow_nonneg (contributors / 100) 0.3). lra.
Qed.

End Saturation.

Section NormalizerClaim.

(** C7 as stated fails: the star score is not strictly increasing, it is
    100 at a billion stars and still 100 at two billion. *)
Lemma star_score_not_strictly_increasing :
  ~ strictly_increasing_from_0 star_score.
Proof.
  intros H. specialize (H 1000000000 2000000000).
  rewrite !star_score_saturated in H by lra. lra.
Qed.

(** C7, amended: each of the six metric sub-scores is the normalizer of the
    specification at its own tuple, lies in [0,100], is continuous and
    non-decreasing on the counts, and is strictly increasing as long as it
    has not reached the cap of 100. *)
Theorem metric_sub_scores_normalized :
  (forall x, star_score x = normalizer_spec 20 1000 0.3 x)
  /\ (forall x, fork_score x = normalizer_spec 15 500 0.3 x)
  /\ (forall x, watcher_score x = normalizer_spec 10 200 0.3 x)
  /\ (forall x, contributor_score x = normalizer_spec 30 50 0.4 x)
  /\ (forall x, commit_score x = normalizer_spec 40 1000 0.3 x)
  /\ (forall x, frequency_score x = normalizer_spec 30 10 0.5 x)
  /\ Forall (fun f => bounded_0_100 f /\ continuous_from_0 f
                      /\ nondecreasing_from_0 f /\ strictly_increasing_below_cap f)
       [star_score; fork_score; watcher_score;
        contributor_score; commit_score; frequency_score].
Proof.
  repeat (split; [reflexivity |]).
  assert (P : forall w s e, 0 < w -> 0 < s -> 0 < e ->
    bounded_0_100 (normalizer_spec w s e) /\ continuous_from_0 (normalizer_spec w s e)
    /\ nondecreasing_from_0 (normalizer_spec w s e)
    /\ strictly_increasing_below_cap (normalizer_spec w s e)).
  { intros w s e Hw Hs He. repeat split.
    - now apply normalizer_bounded.
    - now apply normalizer_bounded.
    - now apply normalizer_continuous.
    - now apply normalizer_nondecreasing.
    - now apply normalizer_increasing_below_cap. }
  assert (H3 : 0 < 0.3) by lra. assert (H4 : 0 < 0.4) by lra.
  assert (H5 : 0 < 0.5) by lra.
  assert (P10 : 0 < 10) by lra. assert (P15 : 0 < 15) by lra.
  assert (P20 : 0 < 20) by lra. assert (P30 : 0 < 30) by lra.
  assert (P40 : 0 < 40) by lra. assert (P50 : 0 < 50) by lra.
  assert (P200 : 0 < 200) by lra. assert (P500 : 0 < 500) by lra.
  assert (P1000 : 0 < 1000) by lra.
  apply Forall_cons; [exact (P 20 1000 0.3 P20 P1000 H3) |].
  apply Forall_cons; [exact (P 15 500 0.3 P15 P500 H3) |].
  apply Forall_cons; [exact (P 10 200 0.3 P10 P200 H3) |].
  apply Forall_cons; [exact (P 30 50 0.4 P30 P50 H4) |].
  apply Forall_cons; [exact (P 40 1000 0.3 P40 P1000 H3) |].
  apply Forall_cons; [exact (P 30 10 0.5 P30 P10 H5) |].
  apply Forall_nil.
Qed.

End NormalizerClaim.

(** ** Valuation mapper *)

Section ValuationMapper.

(** A power of a power: [(t ^ n) ** e = t ** (n * e)]. *)
Lemma py_pow_nat_mult (t e : R) (n : nat) :
  0 < t -> Py.pow (t ^ n) e = Py.pow t (INR n * e).
Proof.
  intros Ht.
  assert (Hn : 0 < t ^ n) by (apply pow_lt; assumption).
  rewrite !py_pow_pos_eq by assumption.
  rewrite <- (Rpower_pow n t Ht). apply Rpower_mult.
Qed.

Lemma py_pow_INR (t : R) (n : nat) : 0 < t -> Py.pow t (INR n) = t ^ n.
Proof. intros Ht. rewrite py_pow_pos_eq by assumption. now apply Rpower_pow. Qed.

(** On the unit interval a power stays in the unit interval. *)
Lemma py_pow_unit (t e : R) : 0 < e -> 0 <= t <= 1 -> 0 <= Py.pow t e <= 1.
Proof.
  intros He [H0 H1]. split; [apply py_pow_nonneg |].
  rewrite <- (py_pow_1 e). now apply py_pow_le.
Qed.

(** From a tenth on, [t ** 0.3] is at least one half: the cube of [t] is at
    least the tenth power of one half. *)
Lemma py_pow_03_half (t : R) : 1 / 10 <= t -> 1 / 2 <= Py.pow t 0.3.
Proof.
  intros Ht.
  replace 0.3 with (INR 3 * 0.1) by (simpl; lra).
  rewrite <- py_pow_nat_mult by lra.
  apply Rle_trans with (Py.pow ((1 / 2) ^ 10) 0.1).
  - rewrite py_pow_nat_mult by lra.
    replace (INR 10 * 0.1) with (INR 1) by (simpl; lra).
    rewrite py_pow_INR by lra. simpl. lra.
  - apply py_pow_le; [lra | simpl; lra |].
    apply Rle_trans with ((1 / 10) ^ 3); [simpl; lra |].
    apply pow_incr. lra.
Qed.

(** On scores in [0,100] neither clamp is active. *)
Lemma conservative_eq (u : R) :
  0 <= u <= 100 -> conservative u = Py.pow (u / 100) 2.2 * 5000000.
Proof.
  intros Hu. unfold conservative, max_valuation.
  assert (H := py_pow_unit (u / 100) 2.2 ltac:(lra) ltac:(lra)).
  unfold Rmin, Rmax. repeat destruct (Rle_dec _ _); lra.
Qed.

Lemma realistic_eq (u : R) :
  0 <= u <= 100 -> realistic u = Py.pow (u / 100) 2.5 * 10000000.
Proof.
  intros Hu. unfold realistic, max_valuation.
  assert (H := py_pow_unit (u / 100) 2.5 ltac:(lra) ltac:(lra)).
  unfold Rmin, Rmax. repeat destruct (Rle_dec _ _); lra.
Qed.

Lemma optimistic_eq (u : R) :
  0 <= u <= 100 -> optimistic u = Py.pow (u / 100) 2.8 * 20000000.
Proof.
  intros Hu. unfold optimistic, max_valuation.
  assert (H := py_pow_unit (u / 100) 2.8 ltac:(lra) ltac:(lra)).
  unfold Rmin, Rmax. repeat destruct (Rle_dec _ _); lra.
Qed.

Lemma cap_bounds (v : R) : 0 <= Rmin max_valuation (Rmax 0 v) <= max_valuation.
Proof. unfold max_valuation, Rmin, Rmax. repeat destruct (Rle_dec _ _); lra. Qed.

Lemma cap_mono (u v : R) :
  u <= v -> Rmin max_valuation (Rmax 0 u) <= Rmin max_valuation (Rmax 0 v).
Proof. intros H. unfold Rmin, Rmax. repeat destruct (Rle_dec _ _); lra. Qed.

Lemma scaled_pow_mono (u u' e c : R) :
  0 < e -> 0 <= c -> 0 <= u -> u <= u' ->
  Py.pow (u / 100) e * c <= Py.pow (u' / 100) e * c.
Proof.
  intros He Hc Hu Huu. apply Rmult_le_compat_r; [assumption |].
  apply py_pow_le; lra.
Qed.

(** Before rounding the three figures are ordered from a score of 10 on
    (also above 100, where the enriched score can land). *)
Lemma figures_ordered (u : R) :
  10 <= u -> conservative u <= realistic u <= optimistic u.
Proof.
  intros Hu. unfold conservative, realistic, optimistic.
  assert (Ht : 0 < u / 100) by lra.
  pose proof (py_pow_03_half (u / 100) ltac:(lra)) as Hhalf.
  replace 2.5 with (2.2 + 0.3) by lra. replace 2.8 with (2.2 + 0.3 + 0.3) by lra.
  rewrite !py_pow_plus by assumption.
  pose proof (py_pow_pos (u / 100) 2.2 Ht) as Hp.
  set (p := Py.pow (u / 100) 2.2) in *. set (q := Py.pow (u / 100) 0.3) in *.
  assert (0 < p * q) by (apply Rmult_lt_0_compat; lra).
  split; apply cap_mono; nra.
Qed.

(** At a score of 0 the three figures are 0. *)
Lemma figures_at_0 : conservative 0 = 0 /\ realistic 0 = 0 /\ optimistic 0 = 0.
Proof.
  rewrite conservative_eq, realistic_eq, optimistic_eq by lra.
  replace (0 / 100) with 0 by lra. rewrite !py_pow_0. lra.
Qed.

Lemma max_valuation_IZR : max_valuation = IZR 1000000000.
Proof. reflexivity. Qed.

(** The mapper applied to a score of 1, a score no well-formed input
    produces (see [unicorn_score_bounds]): there the realistic figure is
    100 dollars and the conservative one more than 150. *)
Lemma valuation_order_fails_at_1 :
  realistic_usd (speculative_valuation_ranges 1) = 100
  /\ 150 <= conservative_usd (speculative_valuation_ranges 1)
  /\ ~ (conservative_usd (speculative_valuation_ranges 1)
        <= realistic_usd (speculative_valuation_ranges 1)).
Proof.
  unfold speculative_valuation_ranges. cbn [realistic_usd conservative_usd].
  assert (Hr : realistic 1 = 100).
  { rewrite realistic_eq by lra.
    replace (1 / 100) with ((1 / 10) ^ 2) by (simpl; lra).
    rewrite py_pow_nat_mult by lra.
    replace (INR 2 * 2.5) with (INR 5) by (simpl; lra).
    rewrite py_pow_INR by lra. simpl. lra. }
  assert (Hq : Py.pow (1 / 100) 0.3 <= 8 / 27).
  { apply Rle_trans with (Py.pow ((2 / 3) ^ 10) 0.3).
    - apply py_pow_le; [lra | lra | simpl; lra].
    - rewrite py_pow_nat_mult by lra.
      replace (INR 10 * 0.3) with (INR 3) by (simpl; lra).
      rewrite py_pow_INR by lra. simpl. lra. }
  assert (Hc : 150 <= conservative 1).
  { rewrite conservative_eq by lra.
    rewrite realistic_eq in Hr by lra.
    replace 2.5 with (2.2 + 0.3) in Hr by lra.
    rewrite py_pow_plus in Hr by lra.
    pose proof (py_pow_pos (1 / 100) 2.2 ltac:(lra)) as Hp.
    pose proof (py_pow_pos (1 / 100) 0.3 ltac:(lra)) as Hq0.
    set (p := Py.pow (1 / 100) 2.2) in *. set (q := Py.pow (1 / 100) 0.3) in *.
    nra. }
  assert (E1 : Py.round (realistic 1) 2 = 100).
  { rewrite Hr. apply (round_IZR 100 2). }
  assert (E2 : 150 <= Py.round (conservative 1) 2).
  { rewrite <- (round_IZR 150 2). now apply round_mono. }
  rewrite E1. repeat split; lra.
Qed.

(** The mapper as a function of any score in [0,100]: each of the three
    figures lies in [0, CAP] and does not decrease when the score grows;
    the order conservative <= realistic <= optimistic <= CAP holds at 0
    and from a score of 10 on. *)
Theorem valuation_ranges_bounded_monotone (u : R) :
  0 <= u <= 100 ->
  let r := speculative_valuation_ranges u in
  (0 <= conservative_usd r <= max_valuation
   /\ 0 <= realistic_usd r <= max_valuation
   /\ 0 <= optimistic_usd r <= max_valuation)
  /\ (forall u', u <= u' <= 100 ->
        let r' := speculative_valuation_ranges u' in
        conservative_usd r <= conservative_usd r'
        /\ realistic_usd r <= realistic_usd r'
        /\ optimistic_usd r <= optimistic_usd r')
  /\ (u = 0 \/ 10 <= u ->
        conservative_usd r <= realistic_usd r
        /\ realistic_usd r <= optimistic_usd r
        /\ optimistic_usd r <= 1000000000).
Proof.
  intros Hu r. subst r. unfold speculative_valuation_ranges.
  cbn [conservative_usd realistic_usd optimistic_usd].
  assert (B : forall v, 0 <= Py.round (Rmin max_valuation (Rmax 0 v)) 2 <= max_valuation).
  { intros v. rewrite max_valuation_IZR at 3.
    apply (round_between 0 1000000000). rewrite <- max_valuation_IZR. apply cap_bounds. }
  split; [| split].
  - repeat split; apply B.
  - intros u' Hu'. cbv zeta.
    repeat split; apply round_mono; apply cap_mono; apply scaled_pow_mono; lra.
  - intros Hcase. split; [| split].
    + apply round_mono. destruct Hcase as [-> | H10].
      * destruct figures_at_0 as (-> & -> & _). lra.
      * apply figures_ordered; lra.
    + apply round_mono. destruct Hcase as [-> | H10].
      * destruct figures_at_0 as (_ & -> & ->). lra.
      * apply figures_ordered; lra.
    + apply B.
Qed.

Lemma valuation_ranges_bounded_monotone_witness :
  let r := speculative_valuation_ranges 50 in
  conservative_usd r <= realistic_usd r
  /\ realistic_usd r <= optimistic_usd r
  /\ optimistic_usd r <= 1000000000.
Proof.
  intros r.
  apply (valuation_ranges_bounded_monotone 50); lra.
Defined.

End ValuationMapper.

(** ** The weighted unicorn score *)

Section UnicornScore.

Ltac eval_dict :=
  cbn [weighted_sum keys map fst snd flat_map app lookup item Py.sum fold_left Py.get
       weights_with_analysis weights_without_analysis
       String.eqb Ascii.eqb Bool.eqb].

(** The weighted sum under the table without analysis: five terms,
    whatever else the score dictionary holds. *)
Lemma weighted_sum_without (cm dv tq mp ne : R) (rest : dict) :
  weighted_sum
    (("community_momentum", cm) :: ("development_velocity", dv)
     :: ("technology_quality", tq) :: ("market_potential", mp)
     :: ("network_effects", ne) :: rest)%string
    weights_without_analysis
  = cm * 0.25 + dv * 0.20 + tq * 0.20 + mp * 0.20 + ne * 0.15.
Proof. unfold weighted_sum. eval_dict. lra. Qed.

(** The weighted sum under the table with analysis: seven terms. *)
Lemma weighted_sum_with (cm dv tq mp ne cq mt tr sp : R) :
  weighted_sum
    [ ("community_momentum", cm); ("development_velocity", dv);
      ("technology_quality", tq); ("market_potential", mp);
      ("network_effects", ne); ("code_quality", cq); ("maintainability", mt);
      ("test_reliability", tr); ("security_posture", sp) ]%string
    weights_with_analysis
  = cm * 0.25 + dv * 0.15 + tq * 0.20 + mp * 0.15 + ne * 0.10
    + cq * 0.10 + sp * 0.05.
Proof. unfold weighted_sum. eval_dict. lra. Qed.

(** Without a trusted analysis the score dictionary ends with the four
    zero entries. *)
Lemma component_scores_without (inputs : ValuationInputs)
    (codebase_analysis : option CodebaseAnalysis) :
  has_codebase_analysis codebase_analysis = false ->
  component_scores_of inputs codebase_analysis
  = firstn 5 (component_scores_of inputs None) ++ default_analysis_scores.
Proof.
  intros H. unfold component_scores_of, technology_quality.
  destruct codebase_analysis as [a |]; [rewrite H |]; reflexivity.
Qed.

Lemma round_0_100 (x : R) : 0 <= x <= 100 -> 0 <= Py.round x 1 <= 100.
Proof. intros H. apply (round_between 0 100). exact H. Qed.

Lemma community_momentum_bounds (s f w : R) : 0 <= community_momentum s f w <= 100.
Proof.
  unfold community_momentum, star_score, fork_score, watcher_score.
  pose proof (clamp_bounds (20 * (1 + Py.pow (s / 1000) 0.3))).
  pose proof (clamp_bounds (15 * (1 + Py.pow (f / 500) 0.3))).
  pose proof (clamp_bounds (10 * (1 + Py.pow (w / 200) 0.3))). lra.
Qed.

Lemma development_velocity_bounds (c t f : R) : 0 <= development_velocity c t f <= 100.
Proof.
  unfold development_velocity, contributor_score, commit_score, frequency_score.
  pose proof (clamp_bounds (30 * (1 + Py.pow (c / 50) 0.4))).
  pose proof (clamp_bounds (40 * (1 + Py.pow (t / 1000) 0.3))).
  pose proof (clamp_bounds (30 * (1 + Py.pow (f / 10) 0.5))). lra.
Qed.

Lemma base_tech_quality_bounds (s : RepoScores) :
  scores_ok s -> 0 <= base_tech_quality s <= 100.
Proof.
  intros (Hh & Ha & _ & Ho). apply get_unit_ok in Hh, Ha, Ho.
  unfold base_tech_quality. lra.
Qed.

(** For well-formed inputs and no trusted analysis the score is in
    [0,100]. *)
Lemma unicorn_score_without_bounds (inputs : ValuationInputs)
    (codebase_analysis : option CodebaseAnalysis) :
  repo_data_ok (repo_data inputs) ->
  has_codebase_analysis codebase_analysis = false ->
  0 <= unicorn_score_of inputs codebase_analysis <= 100.
Proof.
  intros (_ & Hs & _) H. unfold unicorn_score_of.
  rewrite component_scores_without, H by assumption.
  unfold component_scores_of, weights_of, technology_quality.
  cbn [firstn app]. rewrite weighted_sum_without.
  apply round_0_100.
  pose proof (round_0_100 _ (community_momentum_bounds
    (IZR (Py.get (stars (Py.get (metrics (repo_data inputs)) no_metrics)) 0%Z))
    (IZR (Py.get (forks (Py.get (metrics (repo_data inputs)) no_metrics)) 0%Z))
    (IZR (Py.get (watchers (Py.get (metrics (repo_data inputs)) no_metrics)) 0%Z)))).
  pose proof (round_0_100 _ (development_velocity_bounds
    (IZR (Py.get (contributors (Py.get (development (repo_data inputs)) no_development)) 0%Z))
    (IZR (Py.get (total_commits (Py.get (development (repo_data inputs)) no_development)) 0%Z))
    (Py.get (commit_frequency (Py.get (development (repo_data inputs)) no_development)) 0))).
  pose proof (round_0_100 _ (base_tech_quality_bounds _ Hs)).
  pose proof (round_0_100 _ (clamp_bounds
    (25 * (1 + Py.pow (IZR (Py.get (stars (Py.get (metrics (repo_data inputs)) no_metrics)) 0%Z) / 5000) 0.4)
     + 20 * (1 + Py.pow (IZR (Py.get (forks (Py.get (metrics (repo_data inputs)) no_metrics)) 0%Z) / 1000) 0.4)
     + 15 * (1 + Py.pow (IZR (Py.get (contributors (Py.get (development (repo_data inputs)) no_development)) 0%Z) / 100) 0.3)))).
  pose proof (round_0_100 _ (clamp_bounds
    (50 * (1 + Py.pow (IZR (Py.get (forks (Py.get (metrics (repo_data inputs)) no_metrics)) 0%Z) / 2000) 0.3)
     + 50 * (1 + Py.pow (IZR (Py.get (watchers (Py.get (metrics (repo_data inputs)) no_metrics)) 0%Z) / 500) 0.3)))).
  unfold market_potential, network_effects. lra.
Qed.

End UnicornScore.

(** ** The score at the pathological input *)

Section Pathological.

Ltac eval_fields :=
  cbn [repo_data metrics scores development stars forks watchers open_issues
       contributors total_commits commit_frequency
       health_score activity_score community_score overall_score
       status quality_scores architecture dependencies test_coverage documentation
       maintainability_index modularity_score coupling_score cohesion_score
       security_vulnerabilities critical_vulnerabilities outdated_percentage
       overall_coverage readme_quality_score Py.get].

Lemma round1_of_Z (x : R) (z : Z) : x = IZR z -> Py.round x 1 = IZR z.
Proof. intros ->. apply round_IZR. Qed.

(** With a trusted analysis the technology dimension adds the base at 0.3
    to three parts worth 40, 30 and 30 points: 130 at the best. *)
Lemma enhanced_tech_quality_perfect :
  enhanced_tech_quality 100 perfect_analysis = 130.
Proof.
  unfold enhanced_tech_quality, perfect_analysis. eval_fields.
  change (IZR (0 * 5)) with 0.
  unfold Rmax. destruct (Rle_dec _ _); lra.
Qed.

Lemma analysis_scores_perfect :
  analysis_scores perfect_analysis
  = [ ("code_quality", 100); ("maintainability", 100);
      ("test_reliability", 100); ("security_posture", 100) ]%string.
Proof.
  unfold analysis_scores, perfect_analysis. eval_fields.
  change (Z.max 0 (100 - 0 * 20 - 0 * 5)) with 100%Z.
  rewrite (round1_of_Z (100 * 0.4 + 100 * 0.35 + 10 * 10 * 0.25) 100) by lra.
  rewrite !(round_IZR 100 1). reflexivity.
Qed.

Lemma component_scores_pathological :
  component_scores_of pathological_inputs (Some perfect_analysis)
  = [ ("community_momentum", 100); ("development_velocity", 100);
      ("technology_quality", 130); ("market_potential", 100);
      ("network_effects", 100); ("code_quality", 100); ("maintainability", 100);
      ("test_reliability", 100); ("security_posture", 100) ]%string.
Proof.
  unfold component_scores_of, technology_quality.
  change (has_codebase_analysis (Some perfect_analysis)) with true. cbv iota.
  rewrite analysis_scores_perfect.
  unfold pathological_inputs. eval_fields.
  unfold community_momentum, development_velocity, base_tech_quality. eval_fields.
  rewrite star_score_saturated, fork_score_saturated, watcher_score_saturated,
    contributor_score_saturated, commit_score_saturated, frequency_score_saturated,
    market_potential_saturated, network_effects_always_100 by lra.
  replace ((1 * 0.4 + 1 * 0.3 + 1 * 0.3) * 100) with 100 by lra.
  rewrite enhanced_tech_quality_perfect.
  rewrite (round1_of_Z (100 * 0.5 + 100 * 0.3 + 100 * 0.2) 100) by lra.
  rewrite (round1_of_Z (100 * 0.3 + 100 * 0.4 + 100 * 0.3) 100) by lra.
  rewrite (round_IZR 130 1), !(round_IZR 100 1). reflexivity.
Qed.

(** C1 (evaluation at the failing input): a billion of every count, perfect
    repository scores and a perfect analysis, all within the ranges of the
    data model, give a technology quality of 130 and a unicorn score of
    106. *)
Theorem unicorn_score_exceeds_100 :
  repo_data_ok (repo_data pathological_inputs)
  /\ analysis_ok perfect_analysis
  /\ lookup "technology_quality"
    (component_scores (calculate_unicorn_hunter pathological_inputs (Some perfect_analysis)))
  = Some 130
  /\ unicorn_score (calculate_unicorn_hunter pathological_inputs (Some perfect_analysis))
     = 106.
Proof.
  split.
  { unfold repo_data_ok, metrics_ok, scores_ok, development_ok, pathological_inputs.
    cbn. repeat split; try lia; lra. }
  split.
  { unfold analysis_ok, perfect_analysis. cbn. repeat split; try lia; lra. }
  unfold calculate_unicorn_hunter. cbn [component_scores unicorn_score].
  unfold unicorn_score_of. rewrite component_scores_pathological.
  split; [reflexivity |].
  change (has_codebase_analysis (Some perfect_analysis)) with true.
  unfold weights_of. rewrite weighted_sum_with.
  apply (round1_of_Z _ 106). lra.
Qed.

End Pathological.

(** ** Presence and absence of the codebase analysis *)

Section AnalysisFrame.

Ltac eval_lookup :=
  cbn [component_scores app lookup String.eqb Ascii.eqb Bool.eqb
       default_analysis_scores weights_without_analysis].

(** The four dimensions that never read the analysis. *)
Lemma analysis_free_components (inputs : ValuationInputs)
    (cb cb' : option CodebaseAnalysis) :
  Forall (fun key => lookup key (component_scores_of inputs cb)
                     = lookup key (component_scores_of inputs cb'))
    [ "community_momentum"; "development_velocity";
      "market_potential"; "network_effects" ]%string.
Proof.
  unfold component_scores_of. repeat constructor.
Qed.

(** C5 as stated fails: for the sample repository the technology quality is
    73 without analysis and 86.9 with a successful analysis. *)
Lemma analysis_changes_technology_quality :
  lookup "technology_quality"
    (component_scores (calculate_unicorn_hunter sample_inputs None)) = Some 73
  /\ lookup "technology_quality"
       (component_scores (calculate_unicorn_hunter sample_inputs (Some bare_analysis)))
     = Some 86.9
  /\ lookup "technology_quality"
       (component_scores (calculate_unicorn_hunter sample_inputs (Some bare_analysis)))
     <> lookup "technology_quality"
          (component_scores (calculate_unicorn_hunter sample_inputs None)).
Proof.
  assert (E1 : lookup "technology_quality"
                 (component_scores (calculate_unicorn_hunter sample_inputs None)) = Some 73).
  { unfold calculate_unicorn_hunter, component_scores_of. eval_lookup.
    f_equal. apply (round1_of_Z _ 73).
    unfold technology_quality, base_tech_quality, sample_inputs. cbn. lra. }
  assert (E2 : lookup "technology_quality"
                 (component_scores (calculate_unicorn_hunter sample_inputs (Some bare_analysis)))
               = Some 86.9).
  { unfold calculate_unicorn_hunter, component_scores_of. eval_lookup.
    f_equal. unfold technology_quality.
    change (has_codebase_analysis (Some bare_analysis)) with true. cbv iota.
    replace (enhanced_tech_quality (base_tech_quality _) bare_analysis)
      with (IZR 869 / 10 ^ 1).
    - rewrite round_decimal. simpl. lra.
    - unfold enhanced_tech_quality, base_tech_quality, bare_analysis, sample_inputs.
      cbn [repo_data scores health_score activity_score overall_score
           quality_scores architecture dependencies maintainability_index
           modularity_score coupling_score cohesion_score security_vulnerabilities
           outdated_percentage no_quality_scores no_architecture no_dependencies Py.get].
      change (IZR (0 * 5)) with 0.
      unfold Rmax. destruct (Rle_dec _ _); simpl; lra. }
  rewrite E1, E2. repeat split. intros H. injection H as H. lra.
Qed.

(** C5, amended: without a trusted analysis (none given, or a status other
    than success) the code_quality and security_posture entries are 0, the
    weight table in use has no entry for either key, the unicorn score is
    the rounded sum of the five weighted baseline dimensions, and the
    entries community_momentum, development_velocity, market_potential and
    network_effects are the same whatever analysis is or is not supplied. *)
Theorem absent_analysis_frame (inputs : ValuationInputs)
    (codebase_analysis : option CodebaseAnalysis) :
  has_codebase_analysis codebase_analysis = false ->
  let result := calculate_unicorn_hunter inputs codebase_analysis in
  let weights := weights_of (has_codebase_analysis codebase_analysis) in
  let score key := item (component_scores result) key in
  lookup "code_quality" (component_scores result) = Some 0
  /\ lookup "security_posture" (component_scores result) = Some 0
  /\ lookup "code_quality" weights = None
  /\ lookup "security_posture" weights = None
  /\ unicorn_score result
     = Py.round (score "community_momentum" * 0.25 + score "development_velocity" * 0.20
                 + score "technology_quality" * 0.20 + score "market_potential" * 0.20
                 + score "network_effects" * 0.15)%string 1
  /\ forall other_analysis,
       Forall (fun key =>
                 lookup key (component_scores (calculate_unicorn_hunter inputs other_analysis))
                 = lookup key (component_scores result))
         [ "community_momentum"; "development_velocity";
           "market_potential"; "network_effects" ]%string.
Proof.
  intros H result weights score. subst result weights score.
  unfold calculate_unicorn_hunter. cbn [component_scores unicorn_score].
  unfold unicorn_score_of. rewrite H.
  rewrite (component_scores_without inputs codebase_analysis H).
  unfold component_scores_of, weights_of. cbn [firstn app].
  rewrite weighted_sum_without.
  repeat split.
  intros other. apply (analysis_free_components inputs other None).
Qed.

Lemma absent_analysis_frame_witness :
  lookup "code_quality"
    (component_scores (calculate_unicorn_hunter sample_inputs (Some failed_analysis)))
  = Some 0.
Proof.
  apply (absent_analysis_frame sample_inputs (Some failed_analysis)).
  reflexivity.
Defined.

End AnalysisFrame.

(** ** Defaults for missing fields *)

Section Defaults.


End Defaults.

(** ** Range of the score actually returned *)

Section ReturnedScore.

Lemma round_nonneg (x : R) (n : nat) : 0 <= x -> 0 <= Py.round x n.
Proof. intros H. rewrite <- (round_IZR 0 n). now apply round_mono. Qed.

Lemma enhanced_tech_quality_bounds (b : R) (a : CodebaseAnalysis) :
  analysis_ok a -> 0 <= b <= 100 -> 0 <= enhanced_tech_quality b a <= 130.
Proof.
  intros (Hm & Hmo & Hco & Hch & Hv & _ & Ho & _) Hb.
  unfold enhanced_tech_quality. cbv zeta.
  apply (get_range_ok 0 100 _ 50) in Hm; [| lra].
  apply (get_range_ok 0 10 _ 5) in Hmo, Hco, Hch; try lra.
  apply (get_range_ok 0 100 _ 0) in Ho; [| lra].
  apply get_count_ok in Hv.
  assert (Hv5 : 0 <= IZR (Py.get (security_vulnerabilities
                                    (Py.get (dependencies a) no_dependencies)) 0%Z * 5))
    by (apply IZR_le; lia).
  unfold Rmax. destruct (Rle_dec _ _); lra.
Qed.

Lemma technology_quality_bounds (s : RepoScores) (cb : option CodebaseAnalysis) :
  scores_ok s -> (forall a, cb = Some a -> analysis_ok a) ->
  0 <= technology_quality s cb <= 130.
Proof.
  intros Hs Ha. pose proof (base_tech_quality_bounds s Hs) as Hb.
  unfold technology_quality. destruct cb as [a |]; [| lra].
  destruct (has_codebase_analysis (Some a)); [| lra].
  apply enhanced_tech_quality_bounds; [now apply Ha | assumption].
Qed.

(** For well-formed inputs the returned score is between 10 and 106: the
    network dimension alone, always 100, brings 10 or 15 points. *)
Lemma unicorn_score_bounds (inputs : ValuationInputs) (cb : option CodebaseAnalysis) :
  repo_data_ok (repo_data inputs) ->
  (forall a, cb = Some a -> analysis_ok a) ->
  10 <= unicorn_score_of inputs cb <= 106.
Proof.
  intros Hok Ha. pose proof Hok as (_ & Hs & _).
  destruct (has_codebase_analysis cb) eqn:Has.
  - destruct cb as [a |]; [| discriminate].
    unfold unicorn_score_of, component_scores_of. rewrite Has.
    unfold weights_of, analysis_scores. cbv zeta. cbn [app].
    rewrite weighted_sum_with, network_effects_always_100, (round_IZR 100 1).
    pose proof (round_0_100 _ (community_momentum_bounds
      (IZR (Py.get (stars (Py.get (metrics (repo_data inputs)) no_metrics)) 0%Z))
      (IZR (Py.get (forks (Py.get (metrics (repo_data inputs)) no_metrics)) 0%Z))
      (IZR (Py.get (watchers (Py.get (metrics (repo_data inputs)) no_metrics)) 0%Z)))).
    pose proof (round_0_100 _ (development_velocity_bounds
      (IZR (Py.get (contributors (Py.get (development (repo_data inputs)) no_development)) 0%Z))
      (IZR (Py.get (total_commits (Py.get (development (repo_data inputs)) no_development)) 0%Z))
      (Py.get (commit_frequency (Py.get (development (repo_data inputs)) no_development)) 0))).
    pose proof (round_between 0 130 _ 1
      (technology_quality_bounds (Py.get (scores (repo_data inputs)) no_scores)
         (Some a) Hs Ha)).
    pose proof (round_0_100 _ (clamp_bounds
      (25 * (1 + Py.pow (IZR (Py.get (stars (Py.get (metrics (repo_data inputs)) no_metrics)) 0%Z) / 5000) 0.4)
       + 20 * (1 + Py.pow (IZR (Py.get (forks (Py.get (metrics (repo_data inputs)) no_metrics)) 0%Z) / 1000) 0.4)
       + 15 * (1 + Py.pow (IZR (Py.get (contributors (Py.get (development (repo_data inputs)) no_development)) 0%Z) / 100) 0.3)))).
    destruct (Ha a eq_refl) as (Hm & _ & _ & _ & Hv & Hcv & _ & Htc & Hdoc).
    apply (get_range_ok 0 100 _ 50) in Hm; [| lra].
    apply (get_range_ok 0 100 _ 0) in Htc; [| lra].
    apply (get_range_ok 0 10 _ 0) in Hdoc; [| lra].
    apply get_count_ok in Hv, Hcv.
    set (m := Py.get (maintainability_index _) 50) in *.
    set (tc := Py.get (overall_coverage _) 0) in *.
    set (dq := Py.get (readme_quality_score _) 0) in *.
    assert (Hcq : 0 <= Py.round (m * 0.4 + tc * 0.35 + dq * 10 * 0.25) 1 <= 100)
      by (apply round_0_100; lra).
    assert (Hsp : 0 <= Py.round (IZR (Z.max 0
               (100 - Py.get (critical_vulnerabilities
                                (Py.get (dependencies a) no_dependencies)) 0%Z * 20
                - Py.get (security_vulnerabilities
                            (Py.get (dependencies a) no_dependencies)) 0%Z * 5))) 1 <= 100).
    { apply round_0_100. split; apply IZR_le; lia. }
    unfold market_potential.
    apply (round_between 10 106). lra.
  - unfold unicorn_score_of. rewrite component_scores_without, Has by assumption.
    unfold component_scores_of, weights_of, technology_quality.
    cbn [firstn app]. rewrite weighted_sum_without.
    rewrite network_effects_always_100, (round_IZR 100 1).
    pose proof (round_0_100 _ (community_momentum_bounds
      (IZR (Py.get (stars (Py.get (metrics (repo_data inputs)) no_metrics)) 0%Z))
      (IZR (Py.get (forks (Py.get (metrics (repo_data inputs)) no_metrics)) 0%Z))
      (IZR (Py.get (watchers (Py.get (metrics (repo_data inputs)) no_metrics)) 0%Z)))).
    pose proof (round_0_100 _ (development_velocity_bounds
      (IZR (Py.get (contributors (Py.get (development (repo_data inputs)) no_development)) 0%Z))
      (IZR (Py.get (total_commits (Py.get (development (repo_data inputs)) no_development)) 0%Z))
      (Py.get (commit_frequency (Py.get (development (repo_data inputs)) no_development)) 0))).
    pose proof (round_0_100 _ (base_tech_quality_bounds _ Hs)).
    pose proof (round_0_100 _ (clamp_bounds
      (25 * (1 + Py.pow (IZR (Py.get (stars (Py.get (metrics (repo_data inputs)) no_metrics)) 0%Z) / 5000) 0.4)
       + 20 * (1 + Py.pow (IZR (Py.get (forks (Py.get (metrics (repo_data inputs)) no_metrics)) 0%Z) / 1000) 0.4)
       + 15 * (1 + Py.pow (IZR (Py.get (contributors (Py.get (development (repo_data inputs)) no_development)) 0%Z) / 100) 0.3)))).
    unfold market_potential.
    apply (round_between 10 106). lra.
Qed.

(** So the three figures of every result computed from well-formed inputs
    come out in order. *)
Lemma returned_ranges_ordered (inputs : ValuationInputs) (cb : option CodebaseAnalysis) :
  repo_data_ok (repo_data inputs) ->
  (forall a, cb = Some a -> analysis_ok a) ->
  let r := ranges (calculate_unicorn_hunter inputs cb) in
  conservative_usd r <= realistic_usd r <= optimistic_usd r.
Proof.
  intros Hok Ha r. subst r.
  pose proof (unicorn_score_bounds inputs cb Hok Ha) as [Hlo _].
  unfold calculate_unicorn_hunter, speculative_valuation_ranges.
  cbn [ranges conservative_usd realistic_usd optimistic_usd].
  split; apply round_mono; apply figures_ordered; assumption.
Qed.

End ReturnedScore.

(** ** Further properties of the Unicorn Hunter method *)

Section UnicornFurther.

Lemma clamp_ge (lo v : R) : lo <= 100 -> lo <= v -> lo <= Rmin 100 (Rmax 0 v).
Proof. intros H1 H2. unfold Rmin, Rmax. repeat destruct (Rle_dec _ _); lra. Qed.

Lemma round1_ge (lo : Z) (x : R) : IZR lo / 10 ^ 1 <= x -> IZR lo / 10 ^ 1 <= Py.round x 1.
Proof. intros H. rewrite <- (round_decimal lo 1). now apply round_mono. Qed.

(** The counts of a well-formed record, as floats, are not negative. *)
Lemma counts_nonneg (r : RepoData) :
  repo_data_ok r ->
  0 <= IZR (Py.get (stars (Py.get (metrics r) no_metrics)) 0%Z)
  /\ 0 <= IZR (Py.get (forks (Py.get (metrics r) no_metrics)) 0%Z)
  /\ 0 <= IZR (Py.get (watchers (Py.get (metrics r) no_metrics)) 0%Z)
  /\ 0 <= IZR (Py.get (contributors (Py.get (development r) no_development)) 0%Z)
  /\ 0 <= IZR (Py.get (total_commits (Py.get (development r) no_development)) 0%Z)
  /\ 0 <= Py.get (commit_frequency (Py.get (development r) no_development)) 0.
Proof.
  intros ((Hs & Hf & Hw & _) & _ & (Ht & Hc & Hq)).
  apply get_count_ok in Hs, Hf, Hw, Ht, Hc.
  apply (get_nonneg_ok _ 0) in Hq; [| lra].
  repeat split; try (apply IZR_le; assumption); assumption.
Qed.

Lemma community_momentum_round (s f w : R) :
  16.5 <= Py.round (community_momentum s f w) 1 <= 100.
Proof.
  split; [| apply round_0_100, community_momentum_bounds].
  replace 16.5 with (IZR 165 / 10 ^ 1) by (simpl; lra). apply round1_ge.
  unfold community_momentum, star_score, fork_score, watcher_score.
  pose proof (py_pow_nonneg (s / 1000) 0.3). pose proof (py_pow_nonneg (f / 500) 0.3).
  pose proof (py_pow_nonneg (w / 200) 0.3).
  pose proof (clamp_ge 20 (20 * (1 + Py.pow (s / 1000) 0.3)) ltac:(lra) ltac:(lra)).
  pose proof (clamp_ge 15 (15 * (1 + Py.pow (f / 500) 0.3)) ltac:(lra) ltac:(lra)).
  pose proof (clamp_ge 10 (10 * (1 + Py.pow (w / 200) 0.3)) ltac:(lra) ltac:(lra)).
  simpl. lra.
Qed.

Lemma development_velocity_round (c t q : R) :
  34 <= Py.round (development_velocity c t q) 1 <= 100.
Proof.
  split; [| apply round_0_100, development_velocity_bounds].
  rewrite <- (round_IZR 34 1). apply round_mono.
  unfold development_velocity, contributor_score, commit_score, frequency_score.
  pose proof (py_pow_nonneg (c / 50) 0.4). pose proof (py_pow_nonneg (t / 1000) 0.3).
  pose proof (py_pow_nonneg (q / 10) 0.5).
  pose proof (clamp_ge 30 (30 * (1 + Py.pow (c / 50) 0.4)) ltac:(lra) ltac:(lra)).
  pose proof (clamp_ge 40 (40 * (1 + Py.pow (t / 1000) 0.3)) ltac:(lra) ltac:(lra)).
  pose proof (clamp_ge 30 (30 * (1 + Py.pow (q / 10) 0.5)) ltac:(lra) ltac:(lra)).
  lra.
Qed.

Lemma market_potential_round (s f c : R) :
  60 <= Py.round (market_potential s f c) 1 <= 100.
Proof.
  split; [| apply round_0_100, clamp_bounds].
  rewrite <- (round_IZR 60 1). apply round_mono.
  unfold market_potential. apply clamp_ge; [lra |].
  pose proof (py_pow_nonneg (s / 5000) 0.4). pose proof (py_pow_nonneg (f / 1000) 0.4).
  pose proof (py_pow_nonneg (c / 100) 0.3). lra.
Qed.

Lemma analysis_scores_bounds (a : CodebaseAnalysis) :
  analysis_ok a ->
  Forall (fun kv => 0 <= snd kv <= 100) (analysis_scores a).
Proof.
  intros (Hm & _ & _ & _ & Hv & Hcv & _ & Htc & Hdoc).
  apply (get_range_ok 0 100 _ 50) in Hm; [| lra].
  apply (get_range_ok 0 100 _ 0) in Htc; [| lra].
  apply (get_range_ok 0 10 _ 0) in Hdoc; [| lra].
  apply get_count_ok in Hv, Hcv.
  unfold analysis_scores. cbv zeta.
  repeat (apply Forall_cons; [cbn [snd] |]); [| | | | apply Forall_nil].
  - apply round_0_100. lra.
  - apply round_0_100. lra.
  - apply round_0_100. lra.
  - apply round_0_100. split; apply IZR_le; lia.
Qed.

End UnicornFurther.

Section UnicornFormulas.

(** The score without a trusted analysis, term by term. *)
Lemma unicorn_score_without_eq (inputs : ValuationInputs)
    (cb : option CodebaseAnalysis) :
  has_codebase_analysis cb = false ->
  unicorn_score_of inputs cb
  = Py.round
      (Py.round (community_momentum (stars_of inputs) (forks_of inputs) (watchers_of inputs)) 1
         * 0.25
       + Py.round (development_velocity (contributors_of inputs) (commits_of inputs)
                     (frequency_of inputs)) 1 * 0.20
       + Py.round (base_tech_quality (scores_of inputs)) 1 * 0.20
       + Py.round (market_potential (stars_of inputs) (forks_of inputs)
                     (contributors_of inputs)) 1 * 0.20
       + 100 * 0.15) 1.
Proof.
  intros H. unfold unicorn_score_of.
  rewrite component_scores_without, H by assumption.
  unfold component_scores_of, weights_of, technology_quality.
  cbn [firstn app]. rewrite weighted_sum_without.
  rewrite network_effects_always_100, (round_IZR 100 1). reflexivity.
Qed.

(** The score with a trusted analysis, term by term. *)
Lemma unicorn_score_with_eq (inputs : ValuationInputs) (a : CodebaseAnalysis) :
  has_codebase_analysis (Some a) = true ->
  unicorn_score_of inputs (Some a)
  = Py.round
      (Py.round (community_momentum (stars_of inputs) (forks_of inputs) (watchers_of inputs)) 1
         * 0.25
       + Py.round (development_velocity (contributors_of inputs) (commits_of inputs)
                     (frequency_of inputs)) 1 * 0.15
       + Py.round (enhanced_tech_quality (base_tech_quality (scores_of inputs)) a) 1 * 0.20
       + Py.round (market_potential (stars_of inputs) (forks_of inputs)
                     (contributors_of inputs)) 1 * 0.15
       + 100 * 0.10
       + item (analysis_scores a) "code_quality" * 0.10
       + item (analysis_scores a) "security_posture" * 0.05) 1.
Proof.
  intros H. unfold unicorn_score_of, component_scores_of, technology_quality.
  rewrite H. unfold weights_of, analysis_scores. cbv zeta. cbn [app].
  rewrite weighted_sum_with, network_effects_always_100, (round_IZR 100 1).
  reflexivity.
Qed.

Lemma analysis_items_bounds (a : CodebaseAnalysis) :
  analysis_ok a ->
  0 <= item (analysis_scores a) "code_quality" <= 100
  /\ 0 <= item (analysis_scores a) "security_posture" <= 100.
Proof.
  intros Ha. pose proof (analysis_scores_bounds a Ha) as HF.
  unfold analysis_scores in *. cbv zeta in *.
  inversion HF as [| ? ? H1 HF1]; subst.
  inversion HF1 as [| ? ? _ HF2]; subst.
  inversion HF2 as [| ? ? _ HF3]; subst.
  inversion HF3 as [| ? ? H4 _]; subst.
  cbn [snd] in H1, H4. split; [exact H1 | exact H4].
Qed.

End UnicornFormulas.

Section UnicornExtras.

(** X1: the network-effects dimension is 100 for every well-formed
    repository, whatever its forks and watchers and whatever analysis comes
    with it: the two terms inside the clamp start at 50 each. *)
Theorem network_effects_is_constant (inputs : ValuationInputs)
    (codebase_analysis : option CodebaseAnalysis) :
  repo_data_ok (repo_data inputs) ->
  lookup "network_effects"
    (component_scores (calculate_unicorn_hunter inputs codebase_analysis))
  = Some 100.
Proof.
  intros _. unfold calculate_unicorn_hunter, component_scores_of.
  cbn [component_scores app lookup String.eqb Ascii.eqb Bool.eqb].
  now rewrite network_effects_always_100, (round_IZR 100 1).
Qed.

Lemma network_effects_is_constant_witness :
  lookup "network_effects"
    (component_scores (calculate_unicorn_hunter sample_inputs (Some bare_analysis)))
  = Some 100.
Proof.
  apply (network_effects_is_constant sample_inputs (Some bare_analysis)).
  unfold repo_data_ok, metrics_ok, scores_ok, development_ok, sample_inputs.
  cbn. repeat split; try lia; lra.
Defined.

Lemma score_dict_shape (cm dv tq mp ne : R) (tail : dict) :
  0 <= cm <= 100 -> 0 <= dv <= 100 -> 0 <= tq <= 130 -> 0 <= mp <= 100 ->
  0 <= ne <= 100 ->
  keys tail = [ "code_quality"; "maintainability"; "test_reliability";
                "security_posture" ]%string ->
  Forall (fun kv => 0 <= snd kv <= 100) tail ->
  let scores :=
    [ ("community_momentum", cm); ("development_velocity", dv);
      ("technology_quality", tq); ("market_potential", mp);
      ("network_effects", ne) ]%string ++ tail in
  keys scores = component_keys
  /\ Forall (fun kv => 0 <= snd kv <= component_bound (fst kv)) scores.
Proof.
  intros Hcm Hdv Htq Hmp Hne Hk HF scores. subst scores. split.
  - unfold keys in *. rewrite map_app, Hk. reflexivity.
  - apply Forall_app. split.
    + repeat (apply Forall_cons; [cbn [fst snd]; unfold component_bound;
                                   cbn [String.eqb Ascii.eqb Bool.eqb]; lra |]).
      apply Forall_nil.
    + eapply Forall_impl; [| exact HF].
      intros [k v] Hkv. cbn [fst snd] in *. unfold component_bound.
      destruct (String.eqb k "technology_quality"); lra.
Qed.

(** X2: for well-formed inputs and a well-formed analysis (if any) the
    score dictionary has the same nine keys in the same order, and every
    entry lies in [0,100] except technology_quality, which lies in
    [0,130]. *)
Theorem component_scores_keys_and_ranges (inputs : ValuationInputs)
    (codebase_analysis : option CodebaseAnalysis) :
  repo_data_ok (repo_data inputs) ->
  (forall a, codebase_analysis = Some a -> analysis_ok a) ->
  let scores := component_scores (calculate_unicorn_hunter inputs codebase_analysis) in
  keys scores = component_keys
  /\ Forall (fun kv => 0 <= snd kv <= component_bound (fst kv)) scores.
Proof.
  intros Hok Ha scores. subst scores.
  pose proof Hok as (_ & Hs & _).
  unfold calculate_unicorn_hunter. cbn [component_scores].
  unfold component_scores_of.
  assert (Hdefault : Forall (fun kv : string * R => 0 <= snd kv <= 100)
                       default_analysis_scores).
  { unfold default_analysis_scores.
    repeat (apply Forall_cons; [cbn [snd]; lra |]). apply Forall_nil. }
  apply score_dict_shape.
  - pose proof (community_momentum_round (stars_of inputs) (forks_of inputs)
                  (watchers_of inputs)) as H.
    unfold stars_of, forks_of, watchers_of in H. lra.
  - pose proof (development_velocity_round (contributors_of inputs) (commits_of inputs)
                  (frequency_of inputs)) as H.
    unfold contributors_of, commits_of, frequency_of in H. lra.
  - apply (round_between 0 130). now apply technology_quality_bounds.
  - pose proof (market_potential_round (stars_of inputs) (forks_of inputs)
                  (contributors_of inputs)) as H.
    unfold stars_of, forks_of, contributors_of in H. lra.
  - rewrite network_effects_always_100, (round_IZR 100 1). lra.
  - destruct codebase_analysis as [a |]; [destruct (has_codebase_analysis (Some a)) |];
      reflexivity.
  - destruct codebase_analysis as [a |]; [destruct (has_codebase_analysis (Some a)) |];
      try exact Hdefault.
    apply analysis_scores_bounds. now apply Ha.
Qed.

Lemma component_scores_keys_and_ranges_witness :
  keys (component_scores (calculate_unicorn_hunter pathological_inputs (Some perfect_analysis)))
  = component_keys.
Proof.
  apply (component_scores_keys_and_ranges pathological_inputs (Some perfect_analysis)).
  - unfold repo_data_ok, metrics_ok, scores_ok, development_ok, pathological_inputs.
    cbn. repeat split; try lia; lra.
  - intros a E. injection E as <-.
    unfold analysis_ok, perfect_analysis. cbn. repeat split; try lia; lra.
Defined.

End UnicornExtras.

Section ReturnedResult.

Ltac unfold_counts H :=
  unfold stars_of, forks_of, watchers_of, contributors_of, commits_of,
    frequency_of, scores_of in H.

(** X3: for well-formed inputs (and a well-formed analysis, if one is
    given) the returned unicorn score lies between 28.2 and 106; without a
    trusted analysis it lies between 37.9 and 100, so such a repository is
    never put in the seed_stage tier. *)
Theorem returned_score_range (inputs : ValuationInputs)
    (codebase_analysis : option CodebaseAnalysis) :
  repo_data_ok (repo_data inputs) ->
  (forall a, codebase_analysis = Some a -> analysis_ok a) ->
  let result := calculate_unicorn_hunter inputs codebase_analysis in
  28.2 <= unicorn_score result <= 106
  /\ (has_codebase_analysis codebase_analysis = false ->
      37.9 <= unicorn_score result <= 100
      /\ tier result <> "seed_stage"%string).
Proof.
  intros Hok Ha result. subst result.
  pose proof Hok as (_ & Hs & _).
  unfold calculate_unicorn_hunter. cbn [unicorn_score tier].
  pose proof (community_momentum_round (stars_of inputs) (forks_of inputs)
                (watchers_of inputs)) as Hcm.
  pose proof (development_velocity_round (contributors_of inputs) (commits_of inputs)
                (frequency_of inputs)) as Hdv.
  pose proof (market_potential_round (stars_of inputs) (forks_of inputs)
                (contributors_of inputs)) as Hmp.
  pose proof (round_0_100 _ (base_tech_quality_bounds _ Hs)) as Hbt.
  fold (scores_of inputs) in Hbt.
  assert (Hwithout : has_codebase_analysis codebase_analysis = false ->
                     37.9 <= unicorn_score_of inputs codebase_analysis <= 100).
  { intros Hno. rewrite unicorn_score_without_eq by assumption. split.
    - replace 37.9 with (IZR 379 / 10 ^ 1) by (simpl; lra).
      apply round1_ge. simpl. lra.
    - apply (round_between 0 100). lra. }
  split.
  - destruct (has_codebase_analysis codebase_analysis) eqn:Has.
    + destruct codebase_analysis as [a |]; [| discriminate].
      rewrite unicorn_score_with_eq by assumption.
      pose proof (round_between 0 130 _ 1
                    (enhanced_tech_quality_bounds _ a (Ha a eq_refl)
                       (base_tech_quality_bounds _ Hs))) as Htq.
      fold (scores_of inputs) in Htq.
      destruct (analysis_items_bounds a (Ha a eq_refl)) as [Hcq Hsp].
      split.
      * replace 28.2 with (IZR 282 / 10 ^ 1) by (simpl; lra).
        apply round1_ge. simpl. lra.
      * apply (round_between 0 106). lra.
    + specialize (Hwithout eq_refl). lra.
  - intros Hno. specialize (Hwithout Hno). split; [exact Hwithout |].
    unfold tier_of. repeat destruct (Rle_dec _ _); try discriminate. lra.
Qed.

Lemma returned_score_range_witness :
  28.2 <= unicorn_score (calculate_unicorn_hunter sample_inputs None) <= 106.
Proof.
  apply (returned_score_range sample_inputs None).
  - unfold repo_data_ok, metrics_ok, scores_ok, development_ok, sample_inputs.
    cbn. repeat split; try lia; lra.
  - intros a E. discriminate E.
Defined.

(** X4: in every result computed from well-formed inputs the three
    figures come out in the order conservative <= realistic <= optimistic,
    and the optimistic one is at most 24 million dollars: the cap of one
    billion is never reached. *)
Theorem returned_figures_in_order (inputs : ValuationInputs)
    (codebase_analysis : option CodebaseAnalysis) :
  repo_data_ok (repo_data inputs) ->
  (forall a, codebase_analysis = Some a -> analysis_ok a) ->
  let r := ranges (calculate_unicorn_hunter inputs codebase_analysis) in
  conservative_usd r <= realistic_usd r <= optimistic_usd r
  /\ optimistic_usd r <= 24000000
  /\ optimistic_usd r < maximum_cap r.
Proof.
  intros Hok Ha r.
  pose proof (returned_ranges_ordered inputs codebase_analysis Hok Ha) as Hord.
  fold r in Hord.
  pose proof (unicorn_score_bounds inputs codebase_analysis Hok Ha) as [Hlo Hhi].
  assert (Hopt : optimistic_usd r <= 24000000).
  { subst r. unfold calculate_unicorn_hunter, speculative_valuation_ranges.
    cbn [ranges optimistic_usd].
    rewrite <- (round_IZR 24000000 2). apply round_mono.
    set (u := unicorn_score_of inputs codebase_analysis) in *.
    unfold optimistic. eapply Rle_trans; [apply Rmin_r |].
    apply Rmax_lub; [lra |].
    assert (Hp : Py.pow (u / 100) 2.8 <= 1.06 ^ 3).
    { apply Rle_trans with (Py.pow 1.06 2.8); [apply py_pow_le; lra |].
      rewrite py_pow_pos_eq by lra.
      rewrite <- (Rpower_pow 3 1.06) by lra.
      apply Rle_Rpower; [lra | simpl; lra]. }
    simpl in Hp. lra. }
  split; [exact Hord |]. split; [exact Hopt |].
  subst r. unfold calculate_unicorn_hunter, speculative_valuation_ranges in *.
  cbn [ranges optimistic_usd maximum_cap] in *. unfold max_valuation. lra.
Qed.

Lemma returned_figures_in_order_witness :
  let r := ranges (calculate_unicorn_hunter pathological_inputs (Some perfect_analysis)) in
  conservative_usd r <= realistic_usd r <= optimistic_usd r.
Proof.
  intros r.
  apply (returned_figures_in_order pathological_inputs (Some perfect_analysis)).
  - unfold repo_data_ok, metrics_ok, scores_ok, development_ok, pathological_inputs.
    cbn. repeat split; try lia; lra.
  - intros a E. injection E as <-.
    unfold analysis_ok, perfect_analysis. cbn. repeat split; try lia; lra.
Defined.

(** X5: on scores in [0,100] the valuation mapper never comes near its
    cap: the three figures are at most 5, 10 and 20 million dollars, and
    these maxima are what a score of 100 gets. *)
Theorem figures_far_below_cap (u : R) :
  0 <= u <= 100 ->
  let r := speculative_valuation_ranges u in
  let top := speculative_valuation_ranges 100 in
  (conservative_usd r <= 5000000 /\ realistic_usd r <= 10000000
   /\ optimistic_usd r <= 20000000)
  /\ conservative_usd top = 5000000 /\ realistic_usd top = 10000000
  /\ optimistic_usd top = 20000000.
Proof.
  intros Hu r top. subst r top. unfold speculative_valuation_ranges.
  cbn [conservative_usd realistic_usd optimistic_usd].
  assert (E : forall e, 0 < e -> Py.pow (100 / 100) e = 1).
  { intros e _. replace (100 / 100) with 1 by lra. apply py_pow_1. }
  assert (T1 : conservative 100 = IZR 5000000)
    by (rewrite conservative_eq, E by lra; lra).
  assert (T2 : realistic 100 = IZR 10000000)
    by (rewrite realistic_eq, E by lra; lra).
  assert (T3 : optimistic 100 = IZR 20000000)
    by (rewrite optimistic_eq, E by lra; lra).
  split; [| rewrite T1, T2, T3, !round_IZR; repeat split; reflexivity].
  repeat split.
  - rewrite <- (round_IZR 5000000 2), <- T1. apply round_mono.
    unfold conservative. apply cap_mono, scaled_pow_mono; lra.
  - rewrite <- (round_IZR 10000000 2), <- T2. apply round_mono.
    unfold realistic. apply cap_mono, scaled_pow_mono; lra.
  - rewrite <- (round_IZR 20000000 2), <- T3. apply round_mono.
    unfold optimistic. apply cap_mono, scaled_pow_mono; lra.
Qed.

Lemma figures_far_below_cap_witness :
  optimistic_usd (speculative_valuation_ranges 50) <= 20000000.
Proof.
  apply (figures_far_below_cap 50). lra.
Defined.

(** X6: an analysis whose status is not "success" (or that has no status)
    changes nothing: the result is the one computed without analysis. *)
Theorem untrusted_analysis_is_ignored (inputs : ValuationInputs)
    (codebase_analysis : option CodebaseAnalysis) :
  has_codebase_analysis codebase_analysis = false ->
  calculate_unicorn_hunter inputs codebase_analysis
  = calculate_unicorn_hunter inputs None.
Proof.
  intros H.
  assert (Hs : component_scores_of inputs codebase_analysis
               = component_scores_of inputs None).
  { now rewrite component_scores_without. }
  unfold calculate_unicorn_hunter, unicorn_score_of.
  rewrite Hs, H. reflexivity.
Qed.

Lemma untrusted_analysis_is_ignored_witness :
  calculate_unicorn_hunter sample_inputs (Some failed_analysis)
  = calculate_unicorn_hunter sample_inputs None.
Proof.
  apply (untrusted_analysis_is_ignored sample_inputs (Some failed_analysis)).
  reflexivity.
Defined.

End ReturnedResult.

Section Monotone.

Lemma normalizer_le (w s e x y : R) :
  0 < w -> 0 < s -> 0 < e -> 0 <= x -> x <= y ->
  normalizer_spec w s e x <= normalizer_spec w s e y.
Proof. intros Hw Hs He Hx Hxy. now apply normalizer_nondecreasing. Qed.

Lemma scaled_pow_le (x y s e : R) :
  0 < s -> 0 < e -> 0 <= x -> x <= y -> Py.pow (x / s) e <= Py.pow (y / s) e.
Proof.
  intros Hs He Hx Hxy. apply py_pow_le; [assumption | now apply scaled_nonneg |].
  apply Rmult_le_compat_r; [left; now apply Rinv_0_lt_compat | assumption].
Qed.

Lemma community_momentum_mono (s s' f f' w w' : R) :
  0 <= s <= s' -> 0 <= f <= f' -> 0 <= w <= w' ->
  community_momentum s f w <= community_momentum s' f' w'.
Proof.
  intros Hs Hf Hw. unfold community_momentum.
  pose proof (normalizer_le 20 1000 0.3 s s' ltac:(lra) ltac:(lra) ltac:(lra)
                ltac:(lra) ltac:(lra)) as H1.
  pose proof (normalizer_le 15 500 0.3 f f' ltac:(lra) ltac:(lra) ltac:(lra)
                ltac:(lra) ltac:(lra)) as H2.
  pose proof (normalizer_le 10 200 0.3 w w' ltac:(lra) ltac:(lra) ltac:(lra)
                ltac:(lra) ltac:(lra)) as H3.
  change (normalizer_spec 20 1000 0.3) with star_score in H1.
  change (normalizer_spec 15 500 0.3) with fork_score in H2.
  change (normalizer_spec 10 200 0.3) with watcher_score in H3.
  lra.
Qed.

Lemma development_velocity_mono (c c' t t' q q' : R) :
  0 <= c <= c' -> 0 <= t <= t' -> 0 <= q <= q' ->
  development_velocity c t q <= development_velocity c' t' q'.
Proof.
  intros Hc Ht Hq. unfold development_velocity.
  pose proof (normalizer_le 30 50 0.4 c c' ltac:(lra) ltac:(lra) ltac:(lra)
                ltac:(lra) ltac:(lra)) as H1.
  pose proof (normalizer_le 40 1000 0.3 t t' ltac:(lra) ltac:(lra) ltac:(lra)
                ltac:(lra) ltac:(lra)) as H2.
  pose proof (normalizer_le 30 10 0.5 q q' ltac:(lra) ltac:(lra) ltac:(lra)
                ltac:(lra) ltac:(lra)) as H3.
  change (normalizer_spec 30 50 0.4) with contributor_score in H1.
  change (normalizer_spec 40 1000 0.3) with commit_score in H2.
  change (normalizer_spec 30 10 0.5) with frequency_score in H3.
  lra.
Qed.

Lemma market_potential_mono (s s' f f' c c' : R) :
  0 <= s <= s' -> 0 <= f <= f' -> 0 <= c <= c' ->
  market_potential s f c <= market_potential s' f' c'.
Proof.
  intros Hs Hf Hc. unfold market_potential. apply clamp_mono.
  pose proof (scaled_pow_le s s' 5000 0.4 ltac:(lra) ltac:(lra) ltac:(lra) ltac:(lra)).
  pose proof (scaled_pow_le f f' 1000 0.4 ltac:(lra) ltac:(lra) ltac:(lra) ltac:(lra)).
  pose proof (scaled_pow_le c c' 100 0.3 ltac:(lra) ltac:(lra) ltac:(lra) ltac:(lra)).
  lra.
Qed.

(** X7: the unicorn score never goes down when a repository gains stars,
    forks, watchers, contributors, commits or commit frequency, its scores
    record and the analysis staying the same. *)
Theorem score_monotone_in_counts (inputs inputs' : ValuationInputs)
    (codebase_analysis : option CodebaseAnalysis) :
  repo_data_ok (repo_data inputs) ->
  counts_le (repo_data inputs) (repo_data inputs') ->
  unicorn_score (calculate_unicorn_hunter inputs codebase_analysis)
  <= unicorn_score (calculate_unicorn_hunter inputs' codebase_analysis).
Proof.
  intros Hok (Hs & Hf & Hw & Hc & Ht & Hq & Hsc).
  destruct (counts_nonneg _ Hok) as (Ps & Pf & Pw & Pc & Pt & Pq).
  apply IZR_le in Hs, Hf, Hw, Hc, Ht.
  fold (stars_of inputs) in Ps, Hs. fold (stars_of inputs') in Hs.
  fold (forks_of inputs) in Pf, Hf. fold (forks_of inputs') in Hf.
  fold (watchers_of inputs) in Pw, Hw. fold (watchers_of inputs') in Hw.
  fold (contributors_of inputs) in Pc, Hc. fold (contributors_of inputs') in Hc.
  fold (commits_of inputs) in Pt, Ht. fold (commits_of inputs') in Ht.
  fold (frequency_of inputs) in Pq, Hq. fold (frequency_of inputs') in Hq.
  fold (scores_of inputs) in Hsc. fold (scores_of inputs') in Hsc.
  pose proof (round_mono _ _ 1
    (community_momentum_mono _ _ _ _ _ _ (conj Ps Hs) (conj Pf Hf) (conj Pw Hw))) as Mcm.
  pose proof (round_mono _ _ 1
    (development_velocity_mono _ _ _ _ _ _ (conj Pc Hc) (conj Pt Ht) (conj Pq Hq))) as Mdv.
  pose proof (round_mono _ _ 1
    (market_potential_mono _ _ _ _ _ _ (conj Ps Hs) (conj Pf Hf) (conj Pc Hc))) as Mmp.
  unfold calculate_unicorn_hunter. cbn [unicorn_score].
  destruct (has_codebase_analysis codebase_analysis) eqn:Has.
  - destruct codebase_analysis as [a |]; [| discriminate].
    rewrite !unicorn_score_with_eq by assumption. rewrite Hsc.
    apply round_mono. lra.
  - rewrite !unicorn_score_without_eq by assumption. rewrite Hsc.
    apply round_mono. lra.
Qed.

Lemma score_monotone_in_counts_witness :
  unicorn_score (calculate_unicorn_hunter sample_inputs None)
  <= unicorn_score (calculate_unicorn_hunter grown_inputs None).
Proof.
  apply (score_monotone_in_counts sample_inputs grown_inputs None).
  - unfold repo_data_ok, metrics_ok, scores_ok, development_ok, sample_inputs.
    cbn. repeat split; try lia; lra.
  - unfold counts_le, sample_inputs, grown_inputs. cbn.
    repeat split; try lia; lra.
Defined.

End Monotone.

(** ** The alternate methods *)

Section AlternateMethods.



(** The cost-based value is 160 hours per person and month at the
    hourly rate: it adds up over team members and over months, scales with
    the rate, does not look at the repository, and a team of 2 at 100
    dollars for 6 months costs 192000. *)
Theorem cost_based_linear (inputs : ValuationInputs) (team team' months months' : Z)
    (rate k : R) :
  calculate_cost_based (with_sizing inputs (team + team') months rate)
  = calculate_cost_based (with_sizing inputs team months rate)
    + calculate_cost_based (with_sizing inputs team' months rate)
  /\ calculate_cost_based (with_sizing inputs team (months + months') rate)
     = calculate_cost_based (with_sizing inputs team months rate)
       + calculate_cost_based (with_sizing inputs team months' rate)
  /\ calculate_cost_based (with_sizing inputs team months (k * rate))
     = k * calculate_cost_based (with_sizing inputs team months rate)
  /\ calculate_cost_based (with_sizing inputs team months rate)
     = 160 * IZR team * IZR months * rate
  /\ calculate_cost_based (with_sizing inputs 2 6 100.0) = 192000.
Proof.
  unfold calculate_cost_based, with_sizing.
  cbn [team_size development_months hourly_rate].
  rewrite !mult_IZR, !plus_IZR. repeat split; try ring. lra.
Qed.

Lemma sum_fold_right (l : list R) : Py.sum l = fold_right Rplus 0 l.
Proof.
  unfold Py.sum. apply fold_symmetric; intros; ring.
Qed.

Lemma sumZ_fold_right (l : list Z) : Py.sumZ l = fold_right Z.add 0%Z l.
Proof.
  unfold Py.sumZ. apply fold_symmetric; intros; ring.
Qed.

Lemma sum_permutation (l l' : list R) : Permutation l l' -> Py.sum l = Py.sum l'.
Proof.
  intros H. rewrite !sum_fold_right.
  induction H; cbn [fold_right]; lra || congruence.
Qed.

Lemma sumZ_permutation (l l' : list Z) : Permutation l l' -> Py.sumZ l = Py.sumZ l'.
Proof.
  intros H. rewrite !sumZ_fold_right.
  induction H; cbn [fold_right]; lia || congruence.
Qed.

(** With comparables whose stars do not sum to zero, the value is the
    repository's stars times the aggregate value per star times the
    multiplier. *)
Lemma market_based_formula (inputs : ValuationInputs) (comps : list Comparable.t) :
  total_stars comps <> 0%Z ->
  calculate_market_based inputs (Some comps)
  = Some (IZR (Py.get (stars (Py.get (metrics (repo_data inputs)) no_metrics)) 0%Z)
          * (total_value comps / IZR (total_stars comps))
          * market_multiplier inputs).
Proof.
  intros Hne. unfold calculate_market_based. cbn [Py.get].
  destruct comps as [| c rest]; [now destruct Hne |].
  fold (total_stars (c :: rest)). fold (total_value (c :: rest)).
  destruct (Z.eqb_spec (total_stars (c :: rest)) 0) as [E | _]; [contradiction |].
  unfold Py.div. destruct (Req_dec_T _ 0) as [E0 | _]; [| reflexivity].
  exfalso. apply Hne. now apply eq_IZR.
Qed.

(** X9: with a comparable set whose stars do not sum to zero, the
    market-based value is the repository's star count times total value
    over total stars times the multiplier, and no exception is raised.  A
    comparable without a star count counts as one star, so a non-empty set
    in which no comparable has a star count never meets the zero guard and
    is valued at its total value per comparable.  The star total, a sum of
    integers, and with it the outcome of the zero guard, does not depend on
    the order of the comparables. *)
Theorem market_based_comparables (inputs : ValuationInputs)
    (comps : list Comparable.t) :
  total_stars comps <> 0%Z ->
  calculate_market_based inputs (Some comps)
  = Some (stars_of inputs * (total_value comps / IZR (total_stars comps))
          * market_multiplier inputs)
  /\ (forall c rest, Forall (fun c => Comparable.stars c = None) (c :: rest) ->
        total_stars (c :: rest) = Z.of_nat (List.length (c :: rest))
        /\ calculate_market_based inputs (Some (c :: rest))
           = Some (stars_of inputs
                   * (total_value (c :: rest) / IZR (Z.of_nat (List.length (c :: rest))))
                   * market_multiplier inputs))
  /\ (forall comps', Permutation comps comps' -> total_stars comps' = total_stars comps).
Proof.
  intros Hne. split; [now apply market_based_formula |].
  assert (Hlen : forall rest, Forall (fun c => Comparable.stars c = None) rest ->
                   total_stars rest = Z.of_nat (List.length rest)).
  { intros rest HF. unfold total_stars. rewrite sumZ_fold_right.
    induction HF as [| c rest Hc _ IH]; [reflexivity |].
    cbn [map fold_right List.length]. rewrite IH, Hc. cbn [Py.get]. lia. }
  split.
  - intros c rest HF. pose proof (Hlen (c :: rest) HF) as E.
    split; [exact E |].
    rewrite market_based_formula.
    + now rewrite E.
    + rewrite E. cbn [List.length]. lia.
  - intros comps' HP. unfold total_stars. symmetry.
    apply sumZ_permutation. now apply Permutation_map.
Qed.

Lemma market_based_comparables_witness :
  calculate_market_based sample_inputs (Some two_comparables)
  = Some (stars_of sample_inputs
          * (total_value two_comparables / IZR (total_stars two_comparables))
          * market_multiplier sample_inputs).
Proof.
  apply (market_based_comparables sample_inputs two_comparables).
  discriminate.
Defined.

End AlternateMethods.

Section ScorecardBounds.

Lemma round3_le (hi : Z) (x : R) : x <= IZR hi / 10 ^ 3 -> Py.round x 3 <= IZR hi / 10 ^ 3.
Proof. intros H. rewrite <- (round_decimal hi 3). now apply round_mono. Qed.

(** X10: for well-formed inputs the scorecard's total score lies between
    0.12 (what deployment readiness always brings) and 1, every factor
    score lies between 0 and the weight of its factor, the factors are
    reported under the six keys of the weight table, and the three tiers
    are at most 10000, 50000 and 250000 dollars. *)
Theorem scorecard_bounds (inputs : ValuationInputs) :
  repo_data_ok (repo_data inputs) ->
  let result := calculate_scorecard inputs in
  0.12 <= total_score result <= 1
  /\ keys (factor_scores result) = keys factors
  /\ Forall2 (fun score weight => 0 <= snd score <= snd weight)
       (factor_scores result) factors
  /\ low (valuation_range result) <= 10000
  /\ medium (valuation_range result) <= 50000
  /\ high (valuation_range result) <= 250000.
Proof.
  intros Hok result. subst result.
  pose proof (scorecard_total_bounds inputs Hok) as [Hlo Hhi].
  destruct Hok as ((Hst & Hfk & _) & (Hh & Ha & _ & Ho) & (_ & Hc & _)).
  apply get_unit_ok in Hh, Ha, Ho. apply get_count_ok in Hst, Hfk, Hc.
  unfold calculate_scorecard.
  cbn [total_score factor_scores valuation_range low medium high].
  split; [| split; [| split; [| repeat split]]].
  - split.
    + replace 0.12 with (IZR 120 / 10 ^ 3) by (simpl; lra).
      rewrite <- (round_decimal 120 3). apply round_mono. simpl. lra.
    + rewrite <- (round_IZR 1 3). now apply round_mono.
  - reflexivity.
  - unfold scorecard_scores, factors, item.
    cbn [map fst snd lookup String.eqb Ascii.eqb Bool.eqb Py.get].
    set (o := Py.get (overall_score _) _) in *.
    set (a := Py.get (activity_score _) _) in *.
    set (h := Py.get (health_score _) _) in *.
    set (sf := IZR _ / 1000). set (ct := IZR _ / 50).
    assert (Hsf : 0 <= sf) by (apply IZR_div_nonneg; [lia | lra]).
    assert (Hct : 0 <= ct) by (apply IZR_div_nonneg; [lia | lra]).
    assert (B : forall x w : R, 0 <= x <= 1 -> 0 <= w ->
                (exists z : Z, w = IZR z / 10 ^ 3) ->
                0 <= Py.round (x * w) 3 <= w).
    { intros x w Hx Hw [z ->]. split.
      - apply round_nonneg. nra.
      - apply round3_le. nra. }
    assert (M : forall x : R, 0 <= x -> 0 <= Rmin x 1.0 <= 1).
    { intros x Hx. split; [apply Rmin_nonneg; lra |].
      eapply Rle_trans; [apply Rmin_r | lra]. }
    repeat (apply Forall2_cons; [cbn [snd] |]); [| | | | | | apply Forall2_nil].
    + apply B; [apply M; lra | lra | exists 250%Z; simpl; lra].
    + apply B; [apply M; lra | lra | exists 200%Z; simpl; lra].
    + apply B; [apply M; lra | lra | exists 150%Z; simpl; lra].
    + apply B; [lra | lra | exists 150%Z; simpl; lra].
    + apply B; [lra | lra | exists 150%Z; simpl; lra].
    + apply B; [lra | lra | exists 100%Z; simpl; lra].
  - rewrite <- (round_IZR 10000 2). apply round_mono.
    unfold base_range. cbn [low]. apply Rmax_lub; lra.
  - rewrite <- (round_IZR 50000 2). apply round_mono.
    unfold base_range. cbn [medium]. apply Rmax_lub; lra.
  - rewrite <- (round_IZR 250000 2). apply round_mono.
    unfold base_range. cbn [high]. apply Rmax_lub; lra.
Qed.

Lemma scorecard_bounds_witness :
  0.12 <= total_score (calculate_scorecard sample_inputs) <= 1.
Proof.
  apply (scorecard_bounds sample_inputs).
  unfold repo_data_ok, metrics_ok, scores_ok, development_ok, sample_inputs.
  cbn. repeat split; try lia; lra.
Defined.

End ScorecardBounds.

(** ** Further properties of the adoption score *)

Section AdoptionFurther.

Ltac split_tiers :=
  repeat match goal with
  | |- context [(?a >=? ?b)%Z] =>
      rewrite (Z.geb_leb a b);
      let H := fresh "Htier" in
      destruct (Z.leb_spec b a) as [H | H];
      [apply IZR_le in H | apply IZR_lt in H]
  end.

(** X11: the lookup reports the first registry that answered, in the order
    npm, pypi, cargo; it is a success exactly when one of them answered,
    and the adoption score computed from the result is the score of that
    registry's download counts, or 0 when nothing was found. *)
Theorem package_lookup_priority (owner repo : string)
    (npm_stats pypi_stats cargo_stats : option Registry.t) :
  let result := get_package_stats owner repo npm_stats pypi_stats cargo_stats in
  (PackageLookup.status result = "success"%string
   <-> npm_stats <> None \/ pypi_stats <> None \/ cargo_stats <> None)
  /\ (PackageLookup.status result = "success"%string
      \/ PackageLookup.status result = "not_found"%string
         /\ PackageLookup.package_manager result = None)
  /\ PackageLookup.package_manager result
     = match npm_stats, pypi_stats, cargo_stats with
       | Some _, _, _ => Some "npm"%string
       | None, Some _, _ => Some "pypi"%string
       | None, None, Some _ => Some "cargo"%string
       | None, None, None => None
       end
  /\ calculate_adoption_score (as_package_stats result)
     = adoption_of npm_stats pypi_stats cargo_stats.
Proof.
  intros result. subst result. unfold get_package_stats, adoption_of.
  destruct npm_stats as [n |]; [| destruct pypi_stats as [p |];
                                  [| destruct cargo_stats as [c |]]];
    cbn [PackageLookup.status PackageLookup.package_manager].
  - split; [split; [intros _; left; discriminate | reflexivity] |].
    split; [left; reflexivity |]. split; reflexivity.
  - split; [split; [intros _; right; left; discriminate | reflexivity] |].
    split; [left; reflexivity |]. split; reflexivity.
  - split; [split; [intros _; right; right; discriminate | reflexivity] |].
    split; [left; reflexivity |]. split; reflexivity.
  - split; [split; [discriminate | intros [H | [H | H]]; now destruct H] |].
    split; [right; split; reflexivity |]. split; [reflexivity |].
    unfold calculate_adoption_score, as_package_stats.
    cbn [PackageStats.status PackageLookup.status is_str String.eqb Ascii.eqb
         Bool.eqb negb]. lra.
Qed.

(** X12: for a crate the adoption score lies in [0,100] and does not
    decrease when the total or the recent download count grows. *)
Theorem cargo_adoption_bounded_monotone (total total' recent recent' : Z) :
  (0 <= total <= total')%Z -> (0 <= recent <= recent')%Z ->
  0 <= calculate_adoption_score (cargo_stats total recent) <= 100
  /\ calculate_adoption_score (cargo_stats total recent)
     <= calculate_adoption_score (cargo_stats total' recent').
Proof.
  intros Ht Hr. rewrite !adoption_cargo. split.
  - apply cargo_score_bounds; lia.
  - now apply cargo_score_mono.
Qed.

Lemma cargo_adoption_bounded_monotone_witness :
  calculate_adoption_score (cargo_stats 50000 100)
  <= calculate_adoption_score (cargo_stats 2000000 30000).
Proof.
  apply (cargo_adoption_bounded_monotone 50000 2000000 100 30000); lia.
Defined.

(** X13: below their third breakpoint (10000 weekly npm downloads, 50000
    monthly pypi downloads) the npm and pypi scores lie in [0,50) and do
    not decrease with the count. *)
Theorem npm_pypi_below_third_breakpoint (w w' m m' : Z) :
  (0 <= w <= w')%Z -> (w' < 10000)%Z -> (0 <= m <= m')%Z -> (m' < 50000)%Z ->
  (0 <= calculate_adoption_score (npm_stats w)
   /\ calculate_adoption_score (npm_stats w) <= calculate_adoption_score (npm_stats w')
   /\ calculate_adoption_score (npm_stats w') < 50)
  /\ (0 <= calculate_adoption_score (pypi_stats m)
      /\ calculate_adoption_score (pypi_stats m) <= calculate_adoption_score (pypi_stats m')
      /\ calculate_adoption_score (pypi_stats m') < 50).
Proof.
  intros [Hw Hww] Hw' [Hm Hmm] Hm'.
  rewrite !adoption_npm, !adoption_pypi.
  apply IZR_le in Hw, Hww, Hm, Hmm. apply IZR_lt in Hw', Hm'.
  unfold npm_score, pypi_score.
  split; (split; [| split]); split_tiers; rewrite ?minus_IZR;
    unfold Rmin; repeat destruct (Rle_dec _ _); lra.
Qed.

Lemma npm_pypi_below_third_breakpoint_witness :
  calculate_adoption_score (npm_stats 9000) < 50.
Proof.
  apply (npm_pypi_below_third_breakpoint 500 9000 500 9000); lia.
Defined.

(** X14: the adoption score is 0 when there are no stats, when the status
    is anything but "success", and when the package manager is none of
    npm, pypi and cargo. *)
Theorem adoption_score_defaults_to_zero (st : PackageStats.t) :
  is_str (PackageStats.status st) "success" = false
  \/ (is_str (PackageStats.package_manager st) "npm" = false
      /\ is_str (PackageStats.package_manager st) "pypi" = false
      /\ is_str (PackageStats.package_manager st) "cargo" = false) ->
  calculate_adoption_score (Some st) = 0
  /\ calculate_adoption_score None = 0.
Proof.
  intros H. unfold calculate_adoption_score. split; [| lra].
  destruct H as [H | (H1 & H2 & H3)].
  - rewrite H. cbn [negb]. lra.
  - rewrite H1, H2, H3. destruct (negb _); lra.
Qed.

Lemma adoption_score_defaults_to_zero_witness :
  calculate_adoption_score
    (Some {| PackageStats.status := Some "not_found"%string;
             PackageStats.package_manager := None;
             PackageStats.stats := None |}) = 0.
Proof.
  apply (adoption_score_defaults_to_zero
           {| PackageStats.status := Some "not_found"%string;
              PackageStats.package_manager := None;
              PackageStats.stats := None |}).
  left. reflexivity.
Defined.

End AdoptionFurther.

(** ** Repository analysis *)

Section RepositoryAnalysis.

Ltac split_tiers :=
  repeat match goal with
  | |- context [(?a >=? ?b)%Z] =>
      rewrite (Z.geb_leb a b);
      let H := fresh "Htier" in
      destruct (Z.leb_spec b a) as [H | H]
  end.

(** X15: the health score is 0.2 times the number of indicators met
    (description, wiki or description, commits in the last weeks, fewer
    than 50 open issues, license), so it lies in [0,1]; a description
    counts twice (as documentation and as README), so a described
    repository scores at least 0.4; and the score is 0 only for a
    repository without description, wiki, recent commits and license that
    has 50 open issues or more. *)
Theorem health_score_steps (repo_data : GitHubRepo.t)
    (commit_activity : CommitActivity.t) :
  let score := _calculate_health_score repo_data commit_activity in
  score = 0.2 * IZR (indicators_met repo_data commit_activity)
  /\ (0 <= indicators_met repo_data commit_activity <= 5)%Z
  /\ 0 <= score <= 1
  /\ (truthy_str (GitHubRepo.description repo_data) = true -> 0.4 <= score)
  /\ (score = 0 <->
        truthy_str (GitHubRepo.description repo_data) = false
        /\ truthy_bool (GitHubRepo.has_wiki repo_data) = false
        /\ Py.get (CommitActivity.weekly_avg commit_activity) 0 <= 0
        /\ (50 <= Py.get (GitHubRepo.open_issues_count repo_data) 0%Z)%Z
        /\ truthy_dict (GitHubRepo.license repo_data) = false).
Proof.
  intros score. subst score. unfold _calculate_health_score, indicators_met. cbv zeta.
  destruct (truthy_str (GitHubRepo.description repo_data));
    destruct (truthy_bool (GitHubRepo.has_wiki repo_data));
    destruct (Rlt_dec 0 (Py.get (CommitActivity.weekly_avg commit_activity) 0)) as [Hq | Hq];
    destruct (Z.ltb_spec (Py.get (GitHubRepo.open_issues_count repo_data) 0%Z) 50) as [Hi | Hi];
    destruct (truthy_dict (GitHubRepo.license repo_data));
    cbn [orb];
    match goal with
    | |- context [Rmin ?s 1.0] =>
        let v := fresh "v" in
        assert (v : Rmin s 1.0 = s) by (apply Rmin_left; lra); rewrite v; clear v
    end;
    (split; [rewrite !plus_IZR; lra |]);
    (split; [lia |]);
    (split; [lra |]);
    (split; [intros; try discriminate; lra |]);
    (split; [intros H; try (exfalso; lra); repeat split; try reflexivity; try lra; lia
            | intros (H1 & H2 & H3 & H4 & H5); try discriminate; try lra; try lia]).
Qed.

(** X16: the activity score is a step function of the weekly commit
    average with values in [0,1]: it never decreases when the average
    grows, it is 0 exactly when the average is 0 or less (or missing), and
    it is 1 from 10 commits a week on. *)
Theorem activity_score_steps (activity activity' : CommitActivity.t) :
  let avg := Py.get (CommitActivity.weekly_avg activity) 0 in
  let avg' := Py.get (CommitActivity.weekly_avg activity') 0 in
  0 <= _calculate_activity_score activity <= 1
  /\ (_calculate_activity_score activity = 0 <-> avg <= 0)
  /\ (_calculate_activity_score activity = 1 <-> 10 <= avg)
  /\ (avg <= avg' ->
      _calculate_activity_score activity <= _calculate_activity_score activity').
Proof.
  intros avg avg'. unfold _calculate_activity_score. fold avg avg'. cbv zeta.
  repeat destruct (Rle_dec _ _); repeat destruct (Rlt_dec _ _);
    repeat split; intros; lra.
Qed.

Lemma community_score_range {A : Type} (repo_data : GitHubRepo.t)
    (contributor_stats : list A) :
  0 <= _calculate_community_score repo_data contributor_stats <= 1.
Proof.
  unfold _calculate_community_score. cbv zeta.
  split_tiers; unfold Rmin; destruct (Rle_dec _ _); lra.
Qed.

(** X17: the community score lies in [0,1], does not decrease when the
    repository has more stars, forks and contributors, and is 1 exactly
    from 1000 stars, 100 forks and 50 contributors on. *)
Theorem community_score_steps {A : Type} (repo_data repo_data' : GitHubRepo.t)
    (contributor_stats contributor_stats' : list A) :
  let stars := Py.get (GitHubRepo.stargazers_count repo_data) 0%Z in
  let forks := Py.get (GitHubRepo.forks_count repo_data) 0%Z in
  let stars' := Py.get (GitHubRepo.stargazers_count repo_data') 0%Z in
  let forks' := Py.get (GitHubRepo.forks_count repo_data') 0%Z in
  0 <= _calculate_community_score repo_data contributor_stats <= 1
  /\ (_calculate_community_score repo_data contributor_stats = 1
      <-> (1000 <= stars)%Z /\ (100 <= forks)%Z
          /\ (50 <= List.length contributor_stats)%nat)
  /\ ((stars <= stars')%Z -> (forks <= forks')%Z ->
      (List.length contributor_stats <= List.length contributor_stats')%nat ->
      _calculate_community_score repo_data contributor_stats
      <= _calculate_community_score repo_data' contributor_stats').
Proof.
  intros stars forks stars' forks'.
  split; [apply community_score_range |].
  unfold _calculate_community_score. fold stars forks stars' forks'. cbv zeta.
  split.
  - split_tiers; unfold Rmin; destruct (Rle_dec _ _);
      (split; [intros H; try (exfalso; lra); repeat split; lia
              | intros (H1 & H2 & H3); try lra; lia]).
  - intros Hs Hf Hc. apply Nat2Z.inj_le in Hc.
    split_tiers; unfold Rmin; repeat destruct (Rle_dec _ _); try lra; lia.
Qed.

End RepositoryAnalysis.

Section CommitActivityFacts.

Lemma last_n_app {A : Type} (n : nat) (older recent : list A) :
  List.length recent = n -> last_n n (older ++ recent) = recent.
Proof.
  intros H. unfold last_n. rewrite length_app, H.
  replace (List.length older + n - n)%nat with (List.length older) by lia.
  rewrite skipn_app, skipn_all, Nat.sub_diag. reflexivity.
Qed.

Lemma last_n_short {A : Type} (n : nat) (data : list A) :
  (List.length data <= n)%nat -> last_n n data = data.
Proof.
  intros H. unfold last_n.
  replace (List.length data - n)%nat with 0%nat by lia. reflexivity.
Qed.

Lemma last_app_nonempty {A : Type} (older recent : list A) (d : A) :
  recent <> [] -> List.last (older ++ recent) d = List.last recent d.
Proof.
  intros Hne. induction older as [| x older IH]; [reflexivity |].
  cbn [app]. destruct (older ++ recent) eqn:E.
  - apply app_eq_nil in E. now destruct E.
  - exact IH.
Qed.

Lemma sumZ_nonneg (l : list Z) : Forall (fun z => (0 <= z)%Z) l -> (0 <= Py.sumZ l)%Z.
Proof.
  intros H. rewrite sumZ_fold_right.
  induction H; cbn [fold_right]; lia.
Qed.

Lemma weeks_total_nonneg (data : list Week.t) (n : nat) :
  weeks_ok data ->
  (0 <= Py.sumZ (map (fun week => Py.get (Week.total week) 0%Z) (last_n n data)))%Z.
Proof.
  intros H. apply sumZ_nonneg. apply Forall_map.
  assert (Hs : Forall (fun week => count_ok (Week.total week)) (last_n n data)).
  { unfold last_n. apply Forall_forall. intros w Hw.
    unfold weeks_ok in H. rewrite Forall_forall in H. apply H.
    rewrite <- (firstn_skipn (List.length data - n) data).
    apply in_or_app. now right. }
  eapply Forall_impl; [| exact Hs].
  intros w Hw. now apply get_count_ok.
Qed.

(** What the activity record holds, whatever the response. *)
Lemma commit_activity_shape (response : option (list Week.t)) :
  exists total : Z,
    CommitActivity.total (commit_activity_of response) = Some total
    /\ CommitActivity.weekly_avg (commit_activity_of response) = Some (IZR total / 8)
    /\ match response with
       | Some data =>
           total = Py.sumZ (map (fun week => Py.get (Week.total week) 0%Z)
                              (last_n 8 data))
       | None => total = 0%Z
       end.
Proof.
  destruct response as [[| w data] |]; cbn [commit_activity_of].
  - exists 0%Z. repeat split. cbn [CommitActivity.weekly_avg]. f_equal. lra.
  - eexists. repeat split.
  - exists 0%Z. repeat split. cbn [CommitActivity.weekly_avg]. f_equal. lra.
Qed.

(** X18: the commit activity counts the commits of the last eight weeks of
    the response only, its weekly average is that total divided by eight
    even when fewer weeks are given, the last commit is the last week's
    stamp, and a missing or empty response gives a total of 0, an average
    of 0 and no stamp. *)
Theorem commit_activity_last_eight_weeks (older recent : list Week.t) :
  List.length recent = 8%nat ->
  commit_activity_of (Some (older ++ recent)) = commit_activity_of (Some recent)
  /\ (forall data, data <> [] ->
        let total := Py.sumZ (map (fun week => Py.get (Week.total week) 0%Z)
                                (last_n 8 data)) in
        commit_activity_of (Some data)
        = {| CommitActivity.total := Some total;
             CommitActivity.weekly_avg := Some (IZR total / 8);
             CommitActivity.last_commit :=
               Week.week (List.last data {| Week.total := None; Week.week := None |}) |})
  /\ (forall data : list Week.t, (List.length data <= 8)%nat -> last_n 8 data = data)
  /\ commit_activity_of None
     = {| CommitActivity.total := Some 0%Z;
          CommitActivity.weekly_avg := Some 0;
          CommitActivity.last_commit := None |}
  /\ commit_activity_of (Some [])
     = {| CommitActivity.total := Some 0%Z;
          CommitActivity.weekly_avg := Some 0;
          CommitActivity.last_commit := None |}.
Proof.
  intros Hlen.
  assert (Hne : recent <> []) by (intros ->; discriminate Hlen).
  split; [| split; [| split; [| split]]].
  - unfold commit_activity_of.
    destruct (older ++ recent) as [| w rest] eqn:E.
    { apply app_eq_nil in E. now destruct E. }
    rewrite <- E. destruct recent as [| r recent']; [contradiction |].
    rewrite last_n_app by assumption.
    rewrite (last_n_short 8 (r :: recent')) by lia.
    rewrite last_app_nonempty by assumption. reflexivity.
  - intros data Hd total. subst total. unfold commit_activity_of.
    destruct data as [| w rest]; [contradiction | reflexivity].
  - intros data Hshort. now apply last_n_short.
  - reflexivity.
  - reflexivity.
Qed.

Lemma commit_activity_last_eight_weeks_witness :
  commit_activity_of (Some (sample_weeks ++ repeat {| Week.total := Some 3%Z;
                                                      Week.week := None |} 8))
  = commit_activity_of (Some (repeat {| Week.total := Some 3%Z; Week.week := None |} 8)).
Proof.
  exact (proj1 (commit_activity_last_eight_weeks sample_weeks
                  (repeat {| Week.total := Some 3%Z; Week.week := None |} 8)
                  eq_refl)).
Defined.

End CommitActivityFacts.

Section Pipeline.

Lemma health_score_range (repo_data : GitHubRepo.t) (commit_activity : CommitActivity.t) :
  0 <= _calculate_health_score repo_data commit_activity <= 1.
Proof.
  unfold _calculate_health_score. cbv zeta.
  destruct (truthy_str _); destruct (truthy_bool _ || _); destruct (Rlt_dec _ _);
    destruct (_ <? _)%Z; destruct (truthy_dict _);
    unfold Rmin; destruct (Rle_dec _ _); lra.
Qed.

Lemma activity_score_range (commit_activity : CommitActivity.t) :
  0 <= _calculate_activity_score commit_activity <= 1.
Proof.
  unfold _calculate_activity_score. cbv zeta.
  repeat destruct (Rle_dec _ _); repeat destruct (Rlt_dec _ _); lra.
Qed.

Lemma unicorn_score_without_range (inputs : ValuationInputs) :
  repo_data_ok (repo_data inputs) ->
  37.9 <= unicorn_score_of inputs None <= 100.
Proof.
  intros (_ & Hs & _).
  pose proof (community_momentum_round (stars_of inputs) (forks_of inputs)
                (watchers_of inputs)) as Hcm.
  pose proof (development_velocity_round (contributors_of inputs) (commits_of inputs)
                (frequency_of inputs)) as Hdv.
  pose proof (market_potential_round (stars_of inputs) (forks_of inputs)
                (contributors_of inputs)) as Hmp.
  pose proof (round_0_100 _ (base_tech_quality_bounds _ Hs)) as Hbt.
  fold (scores_of inputs) in Hbt.
  rewrite unicorn_score_without_eq by reflexivity. split.
  - replace 37.9 with (IZR 379 / 10 ^ 1) by (simpl; lra).
    apply round1_ge. simpl. lra.
  - apply (round_between 0 100). lra.
Qed.

(** X19: when the repository object and the weekly statistics carry counts
    that are not negative, the analysis is a well-formed valuation input:
    its three scores and their mean, the overall score, lie in [0,1] and
    its counts are not negative, so the unicorn score computed from it
    lies between 37.9 and 100 and the scorecard tiers are in order.
    Without a repository object the analysis is the error record. *)
Theorem analysis_feeds_valuation {A : Type} (repo : GitHubRepo.t)
    (response : option (list Week.t)) (contributor_stats : list A) :
  github_repo_ok repo ->
  (forall data, response = Some data -> weeks_ok data) ->
  let activity := commit_activity_of response in
  analyze_repository None activity contributor_stats = None
  /\ exists analysis,
       analyze_repository (Some repo) activity contributor_stats = Some analysis
       /\ repo_data_ok analysis
       /\ (exists h a c,
             scores analysis
             = Some {| health_score := Some h; activity_score := Some a;
                       community_score := Some c;
                       overall_score := Some ((h + a + c) / 3) |}
             /\ 0 <= (h + a + c) / 3 <= 1)
       /\ 37.9 <= unicorn_score (calculate_unicorn_hunter (inputs_of analysis) None) <= 100
       /\ (let range := valuation_range (calculate_scorecard (inputs_of analysis)) in
           low range <= medium range <= high range).
Proof.
  intros (Hst & Hfk & Hwt & Hoi) Hweeks activity.
  split; [reflexivity |].
  eexists. split; [reflexivity |].
  pose proof (health_score_range repo activity) as Hh.
  pose proof (activity_score_range activity) as Ha.
  pose proof (community_score_range repo contributor_stats) as Hc.
  assert (Hok : repo_data_ok
    {| metrics :=
         Some {| stars := Some (Py.get (GitHubRepo.stargazers_count repo) 0%Z);
                 forks := Some (Py.get (GitHubRepo.forks_count repo) 0%Z);
                 watchers := Some (Py.get (GitHubRepo.watchers_count repo) 0%Z);
                 open_issues := Some (Py.get (GitHubRepo.open_issues_count repo) 0%Z) |};
       scores :=
         Some {| health_score := Some (_calculate_health_score repo activity);
                 activity_score := Some (_calculate_activity_score activity);
                 community_score := Some (_calculate_community_score repo contributor_stats);
                 overall_score :=
                   Some ((_calculate_health_score repo activity
                          + _calculate_activity_score activity
                          + _calculate_community_score repo contributor_stats) / 3) |};
       development :=
         Some {| total_commits := Some (Py.get (CommitActivity.total activity) 0%Z);
                 contributors := Some (Z.of_nat (List.length contributor_stats));
                 commit_frequency :=
                   Some (Py.get (CommitActivity.weekly_avg activity) 0) |} |}).
  { apply get_count_ok in Hst, Hfk, Hwt, Hoi.
    assert (Htot : (0 <= Py.get (CommitActivity.total activity) 0)%Z
                   /\ 0 <= Py.get (CommitActivity.weekly_avg activity) 0).
    { subst activity. destruct (commit_activity_shape response) as (t & -> & -> & Ht).
      cbn [Py.get].
      assert (0 <= t)%Z.
      { destruct response as [data |]; [| lia].
        rewrite Ht. apply weeks_total_nonneg. now apply Hweeks. }
      split; [assumption |]. apply IZR_div_nonneg; [assumption | lra]. }
    unfold repo_data_ok, metrics_ok, scores_ok, development_ok.
    cbn [metrics scores development Py.get stars forks watchers open_issues
         health_score activity_score community_score overall_score
         total_commits contributors commit_frequency count_ok unit_ok nonneg_ok].
    repeat split; try lia; lra. }
  split; [exact Hok |].
  split.
  { do 3 eexists. split; [reflexivity | lra]. }
  split.
  - unfold calculate_unicorn_hunter. cbn [unicorn_score].
    apply unicorn_score_without_range. exact Hok.
  - cbv zeta. unfold calculate_scorecard. cbn [valuation_range low medium high].
    pose proof (scorecard_total_bounds (inputs_of _) Hok) as [Hlo _].
    match type of Hlo with
    | _ <= ?t => assert (Ht : 0 <= t) by lra;
                 destruct (base_range_ordered t Ht) as [H1 H2]
    end.
    split; apply round_mono; assumption.
Qed.

Lemma analysis_feeds_valuation_witness :
  analyze_repository None (commit_activity_of (Some sample_weeks)) (@nil string) = None.
Proof.
  apply (analysis_feeds_valuation sample_repo (Some sample_weeks) (@nil string)).
  - unfold github_repo_ok, sample_repo. cbn. repeat split; lia.
  - intros data E. injection E as <-. unfold weeks_ok, sample_weeks.
    repeat constructor; cbn; lia.
Defined.

End Pipeline.

(** ** Codebase analysis *)

Section CodebaseHeuristics.

Lemma len_nonneg {A : Type} (l : list A) : 0 <= IZR (len l).
Proof. unfold len. apply IZR_le. lia. Qed.

Lemma len_pos {A : Type} (x : A) (l : list A) : 1 <= IZR (len (x :: l)).
Proof. unfold len. apply IZR_le. cbn [List.length]. lia. Qed.

Lemma ratio_nonneg (a b : R) : 0 <= a -> 0 < b -> 0 <= a / b.
Proof.
  intros Ha Hb. apply Rmult_le_pos; [assumption | left; now apply Rinv_0_lt_compat].
Qed.

(** Directories per file, with the guard against an empty listing. *)
Lemma dir_ratio_nonneg (contents : list Entry.t) :
  0 <= IZR (len (filter (is_type "dir") contents))
       / IZR (Z.max (len (filter (is_type "file") contents)) 1).
Proof.
  apply ratio_nonneg; [apply len_nonneg |].
  apply IZR_lt. lia.
Qed.

(** X20: whatever the listing, the architecture marks stay on their 0-10
    scale: modularity in [5,10], coupling in [1,10], cohesion in [7,10]; a
    listing without directories gets exactly 5, 10 and 7; the pattern list
    is never empty and the type is one of three tags. *)
Theorem architecture_marks_in_range (contents : list Entry.t) :
  let report := _analyze_architecture contents in
  5 <= ArchitectureReport.modularity_score report <= 10
  /\ 1 <= ArchitectureReport.coupling_score report <= 10
  /\ 7 <= ArchitectureReport.cohesion_score report <= 10
  /\ (filter (is_type "dir") contents = [] ->
      ArchitectureReport.modularity_score report = 5
      /\ ArchitectureReport.coupling_score report = 10
      /\ ArchitectureReport.cohesion_score report = 7)
  /\ ArchitectureReport.design_patterns_detected report <> []
  /\ In (ArchitectureReport.architecture_type report)
       [ "microservices"; "modular_monolith"; "monolith" ]%string.
Proof.
  intros report. subst report. unfold _analyze_architecture. cbv zeta.
  cbn [ArchitectureReport.modularity_score ArchitectureReport.coupling_score
       ArchitectureReport.cohesion_score ArchitectureReport.design_patterns_detected
       ArchitectureReport.architecture_type].
  pose proof (dir_ratio_nonneg contents) as Hr.
  set (ratio := IZR (len (filter (is_type "dir") contents))
                / IZR (Z.max (len (filter (is_type "file") contents)) 1)) in *.
  assert (Hm : 5 <= Rmin 10 (Rmax 0 (ratio * 30 + 5)) <= 10)
    by (unfold Rmin, Rmax; repeat destruct (Rle_dec _ _); lra).
  assert (Hc : 1 <= Rmax 1 (Rmin 10 (10 - ratio * 20)) <= 10)
    by (unfold Rmin, Rmax; repeat destruct (Rle_dec _ _); lra).
  assert (Hh : 7 <= Rmin 10 (Rmax 5 (Rmin 10 (Rmax 0 (ratio * 30 + 5)) + 2)) <= 10)
    by (unfold Rmin, Rmax in *; repeat destruct (Rle_dec _ _); lra).
  split; [apply (round_between 5 10); exact Hm |].
  split; [apply (round_between 1 10); exact Hc |].
  split; [apply (round_between 7 10); exact Hh |].
  split; [| split].
  - intros Hnone. subst ratio. rewrite Hnone in *. cbn [len List.length Z.of_nat] in *.
    replace (0 / IZR (Z.max (Z.of_nat (List.length (filter (is_type "file") contents))) 1))
      with 0 in * by (unfold Rdiv; ring).
    repeat split.
    + apply (round1_of_Z _ 5). unfold Rmin, Rmax. repeat destruct (Rle_dec _ _); lra.
    + apply (round1_of_Z _ 10). unfold Rmin, Rmax. repeat destruct (Rle_dec _ _); lra.
    + apply (round1_of_Z _ 7). unfold Rmin, Rmax. repeat destruct (Rle_dec _ _); lra.
  - unfold detect.
    repeat match goal with
           | |- context [if existsb ?f ?l then _ else _] => destruct (existsb f l)
           end; cbn [app]; discriminate.
  - destruct (existsb _ _); [cbn; tauto |].
    destruct (Rlt_dec _ _); cbn; tauto.
Qed.

Lemma test_ratio_nonneg (tests codes : list Entry.t) (c : Entry.t) :
  0 <= IZR (len tests) / IZR (len (c :: codes)).
Proof.
  apply ratio_nonneg; [apply len_nonneg |].
  pose proof (len_pos c codes). lra.
Qed.

(** X21: without code files in the listing the coverage report is all
    zeros (no division is attempted); otherwise the overall estimate lies
    in [0,100], its unit and integration parts in [0,70] and [0,30], the
    test quality mark in [2,10], and the estimate is 100 as soon as there
    is one test file for every two code files. *)
Theorem test_coverage_estimate (contents : list Entry.t) :
  let report := _analyze_test_coverage contents in
  (code_files_of contents = [] ->
     report = {| TestCoverageReport.overall_coverage := 0;
                 TestCoverageReport.unit_test_coverage := 0;
                 TestCoverageReport.integration_test_coverage := 0;
                 TestCoverageReport.test_to_code_ratio := 0;
                 TestCoverageReport.test_quality_score := 0 |})
  /\ 0 <= TestCoverageReport.overall_coverage report <= 100
  /\ 0 <= TestCoverageReport.unit_test_coverage report <= 70
  /\ 0 <= TestCoverageReport.integration_test_coverage report <= 30
  /\ 0 <= TestCoverageReport.test_quality_score report <= 10
  /\ (code_files_of contents <> [] ->
      2 <= TestCoverageReport.test_quality_score report
      /\ ((len (code_files_of contents) <= 2 * len (test_files_of contents))%Z ->
          TestCoverageReport.overall_coverage report = 100)).
Proof.
  intros report. subst report. unfold _analyze_test_coverage. cbv zeta.
  destruct (code_files_of contents) as [| c codes] eqn:E.
  - cbn [TestCoverageReport.overall_coverage TestCoverageReport.unit_test_coverage
         TestCoverageReport.integration_test_coverage
         TestCoverageReport.test_quality_score].
    split; [intros _; reflexivity |].
    repeat (split; [lra |]). intros Hne. now destruct Hne.
  - cbn [TestCoverageReport.overall_coverage TestCoverageReport.unit_test_coverage
         TestCoverageReport.integration_test_coverage
         TestCoverageReport.test_quality_score].
    pose proof (test_ratio_nonneg (test_files_of contents) codes c) as Hr.
    set (ratio := IZR (len (test_files_of contents)) / IZR (len (c :: codes))) in *.
    assert (Hcov : 0 <= Rmin 100 (ratio * 200) <= 100)
      by (unfold Rmin; destruct (Rle_dec _ _); lra).
    assert (Hq : 2 <= Rmin 10 (Rmax 0 (ratio * 20 + 2)) <= 10)
      by (unfold Rmin, Rmax; repeat destruct (Rle_dec _ _); lra).
    split; [discriminate |].
    split; [apply (round_between 0 100); exact Hcov |].
    split; [apply (round_between 0 70); lra |].
    split; [apply (round_between 0 30); lra |].
    split; [apply (round_between 0 10); lra |].
    intros _. split; [apply (round_between 2 10); exact Hq |].
    intros Hhalf. apply (round1_of_Z _ 100).
    assert (Hpos : 1 <= IZR (len (c :: codes))) by apply len_pos.
    assert (Hge : 1 / 2 <= ratio).
    { subst ratio. apply IZR_le in Hhalf. rewrite mult_IZR in Hhalf.
      apply Rmult_le_reg_r with (IZR (len (c :: codes))); [lra |].
      replace (IZR (len (test_files_of contents)) / IZR (len (c :: codes))
               * IZR (len (c :: codes)))
        with (IZR (len (test_files_of contents))) by (field; lra).
      lra. }
    unfold Rmin. destruct (Rle_dec _ _); lra.
Qed.

End CodebaseHeuristics.

Section QualityAndDocs.

Lemma quality_from_index (m : Z) :
  (50 <= m <= 95)%Z ->
  Py.round (IZR (Z.min 100 m)) 1 = IZR m
  /\ Py.round (Rmax 0 (Rmin 1 (IZR (100 - m) / 100))) 2 = IZR (100 - m) / 100
  /\ Py.round (Rmax 0 (IZR (100 - m) / 10)) 1 = IZR (100 - m) / 10.
Proof.
  intros Hm.
  assert (H5 : 5 <= IZR (100 - m) <= 50) by (split; apply IZR_le; lia).
  split; [| split].
  - rewrite Z.min_r by lia. apply round_IZR.
  - replace (Rmax 0 (Rmin 1 (IZR (100 - m) / 100))) with (IZR (100 - m) / 10 ^ 2).
    + rewrite round_decimal. simpl. lra.
    + unfold Rmax, Rmin. repeat destruct (Rle_dec _ _); simpl in *; lra.
  - replace (Rmax 0 (IZR (100 - m) / 10)) with (IZR (100 - m) / 10 ^ 1).
    + rewrite round_decimal. simpl. lra.
    + unfold Rmax. destruct (Rle_dec _ _); simpl in *; lra.
Qed.

Lemma percent_from_index (d : Z) :
  (0 <= d <= 100)%Z -> Py.round (IZR (Z.min 100 d)) 1 = IZR d.
Proof. intros Hd. rewrite Z.min_r by lia. apply round_IZR. Qed.

(** X22: whatever the listing, the maintainability index lies in [50,95]
    (50 plus 15, 10, 10 and 10 for tests, documentation, CI and linting),
    the technical debt ratio is its complement to 100 as a fraction, the
    smell density that complement divided by 10, and the documentation
    coverage lies in [30,80]. *)
Theorem quality_scores_estimate (contents : list Entry.t) :
  let report := _analyze_quality contents in
  let index := QualityReport.maintainability_index report in
  50 <= index <= 95
  /\ QualityReport.technical_debt_ratio report = (100 - index) / 100
  /\ 0.05 <= QualityReport.technical_debt_ratio report <= 0.5
  /\ QualityReport.code_smell_density report = (100 - index) / 10
  /\ 30 <= QualityReport.documentation_coverage report <= 80.
Proof.
  intros report index. subst index report. unfold _analyze_quality. cbv zeta.
  cbn [QualityReport.maintainability_index QualityReport.technical_debt_ratio
       QualityReport.code_smell_density QualityReport.documentation_coverage].
  repeat match goal with
         | |- context [if existsb ?f ?l then _ else _] => destruct (existsb f l)
         end;
    match goal with
    | |- context [Py.round (IZR (Z.min 100 ?m)) 1] =>
        destruct (quality_from_index m ltac:(lia)) as (-> & -> & ->)
    end;
    match goal with
    | |- context [Py.round (IZR (Z.min 100 ?d)) 1] =>
        rewrite (percent_from_index d) by lia
    end;
    rewrite ?minus_IZR, ?plus_IZR; repeat split; lra.
Qed.

(** X23: the README mark is 0 without a README, 7 with one and 8.5 when
    there is a docs directory as well, so it stays on its 0-10 scale; the
    comment coverage lies in [30,85]; and an API documentation type is
    reported exactly when API documentation was detected. *)
Theorem documentation_estimate (contents : list Entry.t) :
  let report := _analyze_documentation contents in
  (DocumentationReport.readme_quality_score report = 0
   \/ DocumentationReport.readme_quality_score report = 7
   \/ DocumentationReport.readme_quality_score report = 8.5)
  /\ (DocumentationReport.readme_quality_score report = 0
      <-> filter (fun f => Str.startswith (Str.lower (entry_name f)) "readme") contents = [])
  /\ 30 <= DocumentationReport.comment_coverage report <= 85
  /\ (DocumentationReport.api_documentation_type report = None
      <-> DocumentationReport.api_documentation_present report = false)
  /\ DocumentationReport.documentation_freshness_days report = 60%Z.
Proof.
  intros report. subst report. unfold _analyze_documentation. cbv zeta.
  cbn [DocumentationReport.readme_quality_score DocumentationReport.comment_coverage
       DocumentationReport.api_documentation_type
       DocumentationReport.api_documentation_present
       DocumentationReport.documentation_freshness_days].
  assert (R0 : Py.round 0 1 = 0) by apply (round_IZR 0 1).
  assert (R7 : Py.round 7 1 = 7) by apply (round_IZR 7 1).
  assert (R85 : Py.round (7 + 1.5) 1 = 8.5).
  { replace (7 + 1.5) with (IZR 85 / 10 ^ 1) by (simpl; lra).
    rewrite round_decimal. simpl. lra. }
  destruct (filter (fun f => Str.startswith (Str.lower (entry_name f)) "readme") contents)
    as [| r rs] eqn:Ereadme.
  - change (0 <? len [])%Z with false. cbv iota.
    rewrite R0.
    split; [left; reflexivity |]. split; [tauto |].
    split.
    + repeat match goal with
             | |- context [if existsb ?f ?l then _ else _] => destruct (existsb f l)
             end;
        match goal with
        | |- context [Py.round (IZR (Z.min 100 ?d)) 1] =>
            rewrite (percent_from_index d) by lia
        end; rewrite ?plus_IZR; lra.
    + split; [| reflexivity].
      destruct (existsb _ (filter (is_type "file") contents));
        [| tauto].
      repeat destruct (existsb _ contents); split; discriminate.
  - assert (Hpos : (0 <? len (r :: rs))%Z = true).
    { apply Z.ltb_lt. unfold len. cbn [List.length]. lia. }
    rewrite Hpos. cbv iota.
    split.
    { destruct (existsb _ contents); [rewrite R85 | rewrite R7]; tauto. }
    split.
    { split; [| discriminate].
      destruct (existsb _ contents); [rewrite R85 | rewrite R7]; intros H; lra. }
    split.
    + repeat match goal with
             | |- context [if existsb ?f ?l then _ else _] => destruct (existsb f l)
             end;
        match goal with
        | |- context [Py.round (IZR (Z.min 100 ?d)) 1] =>
            rewrite (percent_from_index d) by lia
        end; rewrite ?plus_IZR; lra.
    + split; [| reflexivity].
      destruct (existsb _ (filter (is_type "file") contents));
        [| tauto].
      repeat destruct (existsb _ contents); split; discriminate.
Qed.

End QualityAndDocs.

Section ComplexityAndDependencies.

(** X24: without code files the complexity report is all zeros (nothing
    is divided); otherwise the average complexity lies in [1,20], the
    maximum in [2,50], the cognitive score in [3,10], the function length
    in [5,100], and the duplication percentage in [0,30]. *)
Theorem complexity_estimate (contents : list Entry.t) :
  let report := _analyze_complexity contents in
  (code_files_of contents = [] ->
     report = {| ComplexityReport.average_cyclomatic_complexity := 0;
                 ComplexityReport.max_cyclomatic_complexity := 0;
                 ComplexityReport.cognitive_complexity_score := 0;
                 ComplexityReport.duplication_percentage := 0;
                 ComplexityReport.average_file_size := 0;
                 ComplexityReport.average_function_length := 0 |})
  /\ (code_files_of contents <> [] ->
      1 <= ComplexityReport.average_cyclomatic_complexity report <= 20
      /\ 2 <= ComplexityReport.max_cyclomatic_complexity report <= 50
      /\ 3 <= ComplexityReport.cognitive_complexity_score report <= 10
      /\ 5 <= ComplexityReport.average_function_length report <= 100)
  /\ 0 <= ComplexityReport.duplication_percentage report <= 30.
Proof.
  intros report. subst report. unfold _analyze_complexity. cbv zeta.
  destruct (code_files_of contents) as [| c codes].
  - split; [intros _; reflexivity |].
    split; [intros H; now destruct H |].
    cbn [ComplexityReport.duplication_percentage]. lra.
  - cbn [ComplexityReport.average_cyclomatic_complexity
         ComplexityReport.max_cyclomatic_complexity
         ComplexityReport.cognitive_complexity_score
         ComplexityReport.duplication_percentage
         ComplexityReport.average_function_length].
    set (avg := IZR _ / IZR (len (c :: codes))).
    assert (Ha : 1 <= Rmin 20 (Rmax 1 (avg / 1000 * 2)) <= 20)
      by (unfold Rmin, Rmax; repeat destruct (Rle_dec _ _); lra).
    set (est := Rmin 20 (Rmax 1 (avg / 1000 * 2))) in *.
    split; [discriminate |]. split.
    + intros _.
      split; [apply (round_between 1 20); exact Ha |].
      split; [apply (round_between 2 50);
              unfold Rmin; destruct (Rle_dec _ _); lra |].
      split; [apply (round_between 3 10);
              unfold Rmin, Rmax; repeat destruct (Rle_dec _ _); lra |].
      apply (round_between 5 100). lra.
    + apply (round_between 0 30).
      unfold Rmin, Rmax; repeat destruct (Rle_dec _ _); lra.
Qed.

Lemma int_of_nonneg (x : R) : 0 <= x -> (0 <= int_of x)%Z /\ IZR (int_of x) <= x.
Proof.
  intros Hx. unfold int_of. destruct (Rle_dec 0 x) as [_ | n]; [| contradiction].
  pose proof (Int_part_bounds x) as [Hlo Hhi]. split; [| exact Hlo].
  apply le_IZR. destruct (Z_lt_le_dec (Int_part x) 0) as [Hneg | Hpos].
  - apply IZR_lt_succ in Hneg. lra.
  - now apply IZR_le.
Qed.

Lemma count_dependencies_nonneg (counted : string -> option Z) (found : list string) :
  counted_ok counted -> (0 <= count_dependencies counted found)%Z.
Proof.
  intros Hok. unfold count_dependencies.
  assert (G : forall acc, (0 <= acc)%Z ->
    (0 <= fold_left
            (fun total_deps dep_file =>
               if Str.mem dep_file ["package.json"; "requirements.txt"; "Pipfile"]%string
               then Py.get (counted dep_file) total_deps
               else total_deps) found acc)%Z).
  { induction found as [| f rest IH]; intros acc Hacc; [exact Hacc |].
    cbn [fold_left]. apply IH.
    destruct (Str.mem f _); [| exact Hacc].
    specialize (Hok f). destruct (counted f); cbn [Py.get count_ok] in *; lia. }
  apply G. lia.
Qed.

(** X25: without dependency files the dependency report is all zeros with
    a license score of 100.  With some, at least one dependency is
    reported (20 when none could be counted), 20 percent are called
    outdated, and the estimates keep their proportions: outdated count at
    most a fifth, vulnerabilities at most 3 percent of the total, critical
    ones at most a fifth of the vulnerabilities, none of them negative. *)
Theorem dependency_estimate (counted : string -> option Z) (contents : list Entry.t) :
  counted_ok counted ->
  let report := _analyze_dependencies counted contents in
  (found_deps_of contents = [] ->
     report = {| DependencyReport.total_dependencies := 0;
                 DependencyReport.outdated_count := 0;
                 DependencyReport.outdated_percentage := 0;
                 DependencyReport.security_vulnerabilities := 0;
                 DependencyReport.critical_vulnerabilities := 0;
                 DependencyReport.license_compliance_score := 100;
                 DependencyReport.average_dependency_age_days := 0 |})
  /\ (found_deps_of contents <> [] ->
      (1 <= DependencyReport.total_dependencies report)%Z
      /\ DependencyReport.outdated_percentage report = 20
      /\ (count_dependencies counted (found_deps_of contents) = 0%Z ->
          DependencyReport.total_dependencies report = 20%Z))
  /\ (0 <= DependencyReport.outdated_count report)%Z
  /\ (5 * DependencyReport.outdated_count report
      <= DependencyReport.total_dependencies report)%Z
  /\ (0 <= DependencyReport.security_vulnerabilities report)%Z
  /\ (100 * DependencyReport.security_vulnerabilities report
      <= 3 * DependencyReport.total_dependencies report)%Z
  /\ (0 <= DependencyReport.critical_vulnerabilities report)%Z
  /\ (5 * DependencyReport.critical_vulnerabilities report
      <= DependencyReport.security_vulnerabilities report)%Z.
Proof.
  intros Hok report. subst report. unfold _analyze_dependencies. cbv zeta.
  destruct (found_deps_of contents) as [| f rest] eqn:E.
  - cbn [DependencyReport.total_dependencies DependencyReport.outdated_count
         DependencyReport.security_vulnerabilities
         DependencyReport.critical_vulnerabilities].
    split; [intros _; reflexivity |].
    split; [intros H; now destruct H |]. repeat split; lia.
  - cbn [DependencyReport.total_dependencies DependencyReport.outdated_count
         DependencyReport.outdated_percentage
         DependencyReport.security_vulnerabilities
         DependencyReport.critical_vulnerabilities].
    pose proof (count_dependencies_nonneg counted (f :: rest) Hok) as Hn.
    set (raw := count_dependencies counted (f :: rest)) in *.
    set (total := if (raw =? 0)%Z then 20%Z else raw).
    assert (Ht : (1 <= total)%Z).
    { subst total. destruct (Z.eqb_spec raw 0); lia. }
    assert (HtR : 1 <= IZR total) by now apply IZR_le.
    destruct (int_of_nonneg (IZR total * (IZR 20 / 100)) ltac:(nra)) as [Ho1 Ho2].
    destruct (int_of_nonneg (IZR total * (IZR 3 / 100)) ltac:(nra)) as [Hv1 Hv2].
    set (out := int_of (IZR total * (IZR 20 / 100))) in *.
    set (v0 := int_of (IZR total * (IZR 3 / 100))) in *.
    assert (Ev : Z.max 0 v0 = v0) by lia. rewrite Ev.
    assert (Hv0 : 0 <= IZR v0) by now apply IZR_le.
    destruct (int_of_nonneg (IZR v0 * 0.2) ltac:(nra)) as [Hc1 Hc2].
    set (cr := int_of (IZR v0 * 0.2)) in *.
    assert (Ec : Z.max 0 cr = cr) by lia. rewrite Ec.
    split; [discriminate |].
    split.
    { intros _. split; [exact Ht |]. split; [apply (round_IZR 20 1) |].
      intros Hz. subst total. now rewrite Hz. }
    split; [exact Ho1 |].
    split; [apply le_IZR; rewrite mult_IZR; lra |].
    split; [exact Hv1 |].
    split; [apply le_IZR; rewrite !mult_IZR; lra |].
    split; [exact Hc1 |].
    apply le_IZR. rewrite mult_IZR. lra.
Qed.

Lemma dependency_estimate_witness :
  (0 <= DependencyReport.outdated_count
          (_analyze_dependencies (fun _ => Some 12%Z) sample_contents))%Z.
Proof.
  apply (dependency_estimate (fun _ => Some 12%Z) sample_contents).
  intros name. cbn. lia.
Defined.

End ComplexityAndDependencies.

Section GeneratedAnalysis.

Lemma architecture_scale (contents : list Entry.t) :
  let report := _analyze_architecture contents in
  0 <= ArchitectureReport.modularity_score report <= 10
  /\ 0 <= ArchitectureReport.coupling_score report <= 10
  /\ 0 <= ArchitectureReport.cohesion_score report <= 10.
Proof.
  cbv zeta. unfold _analyze_architecture. cbv zeta.
  cbn [ArchitectureReport.modularity_score ArchitectureReport.coupling_score
       ArchitectureReport.cohesion_score].
  repeat split; apply (round_between 0 10) || apply (round_between 0 10);
    unfold Rmin, Rmax; repeat destruct (Rle_dec _ _); lra.
Qed.

Lemma coverage_scale (contents : list Entry.t) :
  0 <= TestCoverageReport.overall_coverage (_analyze_test_coverage contents) <= 100.
Proof.
  unfold _analyze_test_coverage. cbv zeta.
  destruct (code_files_of contents) as [| c codes];
    cbn [TestCoverageReport.overall_coverage]; [lra |].
  pose proof (test_ratio_nonneg (test_files_of contents) codes c) as Hr.
  apply (round_between 0 100). unfold Rmin. destruct (Rle_dec _ _); lra.
Qed.

Lemma maintainability_scale (contents : list Entry.t) :
  0 <= QualityReport.maintainability_index (_analyze_quality contents) <= 100.
Proof.
  unfold _analyze_quality. cbv zeta. cbn [QualityReport.maintainability_index].
  rewrite round_IZR.
  repeat match goal with
         | |- context [if existsb ?f ?l then _ else _] => destruct (existsb f l)
         end; split; apply IZR_le; lia.
Qed.

Lemma readme_scale (contents : list Entry.t) :
  0 <= DocumentationReport.readme_quality_score (_analyze_documentation contents) <= 10.
Proof.
  unfold _analyze_documentation. cbv zeta.
  cbn [DocumentationReport.readme_quality_score].
  apply (round_between 0 10).
  destruct (0 <? _)%Z; [destruct (existsb _ _) |]; lra.
Qed.

Lemma dependency_scale (counted : string -> option Z) (contents : list Entry.t) :
  let report := _analyze_dependencies counted contents in
  (0 <= DependencyReport.security_vulnerabilities report)%Z
  /\ (0 <= DependencyReport.critical_vulnerabilities report)%Z
  /\ 0 <= DependencyReport.outdated_percentage report <= 100.
Proof.
  cbv zeta. unfold _analyze_dependencies. cbv zeta.
  destruct (found_deps_of contents) as [| f rest];
    cbn [DependencyReport.security_vulnerabilities
         DependencyReport.critical_vulnerabilities
         DependencyReport.outdated_percentage].
  - repeat split; try lia; lra.
  - rewrite (round_IZR 20 1). repeat split; try lia; lra.
Qed.

Lemma unicorn_score_with_range (inputs : ValuationInputs) (a : CodebaseAnalysis) :
  repo_data_ok (repo_data inputs) -> analysis_ok a ->
  has_codebase_analysis (Some a) = true ->
  28.2 <= unicorn_score_of inputs (Some a) <= 106.
Proof.
  intros (_ & Hs & _) Ha Has.
  pose proof (community_momentum_round (stars_of inputs) (forks_of inputs)
                (watchers_of inputs)) as Hcm.
  pose proof (development_velocity_round (contributors_of inputs) (commits_of inputs)
                (frequency_of inputs)) as Hdv.
  pose proof (market_potential_round (stars_of inputs) (forks_of inputs)
                (contributors_of inputs)) as Hmp.
  pose proof (round_between 0 130 _ 1
                (enhanced_tech_quality_bounds _ a Ha (base_tech_quality_bounds _ Hs)))
    as Htq.
  fold (scores_of inputs) in Htq.
  destruct (analysis_items_bounds a Ha) as [Hcq Hsp].
  rewrite unicorn_score_with_eq by assumption. split.
  - replace 28.2 with (IZR 282 / 10 ^ 1) by (simpl; lra).
    apply round1_ge. simpl. lra.
  - apply (round_between 0 106). lra.
Qed.

(** X26: what [analyze_codebase] produces is a well-formed input of the
    Unicorn Hunter, whatever the listing and the sections asked for: all
    marks and percentages are on their scales.  For a repository that was
    found the status is "success", the analysis is trusted, and the
    unicorn score of a well-formed repository lies between 28.2 and 106;
    for one that was not found the status is "failed" and the valuation is
    the one without analysis. *)
Theorem generated_analysis_is_well_formed (repo_found : bool)
    (response : ContentsResponse) (counted : string -> option Z)
    (analysis_depth : string) (include_metrics : list string) :
  let report := analyze_codebase repo_found response counted analysis_depth
                  include_metrics in
  let analysis := as_codebase_analysis report in
  analysis_ok analysis
  /\ (repo_found = true ->
      CodebaseReport.status report = "success"%string
      /\ has_codebase_analysis (Some analysis) = true
      /\ forall inputs, repo_data_ok (repo_data inputs) ->
           28.2 <= unicorn_score (calculate_unicorn_hunter inputs (Some analysis)) <= 106)
  /\ (repo_found = false ->
      CodebaseReport.status report = "failed"%string
      /\ forall inputs, calculate_unicorn_hunter inputs (Some analysis)
                        = calculate_unicorn_hunter inputs None).
Proof.
  intros report analysis.
  assert (Hok : analysis_ok analysis).
  { subst analysis report. unfold analyze_codebase.
    destruct repo_found; cbn [negb].
    - set (contents := match response with
                       | Listing entries => entries
                       | SingleFile entry =>
                           if truthy_str (Entry.type entry) then [entry] else []
                       end).
      pose proof (architecture_scale contents) as (A1 & A2 & A3).
      pose proof (coverage_scale contents) as C1.
      pose proof (maintainability_scale contents) as M1.
      pose proof (readme_scale contents) as D1.
      pose proof (dependency_scale counted contents) as (V1 & V2 & V3).
      unfold analysis_ok, as_codebase_analysis.
      cbn [CodebaseReport.quality_scores CodebaseReport.architecture
           CodebaseReport.dependencies CodebaseReport.test_coverage
           CodebaseReport.documentation quality_scores architecture dependencies
           test_coverage documentation].
      destruct (wanted "quality" include_metrics);
        destruct (wanted "architecture" include_metrics);
        destruct (wanted "dependencies" include_metrics);
        destruct (wanted "tests" include_metrics);
        destruct (wanted "documentation" include_metrics);
        cbn [option_map Py.get maintainability_index modularity_score coupling_score
             cohesion_score security_vulnerabilities critical_vulnerabilities
             outdated_percentage overall_coverage readme_quality_score
             no_quality_scores no_architecture no_dependencies no_test_coverage
             no_documentation range_ok count_ok];
        repeat split; try exact I; try lia; lra.
    - unfold analysis_ok, as_codebase_analysis. cbn. repeat split; exact I. }
  split; [exact Hok |]. split.
  - intros ->. subst analysis report. unfold analyze_codebase. cbn [negb].
    cbn [CodebaseReport.status].
    split; [reflexivity |].
    assert (Has : has_codebase_analysis
                    (Some (as_codebase_analysis
                             (analyze_codebase true response counted analysis_depth
                                include_metrics))) = true) by reflexivity.
    split; [exact Has |].
    intros inputs Hin. unfold calculate_unicorn_hunter. cbn [unicorn_score].
    apply unicorn_score_with_range; assumption.
  - intros ->. subst analysis report. split; [reflexivity |].
    intros inputs.
    assert (Hs : component_scores_of inputs
                   (Some (as_codebase_analysis
                            (analyze_codebase false response counted analysis_depth
                               include_metrics)))
                 = component_scores_of inputs None).
    { now rewrite component_scores_without. }
    unfold calculate_unicorn_hunter, unicorn_score_of. rewrite Hs. reflexivity.
Qed.

End GeneratedAnalysis.

(** ** File-name predicates *)

Section FileNames.

Open Scope string_scope.

Lemma str_append_assoc (a b c : string) : (a ++ b) ++ c = a ++ (b ++ c).
Proof. induction a as [| x a IH]; cbn; [reflexivity | now rewrite IH]. Qed.

Lemma prefix_append (p r : string) : String.prefix p (p ++ r) = true.
Proof.
  induction p as [| x p IH]; cbn; [destruct r; reflexivity |].
  destruct (Ascii.ascii_dec x x) as [_ | n]; [exact IH | now destruct n].
Qed.

Lemma prefix_split (p s : string) :
  String.prefix p s = true -> exists r, s = p ++ r.
Proof.
  revert s. induction p as [| x p IH]; intros s H.
  - exists s. reflexivity.
  - destruct s as [| y s]; cbn in H; [discriminate |].
    destruct (Ascii.ascii_dec x y) as [-> | _]; [| discriminate].
    destruct (IH s H) as [r ->]. exists r. reflexivity.
Qed.

Lemma contains_append (a sub b : string) : Str.contains sub (a ++ sub ++ b) = true.
Proof.
  induction a as [| x a IH].
  - cbn [append]. destruct (sub ++ b) eqn:E; cbn [Str.contains];
      rewrite <- E, prefix_append; reflexivity.
  - cbn [append Str.contains]. rewrite IH. apply orb_true_r.
Qed.

Lemma contains_split (sub s : string) :
  Str.contains sub s = true -> exists a b, s = a ++ sub ++ b.
Proof.
  induction s as [| x s IH]; cbn [Str.contains]; intros H.
  - rewrite orb_false_r in H. destruct (prefix_split _ _ H) as [r E].
    exists "", r. exact E.
  - apply orb_true_iff in H. destruct H as [H | H].
    + destruct (prefix_split _ _ H) as [r E]. exists "", r. exact E.
    + destruct (IH H) as (a & b & ->). exists (String x a), b. reflexivity.
Qed.

(** A string that contains [pre ++ sub ++ post] contains [sub]. *)
Lemma contains_inner (pre sub post s : string) :
  Str.contains (pre ++ sub ++ post) s = true -> Str.contains sub s = true.
Proof.
  intros H. destruct (contains_split _ _ H) as (a & b & ->).
  replace (a ++ (pre ++ sub ++ post) ++ b) with ((a ++ pre) ++ sub ++ (post ++ b)).
  - apply contains_append.
  - now rewrite !str_append_assoc.
Qed.

Lemma lower_char_idempotent (c : Ascii.ascii) :
  Str.lower_char (Str.lower_char c) = Str.lower_char c.
Proof.
  destruct c as [b0 b1 b2 b3 b4 b5 b6 b7].
  destruct b0, b1, b2, b3, b4, b5, b6, b7; reflexivity.
Qed.

Lemma lower_idempotent (s : string) : Str.lower (Str.lower s) = Str.lower s.
Proof.
  induction s as [| c s IH]; cbn [Str.lower]; [reflexivity |].
  now rewrite lower_char_idempotent, IH.
Qed.

(** X27: both file-name predicates ignore the case of ASCII letters, and
    a file counts as a test file exactly when its lower-cased name
    contains "test" or "spec": the indicators "__test__" and "__tests__"
    never decide anything. *)
Theorem file_name_predicates (filename : string) :
  _is_test_file filename
  = Str.contains "test" (Str.lower filename) || Str.contains "spec" (Str.lower filename)
  /\ _is_test_file (Str.lower filename) = _is_test_file filename
  /\ _is_code_file (Str.lower filename) = _is_code_file filename.
Proof.
  split; [| split].
  - unfold _is_test_file, test_indicators. cbn [existsb].
    destruct (Str.contains "test" (Str.lower filename)) eqn:Et; [reflexivity |].
    destruct (Str.contains "spec" (Str.lower filename)); [reflexivity |].
    cbn [orb].
    destruct (Str.contains "__test__" (Str.lower filename)) eqn:E1.
    { apply (contains_inner "__" "test" "__") in E1. congruence. }
    destruct (Str.contains "__tests__" (Str.lower filename)) eqn:E2.
    { apply (contains_inner "__" "test" "s__") in E2. congruence. }
    reflexivity.
  - unfold _is_test_file. now rewrite lower_idempotent.
  - unfold _is_code_file. now rewrite lower_idempotent.
Qed.

End FileNames.

(** ** The valuation figures of produced scores *)

Section ProducedScores.



End ProducedScores.
